(** * Complexity scoring, baseline threshold check and alert aggregation

    A shallow embedding of the scripts under [scripts/]:
    - [static-complexity-check.py]   ([MarkdownComplexityAnalyzer])
    - [gpt-complexity-analyzer.py]   ([GPTComplexityAnalyzer])
    - [check-complexity-threshold.py] ([ComplexityThresholdChecker])
    - [create-complexity-alert.py]   ([create_alert])
    - [generate-complexity-summary.py] ([generate_summary])

    Conventions of the embedding.
    - Python numbers read from or written to the JSON result files are exact
      rationals ([Q]); Python [int]s that stay integers are [Z].
    - A Python [dict] whose iteration order is observable (the baseline
      table, [file_analysis]) is an association list in insertion order.
    - A results dictionary read with [.get]/[in] is a record of optional
      fields; the record stands for a non-empty dictionary, and the empty
      dictionary [{}] returned by the loaders is [None].
    - An f-string is kept as the constructor of the message it builds,
      together with the values interpolated in it.
    - Exceptions are explicit: a computation returns [Ok v] or [Raise e].
    - The ratings the hosted model gives are numbers in [GptResults], [Gpt]
      and [Checker], and JSON values of any type in [GptJson],
      [CheckerJson] and [SemanticRun], where comparing them can raise. *)

From Stdlib Require Import ZArith QArith Bool List String Ascii.
From Stdlib Require Import DecimalString.
From Stdlib Require Import Permutation Sorted Lia Lqa.
Import ListNotations.

Local Open Scope string_scope.
Local Open Scope list_scope.
Local Open Scope Z_scope.
Local Open Scope Q_scope.

Set Implicit Arguments.

(** ** Exceptions *)

Module Py.

Inductive exn : Type :=
| FileNotFoundError
| JSONDecodeError
| ZeroDivisionError
| KeyError
| TypeError.

Inductive result (A : Type) : Type :=
| Ok (v : A)
| Raise (e : exn).

Arguments Ok {A} v.
Arguments Raise {A} e.

Definition bind {A B : Type} (m : result A) (k : A -> result B) : result B :=
  match m with
  | Ok v => k v
  | Raise e => Raise e
  end.

(** [for x in xs: body] over an accumulator, stopping at the first exception. *)
Fixpoint for_each {A S : Type} (body : S -> A -> result S) (xs : list A) (s : S)
  : result S :=
  match xs with
  | [] => Ok s
  | x :: xs' => bind (body s x) (for_each body xs')
  end.

Definition is_FileNotFoundError (e : exn) : bool :=
  match e with FileNotFoundError => true | _ => false end.

Definition is_JSONDecodeError (e : exn) : bool :=
  match e with JSONDecodeError => true | _ => false end.

(** [a > b] on numbers. *)
Definition gt (a b : Q) : bool :=
  match a ?= b with
  | Gt => true
  | _ => false
  end.

(** [a < b] on numbers. *)
Definition lt (a b : Q) : bool := gt b a.

(** [a / b] on numbers: division by zero raises. *)
Definition truediv (a b : Q) : result Q :=
  if Qeq_bool b 0 then Raise ZeroDivisionError else Ok (a / b).

(** [sub in s] on strings. *)
Fixpoint contains (sub s : string) : bool :=
  String.prefix sub s
  || match s with
     | EmptyString => false
     | String _ s' => contains sub s'
     end.

(** Truth value of a string: the empty string is falsy. *)
Definition truthy_str (s : string) : bool :=
  match s with
  | EmptyString => false
  | String _ _ => true
  end.

(** Scan for [s.count(sub)] with a non-empty [sub]: occurrences are counted
    left to right and do not overlap; [skip] characters of a counted
    occurrence remain to be passed over. *)
Fixpoint count_from (sub s : string) (skip : nat) : nat :=
  match s with
  | EmptyString => O
  | String _ s' =>
      match skip with
      | S k => count_from sub s' k
      | O => if String.prefix sub s
             then S (count_from sub s' (String.length sub - 1))
             else count_from sub s' O
      end
  end.

(** [s.count(sub)]. *)
Definition count (s sub : string) : nat :=
  match sub with
  | EmptyString => S (String.length s)
  | String _ _ => count_from sub s O
  end.

(** [str(n)] for a non-negative [int]. *)
Definition str_of_nat (n : nat) : string :=
  NilEmpty.string_of_uint (Nat.to_uint n).

(** The file a loader opens: absent, present but not JSON, or a JSON
    document decoded to [A]. *)
Inductive json_file (A : Type) : Type :=
| Missing
| Unparsable
| Parsed (v : A).

Arguments Missing {A}.
Arguments Unparsable {A}.
Arguments Parsed {A} v.

(** [with open(name) as f: return json.load(f)]. *)
Definition open_json_load {A : Type} (f : json_file A) : result A :=
  match f with
  | Missing => Raise FileNotFoundError
  | Unparsable => Raise JSONDecodeError
  | Parsed v => Ok v
  end.

(** What a script printed on standard output, oldest line first. *)
Definition stdout := list string.

(** A script step: the lines it printed, and its value or the exception
    that ended it. *)
Definition io (A : Type) : Type := (stdout * result A)%type.

Definition io_ret {A : Type} (v : A) : io A := ([], Ok v).

Definition io_bind {A B : Type} (m : io A) (k : A -> io B) : io B :=
  match m with
  | (out, Ok v) => let (out', r) := k v in (out ++ out', r)
  | (out, Raise e) => (out, Raise e)
  end.

(** [print(s)]. *)
Definition print (s : string) : io unit := ([s], Ok tt).

(** A computation that prints nothing. *)
Definition lift {A : Type} (m : result A) : io A := ([], m).

(** [try: m  except ...: handler] around a step that may print. *)
Definition io_try_except {A : Type} (m : io A) (caught : exn -> bool)
           (handler : io A) : io A :=
  match m with
  | (out, Ok v) => (out, Ok v)
  | (out, Raise e) =>
      if caught e then let (out', r) := handler in (out ++ out', r)
      else (out, Raise e)
  end.

(** Exit status of a script whose last statement is
    [sys.exit(0 if success else 1)]; the interpreter exits with status 1
    when an exception reaches the top level. *)
Definition exit_status (run : io bool) : Z :=
  match snd run with
  | Ok true => 0%Z
  | Ok false => 1%Z
  | Raise _ => 1%Z
  end.

End Py.

Import Py.

Declare Scope py_scope.
Delimit Scope py_scope with py.

Notation "x <- m ;; k" := (Py.bind m (fun x => k))
  (at level 61, m at next level, right associativity) : py_scope.
Notation "x <~ m ;; k" := (Py.io_bind m (fun x => k))
  (at level 61, m at next level, right associativity) : py_scope.

Local Open Scope py_scope.

(** ** Messages

    One constructor per f-string or literal the scripts put in a report;
    [MsgText] carries a string that is copied from a results file. *)

Inductive severity : Type := critical | warning.

Inductive message : Type :=
| MsgExceeded (sev : severity) (file : string) (excess_percentage : Q)
    (* critical: "CRITICAL: {file} is {excess:.1f}% over threshold";
       warning:  "WARNING: {file} exceeds threshold by {excess:.1f}%" *)
| MsgSemantic (file : string) (complexity : Q)
    (* "SEMANTIC: {file} has high semantic complexity ({complexity}/10)" *)
| MsgCursor (file : string) (cursor_compatibility : Q)
    (* "CURSOR: {file} has low Cursor compatibility ({compat}/10)" *)
| MsgSplit
    (* "Consider splitting complex files into smaller, more manageable modules" *)
| MsgReview
    (* "Review and simplify mandatory rules that might be causing conflicts" *)
| MsgConsolidate
    (* "Consider consolidating similar rule files to reduce complexity" *)
| MsgText (s : string).

(** ** The results files, as the consumers read them back *)

(** [static-complexity-results.json]. *)
Module StaticResults.

(** One value of ['file_analysis']: ['complexity_score'] is read with a
    subscript, ['size_kb'] and ['line_count'] with [.get]. *)
Record analysis : Type := {
  complexity_score : Q;
  size_kb : option Q;
  line_count : option Z
}.

(** One element of ['high_complexity_files']. *)
Record high_file : Type := {
  file : string;
  score : Q
}.

Record t : Type := {
  high_complexity_files : option (list high_file);
  conflicts_found : option (list string);
  best_practice_violations : option (list string);
  recommendations : option (list string);
  file_analysis : option (list (string * analysis))
}.

End StaticResults.

(** [gpt-complexity-results.json], when the ratings it holds are numbers
    and its labels are strings. *)
Module GptResults.

(** One element of ['high_complexity_files'] with numbers for ratings. *)
Record high_file : Type := {
  file : string;
  complexity : Q;
  cursor_compatibility : Q
}.

Record t : Type := {
  rule_conflicts : option (list string);
  best_practice_violations : option (list string);
  cursor_compatibility_issues : option (list string);
  high_complexity_files : option (list high_file)
}.

End GptResults.

(** [d.get(key, default)] on an optional field. *)
Definition get {A : Type} (field : option A) (default : A) : A :=
  match field with
  | Some v => v
  | None => default
  end.

(** ** check-complexity-threshold.py *)

Module Checker.

Record ComplexityThresholdChecker : Type := {
  baseline : list (string * Z);
  threshold_multiplier : Q
}.

(** [ComplexityThresholdChecker.__init__]. *)
Definition init : ComplexityThresholdChecker := {|
  baseline := [
    ("workflow-level4.mdc", 80%Z);
    ("reflection-comprehensive.mdc", 70%Z);
    ("architectural-planning.mdc", 90%Z);
    ("phased-implementation.mdc", 75%Z);
    ("main-optimized.mdc", 60%Z);
    ("hierarchical-rule-loading.mdc", 45%Z);
    ("mode-transition-optimization.mdc", 40%Z);
    ("optimization-integration.mdc", 50%Z);
    ("optimized-workflow-level1.mdc", 30%Z);
    ("optimized-creative-template.mdc", 35%Z)
  ];
  threshold_multiplier := 2
|}.

Record exceeded_info : Type := {
  file : string;
  current_score : Q;
  baseline_score : Z;
  threshold : Q;
  excess_percentage : Q;
  size_kb : Q;
  line_count : Z
}.

Record summary_t : Type := {
  files_checked : Z;
  files_exceeded : Z;
  total_baseline : Z;
  total_current : Q
}.

Record threshold_report : Type := {
  timestamp : string;
  threshold_exceeded : bool;
  exceeded_files : list exceeded_info;
  warnings : list message;
  recommendations : list message;
  summary : summary_t
}.

(** [d.keys()], [d.values()] and [d[k]] on the baseline table. *)
Definition keys (d : list (string * Z)) : list string := map fst d.

Definition values (d : list (string * Z)) : list Z := map snd d.

Fixpoint getitem (d : list (string * Z)) (k : string) : result Z :=
  match d with
  | [] => Raise KeyError
  | (k', v) :: d' => if String.eqb k' k then Ok v else getitem d' k
  end.

(** [sum(xs)]. *)
Definition sum (xs : list Z) : Z := fold_left Z.add xs 0%Z.

(** [load_static_results]: only [FileNotFoundError] is caught. *)
Definition load_static_results (f : json_file (option StaticResults.t))
  : io (option StaticResults.t) :=
  io_try_except (lift (open_json_load f)) is_FileNotFoundError
    (_ <~ print "No static complexity results found";; io_ret None).

(** [load_gpt_results]: only [FileNotFoundError] is caught. *)
Definition load_gpt_results (f : json_file (option GptResults.t))
  : io (option GptResults.t) :=
  io_try_except (lift (open_json_load f)) is_FileNotFoundError
    (_ <~ print "No GPT complexity results found";; io_ret None).

(** The search loop
    [for baseline_name in self.baseline.keys():
       if baseline_name in file_path: baseline_file = baseline_name; break],
    with [None] when the loop ends without a match. *)
Fixpoint find_baseline (names : list string) (file_path : string)
  : option string :=
  match names with
  | [] => None
  | baseline_name :: rest =>
      if Py.contains baseline_name file_path then Some baseline_name
      else find_baseline rest file_path
  end.

(** [summary['files_checked'] += 1; summary['total_current'] += score]. *)
Definition count_file (report : threshold_report) (score : Q)
  : threshold_report := {|
  timestamp := timestamp report;
  threshold_exceeded := threshold_exceeded report;
  exceeded_files := exceeded_files report;
  warnings := warnings report;
  recommendations := recommendations report;
  summary := {|
    files_checked := files_checked (summary report) + 1;
    files_exceeded := files_exceeded (summary report);
    total_baseline := total_baseline (summary report);
    total_current := total_current (summary report) + score
  |}
|}.

(** [threshold_exceeded = True; summary['files_exceeded'] += 1;
    exceeded_files.append(info); recommendations.append(rec)]. *)
Definition record_exceeded (report : threshold_report) (info : exceeded_info)
           (rec : message) : threshold_report := {|
  timestamp := timestamp report;
  threshold_exceeded := true;
  exceeded_files := exceeded_files report ++ [info];
  warnings := warnings report;
  recommendations := recommendations report ++ [rec];
  summary := {|
    files_checked := files_checked (summary report);
    files_exceeded := files_exceeded (summary report) + 1;
    total_baseline := total_baseline (summary report);
    total_current := total_current (summary report)
  |}
|}.

Definition add_warnings (report : threshold_report) (ws : list message)
  : threshold_report := {|
  timestamp := timestamp report;
  threshold_exceeded := threshold_exceeded report;
  exceeded_files := exceeded_files report;
  warnings := warnings report ++ ws;
  recommendations := recommendations report;
  summary := summary report
|}.

Definition add_recommendations (report : threshold_report)
           (rs : list message) : threshold_report := {|
  timestamp := timestamp report;
  threshold_exceeded := threshold_exceeded report;
  exceeded_files := exceeded_files report;
  warnings := warnings report;
  recommendations := recommendations report ++ rs;
  summary := summary report
|}.

(** Body of the loop over [static_results['file_analysis'].items()]. *)
Definition check_file (self : ComplexityThresholdChecker)
           (report : threshold_report)
           (item : string * StaticResults.analysis) : result threshold_report :=
  let (file_path, analysis) := item in
  let report := count_file report (StaticResults.complexity_score analysis) in
  match find_baseline (keys (baseline self)) file_path with
  | None => Ok report
  | Some baseline_file =>
      if negb (truthy_str baseline_file) then Ok report
      else
        baseline_score <- getitem (baseline self) baseline_file ;;
        let threshold := inject_Z baseline_score * threshold_multiplier self in
        let current_score := StaticResults.complexity_score analysis in
        if Py.gt current_score threshold then
          ratio <- truediv (current_score - threshold) threshold ;;
          let info := {|
            file := file_path;
            current_score := current_score;
            baseline_score := baseline_score;
            threshold := threshold;
            excess_percentage := ratio * 100;
            size_kb := get (StaticResults.size_kb analysis) 0;
            line_count := get (StaticResults.line_count analysis) 0%Z
          |} in
          if Py.gt (excess_percentage info) 50
          then Ok (record_exceeded report info
                     (MsgExceeded critical file_path (excess_percentage info)))
          else Ok (record_exceeded report info
                     (MsgExceeded warning file_path (excess_percentage info)))
        else Ok report
  end.

(** Body of the loop over [gpt_results['high_complexity_files']], for an
    entry whose ratings are numbers: the two comparisons do not raise. *)
Definition check_semantic (report : threshold_report)
           (file_info : GptResults.high_file) : threshold_report :=
  let report :=
    if Py.gt (GptResults.complexity file_info) 8
    then add_warnings report
           [MsgSemantic (GptResults.file file_info)
                        (GptResults.complexity file_info)]
    else report in
  if Py.lt (GptResults.cursor_compatibility file_info) 5
  then add_warnings report
         [MsgCursor (GptResults.file file_info)
                    (GptResults.cursor_compatibility file_info)]
  else report.

(** The report dictionary before any file is looked at; [now] is the
    reading of [datetime.now().isoformat()]. *)
Definition empty_report (self : ComplexityThresholdChecker) (now : string)
  : threshold_report := {|
  timestamp := now;
  threshold_exceeded := false;
  exceeded_files := [];
  warnings := [];
  recommendations := [];
  summary := {|
    files_checked := 0;
    files_exceeded := 0;
    total_baseline := sum (values (baseline self));
    total_current := 0
  |}
|}.

(** "Check static analysis results". *)
Definition check_static_results (self : ComplexityThresholdChecker)
           (report : threshold_report)
           (static_results : option StaticResults.t)
  : result threshold_report :=
  match static_results with
  | Some sr =>
      match StaticResults.file_analysis sr with
      | Some items => for_each (check_file self) items report
      | None => Ok report
      end
  | None => Ok report
  end.

(** "Check GPT analysis results". *)
Definition check_gpt_results (report : threshold_report)
           (gpt_results : option GptResults.t) : threshold_report :=
  match gpt_results with
  | Some gr =>
      match GptResults.high_complexity_files gr with
      | Some infos => fold_left check_semantic infos report
      | None => report
      end
  | None => report
  end.

(** "Generate overall recommendations". *)
Definition overall_recommendations (report : threshold_report)
  : threshold_report :=
  let report :=
    if threshold_exceeded report
    then add_recommendations report [MsgSplit; MsgReview]
    else report in
  if (Z.of_nat (List.length (warnings report)) >? 5)%Z
  then add_recommendations report [MsgConsolidate]
  else report.

(** The part of [check_threshold] after the two files are loaded. *)
Definition check_loaded (self : ComplexityThresholdChecker) (now : string)
           (static_results : option StaticResults.t)
           (gpt_results : option GptResults.t) : result threshold_report :=
  report <- check_static_results self (empty_report self now) static_results ;;
  Ok (overall_recommendations (check_gpt_results report gpt_results)).

Definition check_threshold (self : ComplexityThresholdChecker) (now : string)
           (static_file : json_file (option StaticResults.t))
           (gpt_file : json_file (option GptResults.t))
  : io threshold_report :=
  static_results <~ load_static_results static_file ;;
  gpt_results <~ load_gpt_results gpt_file ;;
  lift (check_loaded self now static_results gpt_results).

(** [main]: its value is [False] when the threshold is exceeded.  The
    console summary and the two report files it writes from [report] are
    not part of the model. *)
Definition main (now : string)
           (static_file : json_file (option StaticResults.t))
           (gpt_file : json_file (option GptResults.t)) : io bool :=
  report <~ check_threshold init now static_file gpt_file ;;
  if threshold_exceeded report then io_ret false else io_ret true.

(** A line of the report [generate_report] builds; pictographs in the
    headings are left out. *)
Inductive report_line : Type :=
| RText (s : string)
| RGenerated (stamp : string)        (* "**Generated:** {timestamp}" *)
| RFilesChecked (n : Z)              (* "- Files checked: {n}" *)
| RFilesExceeded (n : Z)             (* "- Files exceeded threshold: {n}" *)
| RTotalBaseline (n : Z)             (* "- Total baseline complexity: {n}" *)
| RTotalCurrent (q : Q)              (* "- Total current complexity: {q:.1f}" *)
| RFile (path : string)              (* "### {file}" *)
| RCurrent (q : Q)                   (* "- **Current Score:** {q:.1f}" *)
| RBaseline (z : Z)                  (* "- **Baseline:** {z}" *)
| RThreshold (q : Q)                 (* "- **Threshold:** {q}" *)
| RExcess (q : Q)                    (* "- **Excess:** {q:.1f}%" *)
| RSize (kb : Q) (lines : Z)         (* "- **Size:** {kb:.1f} KB, {lines} lines" *)
| RBullet (m : message).             (* "- {m}" *)

(** One step of [sorted(..., key=lambda x: x['excess_percentage'],
    reverse=True)]: [x], which precedes the elements of [rest] in the
    input, goes after the elements with a larger key and before those with
    an equal or smaller one. *)
Fixpoint insert_by_excess (x : exceeded_info) (rest : list exceeded_info)
  : list exceeded_info :=
  match rest with
  | [] => [x]
  | y :: rest' =>
      if Py.lt (excess_percentage x) (excess_percentage y)
      then y :: insert_by_excess x rest'
      else x :: y :: rest'
  end.

(** [sorted(infos, key=lambda x: x['excess_percentage'], reverse=True)]:
    descending, and stable as Python's sort is. *)
Definition sorted_by_excess (infos : list exceeded_info)
  : list exceeded_info :=
  fold_right insert_by_excess [] infos.

Definition file_section (info : exceeded_info) : list report_line :=
  [ RFile (file info);
    RCurrent (current_score info);
    RBaseline (baseline_score info);
    RThreshold (threshold info);
    RExcess (excess_percentage info);
    RSize (size_kb info) (line_count info);
    RText EmptyString ].

(** [generate_report]: the lines joined by the final ["\n".join]. *)
Definition generate_report (report : threshold_report) : list report_line :=
  let report_text :=
    [ RText "# COMPLEXITY THRESHOLD REPORT";
      RGenerated (timestamp report);
      RText EmptyString;
      RText "## SUMMARY";
      RFilesChecked (files_checked (summary report));
      RFilesExceeded (files_exceeded (summary report));
      RTotalBaseline (total_baseline (summary report));
      RTotalCurrent (total_current (summary report));
      RText EmptyString ] in
  let report_text :=
    match exceeded_files report with
    | [] => report_text
    | _ :: _ =>
        report_text ++ [RText "## THRESHOLD EXCEEDED FILES"]
        ++ flat_map file_section (sorted_by_excess (exceeded_files report))
    end in
  let report_text :=
    match warnings report with
    | [] => report_text
    | _ :: _ =>
        report_text ++ [RText "## WARNINGS"]
        ++ map RBullet (warnings report) ++ [RText EmptyString]
    end in
  match recommendations report with
  | [] => report_text
  | _ :: _ =>
      report_text ++ [RText "## RECOMMENDATIONS"]
      ++ map RBullet (recommendations report) ++ [RText EmptyString]
  end.

End Checker.

(** ** create-complexity-alert.py *)

Module Alert.

(** A line of the alert; pictographs in the headings are left out. *)
Inductive line : Type :=
| Literal (s : string)
| ExceededFile (file : string)          (* "- **`{file}`**" *)
| ExceededCurrent (current_score : Q)    (* "  - Current: {:.1f}" *)
| ExceededBaseline (baseline_score : Z)  (* "  - Baseline: {}" *)
| ExceededThreshold (threshold : Q)      (* "  - Threshold: {}" *)
| ExceededExcess (excess_percentage : Q) (* "  - **Excess: {:.1f}%**" *)
| StaticHigh (file : string) (score : Q)
    (* "- **`{file}`**: {score:.1f} complexity" *)
| SemanticHigh (file : string) (complexity : Q)
    (* "- **`{file}`**: {complexity}/10 complexity" *)
| Bullet (m : message).                  (* "- {m}" *)

(** A Python [set] of strings, built by [set(xs)]. *)
Inductive pyset : Type := PySet (elements : list string).

Definition set_of (xs : list string) : pyset :=
  PySet (nodup string_dec xs).

(** [for x in s] on a set: its elements, each once.  Python fixes no order;
    the model lists them in the order of their last occurrence. *)
Definition set_iter (s : pyset) : list string :=
  match s with
  | PySet elements => elements
  end.

(** [s[:stop]] on a set: [set] has no [__getitem__], so the subscript
    raises [TypeError: 'set' object is not subscriptable]. *)
Definition set_getitem_slice (s : pyset) (stop : nat) : result (list string) :=
  Raise TypeError.

(** Truth value of a list. *)
Definition truthy {A : Type} (xs : list A) : bool :=
  match xs with
  | [] => false
  | _ :: _ => true
  end.

(** [load_json_file]: a missing file and a file that is not JSON both give
    [{}]; nothing is printed. *)
Definition load_json_file {A : Type} (f : json_file (option A))
  : io (option A) :=
  io_try_except
    (io_try_except (lift (open_json_load f)) is_FileNotFoundError
                   (io_ret None))
    is_JSONDecodeError (io_ret None).

(** [results.get(key, [])] guarded by [if results:]. *)
Definition field_or_nil {R A : Type} (results : option R)
           (field : R -> option (list A)) : list A :=
  match results with
  | Some r => get (field r) []
  | None => []
  end.

Definition exceeded_lines (info : Checker.exceeded_info) : list line :=
  [ ExceededFile (Checker.file info);
    ExceededCurrent (Checker.current_score info);
    ExceededBaseline (Checker.baseline_score info);
    ExceededThreshold (Checker.threshold info);
    ExceededExcess (Checker.excess_percentage info);
    Literal EmptyString ].

(** One deduplicated section:
    [if items: parts.append(title)
               for x in set(items)[:10]: parts.append(f"- {x}")
               parts.append(empty line)]. *)
Definition set_section (alert_parts : list line) (title : string)
           (items : list string) : result (list line) :=
  if truthy items then
    let alert_parts := alert_parts ++ [Literal title] in
    top <- set_getitem_slice (set_of items) 10 ;;
    Ok (alert_parts ++ map (fun x => Bullet (MsgText x)) top ++ [Literal EmptyString])
  else Ok alert_parts.

(** The part of [create_alert] after the three files are loaded. *)
Definition build_alert (threshold_results : option Checker.threshold_report)
           (static_results : option StaticResults.t)
           (gpt_results : option GptResults.t) : result (list line) :=
  let alert_parts :=
    [ Literal "# COMPLEXITY THRESHOLD EXCEEDED"; Literal EmptyString;
      Literal "## Critical Issues Detected"; Literal EmptyString ] in
  (* Threshold exceeded files *)
  let exceeded :=
    match threshold_results with
    | Some r => Checker.exceeded_files r
    | None => []
    end in
  let alert_parts :=
    if truthy exceeded
    then alert_parts ++ [Literal "### Files Exceeding Threshold"]
                     ++ flat_map exceeded_lines exceeded
    else alert_parts in
  (* High complexity files from static analysis *)
  let static_high :=
    field_or_nil static_results StaticResults.high_complexity_files in
  let alert_parts :=
    if truthy static_high
    then alert_parts ++ [Literal "### High Complexity Files (Static)"]
           ++ map (fun i => StaticHigh (StaticResults.file i)
                                       (StaticResults.score i))
                  (firstn 5 static_high)
           ++ [Literal EmptyString]
    else alert_parts in
  (* High complexity files from GPT analysis *)
  let gpt_high := field_or_nil gpt_results GptResults.high_complexity_files in
  let alert_parts :=
    if truthy gpt_high
    then alert_parts ++ [Literal "### High Semantic Complexity (GPT)"]
           ++ map (fun i => SemanticHigh (GptResults.file i)
                                         (GptResults.complexity i))
                  (firstn 5 gpt_high)
           ++ [Literal EmptyString]
    else alert_parts in
  (* Rule conflicts *)
  let conflicts :=
    field_or_nil static_results StaticResults.conflicts_found
    ++ field_or_nil gpt_results GptResults.rule_conflicts in
  alert_parts <-
    set_section alert_parts "### Rule Conflicts Detected" conflicts ;;
  (* Best practice violations *)
  let violations :=
    field_or_nil static_results StaticResults.best_practice_violations
    ++ field_or_nil gpt_results GptResults.best_practice_violations in
  alert_parts <-
    set_section alert_parts "### Best Practice Violations" violations ;;
  (* Cursor compatibility issues *)
  alert_parts <-
    set_section alert_parts "### Cursor Compatibility Issues"
      (field_or_nil gpt_results GptResults.cursor_compatibility_issues) ;;
  (* Recommendations *)
  let recommendations :=
    match threshold_results with
    | Some r => Checker.recommendations r
    | None => []
    end
    ++ map MsgText
         (field_or_nil static_results StaticResults.recommendations) in
  let alert_parts :=
    if truthy recommendations
    then alert_parts ++ [Literal "## Immediate Actions Required"]
           ++ map Bullet (firstn 10 recommendations) ++ [Literal EmptyString]
    else alert_parts in
  Ok (alert_parts ++
      [ Literal "## Next Steps";
        Literal "1. **Review detailed reports** in the workflow artifacts";
        Literal "2. **Simplify complex files** by splitting into smaller modules";
        Literal "3. **Resolve rule conflicts** by consolidating similar rules";
        Literal "4. **Fix best practice violations** in code examples";
        Literal "5. **Improve Cursor compatibility** by simplifying complex workflows";
        Literal EmptyString;
        Literal "## Reports Available";
        Literal "- `static-complexity-results.json` - Static analysis results";
        Literal "- `gpt-complexity-results.json` - Semantic analysis results";
        Literal "- `complexity-threshold-results.json` - Threshold check results";
        Literal "- `complexity-threshold-report.md` - Detailed threshold report" ]).

Definition create_alert
           (threshold_file : json_file (option Checker.threshold_report))
           (static_file : json_file (option StaticResults.t))
           (gpt_file : json_file (option GptResults.t)) : io (list line) :=
  threshold_results <~ load_json_file threshold_file ;;
  static_results <~ load_json_file static_file ;;
  gpt_results <~ load_json_file gpt_file ;;
  lift (build_alert threshold_results static_results gpt_results).

End Alert.

(** ** static-complexity-check.py *)

Module Analyzer.

Inductive re_flag : Type := IGNORECASE | MULTILINE.

Record indicators : Type := {
  mermaid_diagrams : Q;
  code_blocks : Q;
  nested_headers : Q;
  conditional_logic : Q;
  workflow_steps : Q;
  file_size_kb : Q;
  critical_rules : Q;
  mode_transitions : Q;
  visual_maps : Q
}.

Record MarkdownComplexityAnalyzer : Type := {
  complexity_indicators : indicators;
  conflict_patterns : list (string * string);
  best_practice_violations : list (string * string)
}.

Definition dquote : string := String (Ascii.ascii_of_nat 34) EmptyString.

(** [MarkdownComplexityAnalyzer.__init__]; patterns are the raw regular
    expression sources. *)
Definition init : MarkdownComplexityAnalyzer := {|
  complexity_indicators := {|
    mermaid_diagrams := 5;
    code_blocks := 2;
    nested_headers := 3;
    conditional_logic := 4;
    workflow_steps := 2;
    file_size_kb := 1 # 10;
    critical_rules := 3;
    mode_transitions := 2;
    visual_maps := 4
  |};
  conflict_patterns := [
    ("CRITICAL.*MANDATORY", "Mandatory rule complexity");
    ("MUST.*BEFORE", "Sequential dependency complexity");
    ("NO.*continue", "Blocking rule complexity");
    ("BLOCKED", "Blocking rule detected");
    ("REQUIRES.*MODE", "Mode dependency complexity");
    ("SWITCH.*MODE", "Mode transition complexity")
  ];
  best_practice_violations := [
    ("p\.\w+",
     String.append "Avoid "
       (String.append dquote
          (String.append "p." (String.append dquote " prefix for fields"))));
    ("import pandas as pd", "Avoid pandas aliasing");
    ("JOIN\s+(?!LEFT)", "Prefer LEFT JOIN over simple JOIN");
    ("ON\s+\w+\.\w+\s*=\s*\w+\.\w+", "Prefer USING() over ON for joins");
    ("pd\.", "Avoid pandas aliasing (pd.)");
    ("as pd", "Avoid pandas aliasing (as pd)")
  ]
|}.

(** The dictionary [analyze_file] returns. *)
Module Analysis.
Record t : Type := {
  file_path : string;
  complexity_score : Q;
  size_kb : Q;
  line_count : Z;
  issues : list string;
  conflicts : list string;
  best_practice_violations : list string;
  complexity_breakdown : list (string * Z)
}.
End Analysis.

(** The dictionary [analyze_repository] returns. *)
Module Results.
Record high_file : Type := {
  file : string;
  score : Q;
  size_kb : Q;
  line_count : Z;
  issues : list string
}.

Record summary_t : Type := {
  average_complexity : Q;
  files_with_conflicts : Z;
  files_with_violations : Z;
  total_size_kb : Q;
  total_lines : Z
}.

Record t : Type := {
  timestamp : string;
  files_analyzed : Z;
  total_complexity : Q;
  high_complexity_files : list high_file;
  conflicts_found : list string;
  best_practice_violations : list string;
  recommendations : list string;
  file_analysis : list (string * Analysis.t);
  summary : option summary_t
}.
End Results.

Definition newline : string := String (Ascii.ascii_of_nat 10) EmptyString.

(** [f"{label}: {n} instances"]. *)
Definition instances (label : string) (n : nat) : string :=
  String.append label
    (String.append ": " (String.append (str_of_nat n) " instances")).

Section Regex.

(** [re.findall(pattern, text, flags)] of the standard library: the list of
    non-overlapping matches. *)
Variable re_findall : string -> string -> list re_flag -> list string.

(** [s.count(sub)] as an [int]. *)
Definition countZ (s sub : string) : Z := Z.of_nat (Py.count s sub).

(** The loop over [self.conflict_patterns]: the state is the score and the
    ['conflicts'] list. *)
Fixpoint scan_conflicts (weight : Q) (patterns : list (string * string))
         (content : string) (acc : Q * list string) : Q * list string :=
  match patterns with
  | [] => acc
  | (pattern, description) :: rest =>
      let matches := re_findall pattern content [IGNORECASE] in
      let acc :=
        match matches with
        | [] => acc
        | _ :: _ =>
            (fst acc + inject_Z (Z.of_nat (List.length matches)) * weight,
             snd acc ++ [instances description (List.length matches)])
        end in
      scan_conflicts weight rest content acc
  end.

(** The loop over [self.best_practice_violations]. *)
Fixpoint scan_violations (patterns : list (string * string))
         (content : string) (acc : list string) : list string :=
  match patterns with
  | [] => acc
  | (pattern, violation) :: rest =>
      let matches := re_findall pattern content [IGNORECASE] in
      let acc :=
        match matches with
        | [] => acc
        | _ :: _ => acc ++ [instances violation (List.length matches)]
        end in
      scan_violations rest content acc
  end.

(** [analyze_file], from the decoded text [content] of [file_path]. *)
Definition analyze_file (self : MarkdownComplexityAnalyzer)
           (file_path content : string) : Analysis.t :=
  let w := complexity_indicators self in
  let size_kb := inject_Z (Z.of_nat (String.length content)) / 1024 in
  let line_count := Z.of_nat (S (Py.count content newline)) in
  let score : Q := 0 in
  let mermaid_count := (countZ content "graph" + countZ content "```mermaid")%Z in
  let score := score + inject_Z mermaid_count * mermaid_diagrams w in
  let code_blocks_n := countZ content "```" in
  let score := score + inject_Z code_blocks_n * code_blocks w in
  let nested_headers_n :=
    Z.of_nat (List.length (re_findall "^#{2,}" content [MULTILINE])) in
  let score := score + inject_Z nested_headers_n * nested_headers w in
  let conditional_logic_n :=
    (countZ content "if" + countZ content "else" + countZ content "switch")%Z in
  let score := score + inject_Z conditional_logic_n * conditional_logic w in
  let workflow_steps_n := (countZ content "Step" + countZ content "Phase")%Z in
  let score := score + inject_Z workflow_steps_n * workflow_steps w in
  let mode_transitions_n := (countZ content "MODE" + countZ content "switch")%Z in
  let score := score + inject_Z mode_transitions_n * mode_transitions w in
  let visual_maps_n := (countZ content "mermaid" + countZ content "graph")%Z in
  let score := score + inject_Z visual_maps_n * visual_maps w in
  let score := score + size_kb * file_size_kb w in
  let (score, conflicts) :=
    scan_conflicts (critical_rules w) (conflict_patterns self) content
                   (score, []) in
  let violations :=
    scan_violations (best_practice_violations self) content [] in
  {| Analysis.file_path := file_path;
     Analysis.complexity_score := score;
     Analysis.size_kb := size_kb;
     Analysis.line_count := line_count;
     Analysis.issues := [];
     Analysis.conflicts := conflicts;
     Analysis.best_practice_violations := violations;
     Analysis.complexity_breakdown :=
       [ ("mermaid_diagrams", mermaid_count);
         ("code_blocks", code_blocks_n);
         ("nested_headers", nested_headers_n);
         ("conditional_logic", conditional_logic_n);
         ("workflow_steps", workflow_steps_n);
         ("mode_transitions", mode_transitions_n);
         ("visual_maps", visual_maps_n) ] |}.

(** Body of the loop of [analyze_repository] over the markdown files. *)
Definition analyze_one (self : MarkdownComplexityAnalyzer)
           (results : Results.t) (doc : string * string) : Results.t :=
  let (file_path, content) := doc in
  let analysis := analyze_file self file_path content in
  {| Results.timestamp := Results.timestamp results;
     Results.files_analyzed := (Results.files_analyzed results + 1)%Z;
     Results.total_complexity :=
       Results.total_complexity results + Analysis.complexity_score analysis;
     Results.high_complexity_files :=
       if Py.gt (Analysis.complexity_score analysis) 50
       then Results.high_complexity_files results ++
            [ {| Results.file := file_path;
                 Results.score := Analysis.complexity_score analysis;
                 Results.size_kb := Analysis.size_kb analysis;
                 Results.line_count := Analysis.line_count analysis;
                 Results.issues := Analysis.issues analysis |} ]
       else Results.high_complexity_files results;
     Results.conflicts_found :=
       Results.conflicts_found results ++ Analysis.conflicts analysis;
     Results.best_practice_violations :=
       Results.best_practice_violations results
       ++ Analysis.best_practice_violations analysis;
     Results.recommendations := Results.recommendations results;
     Results.file_analysis :=
       Results.file_analysis results ++ [(file_path, analysis)];
     Results.summary := Results.summary results |}.

Definition sumQ (xs : list Q) : Q := fold_left Qplus xs 0.

(** The recommendations and the summary [analyze_repository] adds after
    the loop. *)
Definition finish (results : Results.t) : Results.t :=
  let recs := Results.recommendations results in
  let recs :=
    if Py.gt (Results.total_complexity results) 200
    then recs ++ ["Consider splitting complex files into smaller modules"]
    else recs in
  let recs :=
    match Results.conflicts_found results with
    | _ :: _ => recs ++ ["Review mandatory rules for potential conflicts"]
    | [] => recs
    end in
  let recs :=
    match Results.best_practice_violations results with
    | _ :: _ => recs ++ ["Address best practice violations in code examples"]
    | [] => recs
    end in
  let analyses := map snd (Results.file_analysis results) in
  {| Results.timestamp := Results.timestamp results;
     Results.files_analyzed := Results.files_analyzed results;
     Results.total_complexity := Results.total_complexity results;
     Results.high_complexity_files := Results.high_complexity_files results;
     Results.conflicts_found := Results.conflicts_found results;
     Results.best_practice_violations :=
       Results.best_practice_violations results;
     Results.recommendations := recs;
     Results.file_analysis := Results.file_analysis results;
     Results.summary :=
       if (Results.files_analyzed results >? 0)%Z then
         Some {|
           Results.average_complexity :=
             Results.total_complexity results
             / inject_Z (Results.files_analyzed results);
           Results.files_with_conflicts :=
             Z.of_nat (List.length
               (filter (fun f => Alert.truthy (Analysis.conflicts f)) analyses));
           Results.files_with_violations :=
             Z.of_nat (List.length
               (filter (fun f =>
                  Alert.truthy (Analysis.best_practice_violations f)) analyses));
           Results.total_size_kb := sumQ (map Analysis.size_kb analyses);
           Results.total_lines :=
             Checker.sum (map Analysis.line_count analyses)
         |}
       else None |}.

(** [analyze_repository]: [docs] are the markdown files under the
    repository root, in the order [rglob] yields them (their paths are
    distinct, so each assignment to ['file_analysis'] adds a key), each
    with its text; [now] is the reading of the clock. *)
Definition analyze_repository (self : MarkdownComplexityAnalyzer)
           (now : string) (docs : list (string * string)) : Results.t :=
  let results := {|
    Results.timestamp := now;
    Results.files_analyzed := 0;
    Results.total_complexity := 0;
    Results.high_complexity_files := [];
    Results.conflicts_found := [];
    Results.best_practice_violations := [];
    Results.recommendations := [];
    Results.file_analysis := [];
    Results.summary := None |} in
  finish (fold_left (analyze_one self) docs results).

End Regex.

(** The lines [main] prints under "CONFLICTS FOUND":
    [for conflict in set(results['conflicts_found']): print(f"  - {conflict}")]. *)
Definition main_conflict_lines (results : Results.t) : list string :=
  map (String.append "  - ")
      (Alert.set_iter (Alert.set_of (Results.conflicts_found results))).

(** What [json.dump(results, f)] writes, as the consumers read it back. *)
Definition to_json (results : Results.t) : StaticResults.t := {|
  StaticResults.high_complexity_files :=
    Some (map (fun h => {| StaticResults.file := Results.file h;
                           StaticResults.score := Results.score h |})
              (Results.high_complexity_files results));
  StaticResults.conflicts_found := Some (Results.conflicts_found results);
  StaticResults.best_practice_violations :=
    Some (Results.best_practice_violations results);
  StaticResults.recommendations := Some (Results.recommendations results);
  StaticResults.file_analysis :=
    Some (map (fun kv =>
                 (fst kv,
                  {| StaticResults.complexity_score :=
                       Analysis.complexity_score (snd kv);
                     StaticResults.size_kb := Some (Analysis.size_kb (snd kv));
                     StaticResults.line_count :=
                       Some (Analysis.line_count (snd kv)) |}))
              (Results.file_analysis results))
|}.

End Analyzer.

(** ** gpt-complexity-analyzer.py *)

Module Gpt.

Inductive analysis_type : Type :=
| rule_conflicts
| best_practices
| cursor_compatibility.

(** The dictionary [analyze_with_gpt] returns, by the keys
    [analyze_repository_semantic] looks for, when the ratings in it are
    numbers and the labels lists of strings; every key may be absent (an
    ["error"] dictionary has none of them). *)
Module Response.
Record t : Type := {
  conflicts : option (list string);
  complexity_rating : option Q;
  violations : option (list string);
  issues : option (list string);
  cursor_compatibility : option Q
}.
End Response.

(** The per-file dictionary stored in ['file_analysis']. *)
Module FileAnalysis.
Record t : Type := {
  file_path : string;
  size_kb : Q;
  line_count : Z;
  conflicts : list string;
  violations : list string;
  cursor_issues : list string;
  complexity_rating : Q;
  cursor_compatibility : Q
}.
End FileAnalysis.

(** The dictionary [analyze_repository_semantic] returns. *)
Module Results.
Record t : Type := {
  timestamp : string;
  files_analyzed : Z;
  rule_conflicts : list string;
  best_practice_violations : list string;
  cursor_compatibility_issues : list string;
  high_complexity_files : list GptResults.high_file;
  file_analysis : list (string * FileAnalysis.t)
}.
End Results.

Section Collaborator.

(** [self.analyze_with_gpt(content, file_path, analysis_type)], for the
    calls of one run: the answer of the hosted model, or an error
    dictionary.  A path is analysed once in a run, so no request is made
    twice. *)
Variable analyze_with_gpt : string -> string -> analysis_type -> Response.t.

(** The judgement of one file: the three answers merged over the defaults
    (empty lists, ratings [0]). *)
Definition judge (file_path content : string) : FileAnalysis.t :=
  let conflict_analysis := analyze_with_gpt content file_path rule_conflicts in
  let practice_analysis := analyze_with_gpt content file_path best_practices in
  let cursor_analysis :=
    analyze_with_gpt content file_path cursor_compatibility in
  {| FileAnalysis.file_path := file_path;
     FileAnalysis.size_kb :=
       inject_Z (Z.of_nat (String.length content)) / 1024;
     FileAnalysis.line_count :=
       Z.of_nat (S (Py.count content Analyzer.newline));
     FileAnalysis.conflicts := get (Response.conflicts conflict_analysis) [];
     FileAnalysis.violations :=
       get (Response.violations practice_analysis) [];
     FileAnalysis.cursor_issues := get (Response.issues cursor_analysis) [];
     FileAnalysis.complexity_rating :=
       get (Response.complexity_rating conflict_analysis) 0;
     FileAnalysis.cursor_compatibility :=
       get (Response.cursor_compatibility cursor_analysis) 0 |}.

(** The entry appended to ['high_complexity_files']. *)
Definition high_entry (fa : FileAnalysis.t) : GptResults.high_file := {|
  GptResults.file := FileAnalysis.file_path fa;
  GptResults.complexity := FileAnalysis.complexity_rating fa;
  GptResults.cursor_compatibility := FileAnalysis.cursor_compatibility fa
|}.

(** Body of the loop over the files of the rule patterns; a path already in
    [analyzed_files] is skipped.  With files that can be read and answers
    of this type no statement of the [try] block raises: every file is
    analysed to the end, [analyzed_files] is the set of keys of
    ['file_analysis'] and ['analysis_errors'] stays empty. *)
Definition analyze_one (results : Results.t) (doc : string * string)
  : Results.t :=
  let (file_path, content) := doc in
  if existsb (String.eqb file_path) (map fst (Results.file_analysis results))
  then results
  else
    let fa := judge file_path content in
    {| Results.timestamp := Results.timestamp results;
       Results.files_analyzed := (Results.files_analyzed results + 1)%Z;
       Results.rule_conflicts :=
         Results.rule_conflicts results ++ FileAnalysis.conflicts fa;
       Results.best_practice_violations :=
         Results.best_practice_violations results
         ++ FileAnalysis.violations fa;
       Results.cursor_compatibility_issues :=
         Results.cursor_compatibility_issues results
         ++ FileAnalysis.cursor_issues fa;
       Results.high_complexity_files :=
         if Py.gt (FileAnalysis.complexity_rating fa) 7
         then Results.high_complexity_files results ++ [high_entry fa]
         else Results.high_complexity_files results;
       Results.file_analysis :=
         Results.file_analysis results ++ [(file_path, fa)] |}.

(** [analyze_repository_semantic]: [docs] are the files the four glob
    patterns yield, in order, each with its text. *)
Definition analyze_repository_semantic (now : string)
           (docs : list (string * string)) : Results.t :=
  fold_left analyze_one docs
    {| Results.timestamp := now;
       Results.files_analyzed := 0;
       Results.rule_conflicts := [];
       Results.best_practice_violations := [];
       Results.cursor_compatibility_issues := [];
       Results.high_complexity_files := [];
       Results.file_analysis := [] |}.

End Collaborator.

(** The analyzer object: [self.api_key]. *)
Record GPTComplexityAnalyzer : Type := {
  api_key : option string
}.

(** Truth value of [self.api_key]: [None] and the empty string are falsy. *)
Definition has_key (self : GPTComplexityAnalyzer) : bool :=
  match api_key self with
  | Some k => truthy_str k
  | None => false
  end.

(** [GPTComplexityAnalyzer.__init__]:
    [self.api_key = api_key or os.getenv('OPENAI_API_KEY')], with the two
    warning lines when no key is found. *)
Definition init (key env : option string) : io GPTComplexityAnalyzer :=
  let self :=
    {| api_key := match key with
                  | Some k => if truthy_str k then Some k else env
                  | None => env
                  end |} in
  if has_key self then io_ret self
  else
    _ <~ print "No OpenAI API key found. Set OPENAI_API_KEY environment variable." ;;
    _ <~ print "   Semantic analysis will be skipped." ;;
    io_ret self.

(** What [json.dump(results, f)] writes, as the consumers read it back. *)
Definition to_json (results : Results.t) : GptResults.t := {|
  GptResults.rule_conflicts := Some (Results.rule_conflicts results);
  GptResults.best_practice_violations :=
    Some (Results.best_practice_violations results);
  GptResults.cursor_compatibility_issues :=
    Some (Results.cursor_compatibility_issues results);
  GptResults.high_complexity_files :=
    Some (Results.high_complexity_files results)
|}.

End Gpt.

(** ** generate-complexity-summary.py *)

Module Summary.

(** The keys of [static-complexity-results.json] that only the summary
    reads, beside those of [StaticResults.t]; an empty ['summary']
    dictionary is [None]. *)
Record static_summary : Type := {
  average_complexity : option Q;
  total_size_kb : option Q
}.

Record static_doc : Type := {
  common : StaticResults.t;
  files_analyzed : option Z;
  total_complexity : option Q;
  summary : option static_summary
}.

(** [gpt-complexity-results.json] with its ['files_analyzed'] key. *)
Record gpt_doc : Type := {
  gpt_common : GptResults.t;
  gpt_files_analyzed : option Z
}.

(** A line of the summary; pictographs are left out. *)
Inductive line : Type :=
| Heading (s : string)
| FilesAnalyzed (n : Z)            (* "- **Files analyzed:** {n}" *)
| TotalComplexity (q : Q)          (* "- **Total complexity:** {q:.1f}" *)
| AverageComplexity (q : Q)        (* "- **Average complexity:** {q:.1f}" *)
| TotalSize (q : Q)                (* "- **Total size:** {q:.1f} KB" *)
| HighCount (n : Z)                (* "- **High complexity files:** {n}" *)
| HighFile (path : string) (q : Q) (* "  - `{file}`: {score:.1f}" *)
| SemanticCount (n : Z)            (* "- **High semantic complexity:** {n}" *)
| SemanticFile (path : string) (q : Q) (* "  - `{file}`: {complexity}/10" *)
| RuleConflicts (n : Z)            (* "- **Rule conflicts:** {n}" *)
| Violations (n : Z)               (* "- **Best practice violations:** {n}" *)
| CursorIssues (n : Z)             (* "- **Cursor compatibility issues:** {n}" *)
| FilesChecked (n : Z)             (* "- **Files checked:** {n}" *)
| FilesExceeded (n : Z)            (* "- **Files exceeded threshold:** {n}" *)
| CriticalFiles (n : Z)            (* "- **Critical files:** {n}" *)
| ExceededOver (path : string) (q : Q) (* "  - `{file}`: {q:.1f}% over" *)
| Warnings (n : Z)                 (* "- **Warnings:** {n}" *)
| StatusExceeded                   (* "### Status: THRESHOLD EXCEEDED" *)
| StatusWithin                     (* "### Status: WITHIN LIMITS" *)
| Note (s : string)
| Bullet (m : message).            (* "- {m}" *)

(** [len(xs)] as an [int]. *)
Definition len {A : Type} (xs : list A) : Z := Z.of_nat (List.length xs).

(** [len(set(xs))] for a list of strings. *)
Definition len_set (xs : list string) : Z :=
  len (Alert.set_iter (Alert.set_of xs)).

(** [if xs: parts.append(line(xs))]. *)
Definition when_some {A : Type} (xs : list A) (lines : list line)
  : list line :=
  if Alert.truthy xs then lines else [].

(** "Static analysis summary". *)
Definition static_part (static_results : option static_doc) : list line :=
  match static_results with
  | None => []
  | Some d =>
      let high :=
        get (StaticResults.high_complexity_files (common d)) [] in
      let conflicts := get (StaticResults.conflicts_found (common d)) [] in
      let violations :=
        get (StaticResults.best_practice_violations (common d)) [] in
      [ Heading "### Static Analysis";
        FilesAnalyzed (get (files_analyzed d) 0%Z);
        TotalComplexity (get (total_complexity d) 0) ]
      ++ match summary d with
         | Some sm =>
             [ AverageComplexity (get (average_complexity sm) 0);
               TotalSize (get (total_size_kb sm) 0) ]
         | None => []
         end
      ++ when_some high
           (HighCount (len high)
            :: map (fun i => HighFile (StaticResults.file i)
                                      (StaticResults.score i))
                   (firstn 3 high))
      ++ when_some conflicts [RuleConflicts (len_set conflicts)]
      ++ when_some violations [Violations (len_set violations)]
  end.

(** "GPT analysis summary", for results whose labels are strings. *)
Definition gpt_part (gpt_results : option gpt_doc) : list line :=
  match gpt_results with
  | None => []
  | Some d =>
      let high :=
        get (GptResults.high_complexity_files (gpt_common d)) [] in
      let conflicts := get (GptResults.rule_conflicts (gpt_common d)) [] in
      let violations :=
        get (GptResults.best_practice_violations (gpt_common d)) [] in
      let cursor_issues :=
        get (GptResults.cursor_compatibility_issues (gpt_common d)) [] in
      [ Heading "### Semantic Analysis";
        FilesAnalyzed (get (gpt_files_analyzed d) 0%Z) ]
      ++ when_some high
           (SemanticCount (len high)
            :: map (fun i => SemanticFile (GptResults.file i)
                                          (GptResults.complexity i))
                   (firstn 3 high))
      ++ when_some conflicts [RuleConflicts (len_set conflicts)]
      ++ when_some violations [Violations (len_set violations)]
      ++ when_some cursor_issues [CursorIssues (len_set cursor_issues)]
  end.

(** "Threshold check summary". *)
Definition threshold_part (threshold_results : option Checker.threshold_report)
  : list line :=
  match threshold_results with
  | None => []
  | Some r =>
      let exceeded_files := Checker.exceeded_files r in
      let warnings := Checker.warnings r in
      [ Heading "### Threshold Check";
        FilesChecked (Checker.files_checked (Checker.summary r));
        FilesExceeded (Checker.files_exceeded (Checker.summary r)) ]
      ++ when_some exceeded_files
           (CriticalFiles (len exceeded_files)
            :: map (fun i => ExceededOver (Checker.file i)
                                          (Checker.excess_percentage i))
                   (firstn 3 exceeded_files))
      ++ when_some warnings [Warnings (len warnings)]
  end.

(** "Overall status". *)
Definition status_part (threshold_results : option Checker.threshold_report)
  : list line :=
  match threshold_results with
  | Some r =>
      if Checker.threshold_exceeded r
      then [ StatusExceeded;
             Note "Please review the detailed reports in the artifacts." ]
      else [ StatusWithin;
             Note "All files are within complexity thresholds." ]
  | None =>
      [ StatusWithin; Note "All files are within complexity thresholds." ]
  end.

(** "Recommendations": those of the static results, then those of the
    threshold results; the first five are shown. *)
Definition recommendations_part
           (static_results : option static_doc)
           (threshold_results : option Checker.threshold_report)
  : list line :=
  let recommendations :=
    map MsgText
        match static_results with
        | Some d => get (StaticResults.recommendations (common d)) []
        | None => []
        end
    ++ match threshold_results with
       | Some r => Checker.recommendations r
       | None => []
       end in
  when_some recommendations
    (Heading "### Recommendations"
     :: map Bullet (firstn 5 recommendations)).

(** The part of [generate_summary] after the three files are loaded. *)
Definition build_summary (static_results : option static_doc)
           (gpt_results : option gpt_doc)
           (threshold_results : option Checker.threshold_report)
  : list line :=
  static_part static_results
  ++ gpt_part gpt_results
  ++ threshold_part threshold_results
  ++ status_part threshold_results
  ++ recommendations_part static_results threshold_results.

(** [generate_summary]; its [load_json_file] is the one of the alert
    generator. *)
Definition generate_summary
           (static_file : json_file (option static_doc))
           (gpt_file : json_file (option gpt_doc))
           (threshold_file : json_file (option Checker.threshold_report))
  : io (list line) :=
  static_results <~ Alert.load_json_file static_file ;;
  gpt_results <~ Alert.load_json_file gpt_file ;;
  threshold_results <~ Alert.load_json_file threshold_file ;;
  io_ret (build_summary static_results gpt_results threshold_results).

End Summary.

(** ** Ratings of any JSON type

    The semantic analyzer stores the two ratings of a file as the hosted
    model's answer gives them, and the threshold checker compares what it
    reads back with numbers.  [GptResults], [Gpt] and [Checker] above take
    the ratings as numbers; below they are any JSON value, every
    comparison can raise, and the loop of the analyzer has its
    [try]/[except]. *)

Module Json.

(** A JSON value, by what a comparison with a number makes of it: a number
    ([true] and [false] compare as 1 and 0), a string, [null], or a list or
    an object. *)
Inductive value : Type :=
| Num (q : Q)
| Str (s : string)
| Null
| Compound.

Definition is_number (v : value) : bool :=
  match v with
  | Num _ => true
  | _ => false
  end.

(** The left operand of [v > n] or [v < n] for a number [n]: anything but a
    number raises [TypeError]. *)
Definition as_number (v : value) : result Q :=
  match v with
  | Num q => Ok q
  | _ => Raise TypeError
  end.

End Json.

(** [gpt-complexity-results.json], by the key [check_threshold] reads. *)
Module GptJson.

(** One element of ['high_complexity_files']. *)
Record high_file : Type := {
  file : string;
  complexity : Json.value;
  cursor_compatibility : Json.value
}.

Record t : Type := {
  high_complexity_files : option (list high_file)
}.

(** An entry and a results file whose ratings are numbers. *)
Definition of_high_file (i : GptResults.high_file) : high_file := {|
  file := GptResults.file i;
  complexity := Json.Num (GptResults.complexity i);
  cursor_compatibility := Json.Num (GptResults.cursor_compatibility i)
|}.

Definition of_results (g : GptResults.t) : t := {|
  high_complexity_files :=
    option_map (map of_high_file) (GptResults.high_complexity_files g)
|}.

End GptJson.

(** [check-complexity-threshold.py] on semantic results with ratings of any
    JSON type; the loop over the documents is [Checker.check_static_results]. *)
Module CheckerJson.

Import Checker.

(** [load_gpt_results]: only [FileNotFoundError] is caught. *)
Definition load_gpt_results (f : json_file (option GptJson.t))
  : io (option GptJson.t) :=
  io_try_except (lift (open_json_load f)) is_FileNotFoundError
    (_ <~ print "No GPT complexity results found";; io_ret None).

(** Body of the loop over [gpt_results['high_complexity_files']]:
    [file_info['complexity'] > 8] is evaluated first, then
    [file_info['cursor_compatibility'] < 5]. *)
Definition check_semantic (report : threshold_report)
           (file_info : GptJson.high_file) : result threshold_report :=
  complexity <- Json.as_number (GptJson.complexity file_info) ;;
  let report :=
    if Py.gt complexity 8
    then add_warnings report
           [MsgSemantic (GptJson.file file_info) complexity]
    else report in
  compatibility <- Json.as_number (GptJson.cursor_compatibility file_info) ;;
  Ok (if Py.lt compatibility 5
      then add_warnings report
             [MsgCursor (GptJson.file file_info) compatibility]
      else report).

(** "Check GPT analysis results". *)
Definition check_gpt_results (report : threshold_report)
           (gpt_results : option GptJson.t) : result threshold_report :=
  match gpt_results with
  | Some gr =>
      match GptJson.high_complexity_files gr with
      | Some infos => for_each check_semantic infos report
      | None => Ok report
      end
  | None => Ok report
  end.

(** The part of [check_threshold] after the two files are loaded. *)
Definition check_loaded (self : ComplexityThresholdChecker) (now : string)
           (static_results : option StaticResults.t)
           (gpt_results : option GptJson.t) : result threshold_report :=
  report <- check_static_results self (empty_report self now) static_results ;;
  report <- check_gpt_results report gpt_results ;;
  Ok (overall_recommendations report).

Definition check_threshold (self : ComplexityThresholdChecker) (now : string)
           (static_file : json_file (option StaticResults.t))
           (gpt_file : json_file (option GptJson.t))
  : io threshold_report :=
  static_results <~ load_static_results static_file ;;
  gpt_results <~ load_gpt_results gpt_file ;;
  lift (check_loaded self now static_results gpt_results).

(** [main]: its value is [False] when the threshold is exceeded. *)
Definition main (now : string)
           (static_file : json_file (option StaticResults.t))
           (gpt_file : json_file (option GptJson.t)) : io bool :=
  report <~ check_threshold init now static_file gpt_file ;;
  if threshold_exceeded report then io_ret false else io_ret true.

End CheckerJson.

(** [analyze_repository_semantic] of [gpt-complexity-analyzer.py] on
    answers of any JSON type, with its [try]/[except Exception]. *)
Module SemanticRun.

(** The value under ['conflicts'], ['violations'] or ['issues'], by what
    [list.extend] makes of it: a list, string or object gives its items,
    which can be any JSON values; a number or [null] raises [TypeError]. *)
Inductive labels : Type :=
| Items (xs : list Json.value)
| NotIterable.

(** A JSON object answered by [analyze_with_gpt], by the keys the caller
    looks for; every key may be absent. *)
Module Answer.
Record t : Type := {
  conflicts : option labels;
  complexity_rating : option Json.value;
  violations : option labels;
  issues : option labels;
  cursor_compatibility : option Json.value
}.
End Answer.

(** What [analyze_with_gpt] returns to one call.  [json.loads] gives any
    JSON value: [Object a] is an object with the keys of [a] (or a list or
    string in which no key the call looks for occurs, with no key);
    [NotObject] is a value on which the key test raises (a number, [true],
    [false], [null]) or succeeds and is followed by a subscript that raises
    (a list or string in which a key occurs). *)
Inductive answer : Type :=
| Object (a : Answer.t)
| NotObject.

(** The per-file dictionary [file_analysis]. *)
Module Judgement.
Record t : Type := {
  file_path : string;
  size_kb : Q;
  line_count : Z;
  conflicts : labels;
  violations : labels;
  cursor_issues : labels;
  complexity_rating : Json.value;
  cursor_compatibility : Json.value
}.
End Judgement.

(** The dictionary [results]; an element of ['analysis_errors'] is the
    path with the exception caught. *)
Module Results.
Record t : Type := {
  timestamp : string;
  files_analyzed : Z;
  rule_conflicts : list Json.value;
  best_practice_violations : list Json.value;
  cursor_compatibility_issues : list Json.value;
  high_complexity_files : list GptJson.high_file;
  analysis_errors : list (string * exn);
  file_analysis : list (string * Judgement.t)
}.
End Results.

Import Results.

(** [results['files_analyzed'] += 1]. *)
Definition count_file (results : Results.t) : Results.t := {|
  timestamp := timestamp results;
  files_analyzed := (files_analyzed results + 1)%Z;
  rule_conflicts := rule_conflicts results;
  best_practice_violations := best_practice_violations results;
  cursor_compatibility_issues := cursor_compatibility_issues results;
  high_complexity_files := high_complexity_files results;
  analysis_errors := analysis_errors results;
  file_analysis := file_analysis results
|}.

(** The three label lists after an [extend]. *)
Definition with_labels (results : Results.t)
           (conflicts violations issues : list Json.value) : Results.t := {|
  timestamp := timestamp results;
  files_analyzed := files_analyzed results;
  rule_conflicts := conflicts;
  best_practice_violations := violations;
  cursor_compatibility_issues := issues;
  high_complexity_files := high_complexity_files results;
  analysis_errors := analysis_errors results;
  file_analysis := file_analysis results
|}.

(** [results['high_complexity_files'].append(entry)]. *)
Definition append_high (results : Results.t) (entry : GptJson.high_file)
  : Results.t := {|
  timestamp := timestamp results;
  files_analyzed := files_analyzed results;
  rule_conflicts := rule_conflicts results;
  best_practice_violations := best_practice_violations results;
  cursor_compatibility_issues := cursor_compatibility_issues results;
  high_complexity_files := high_complexity_files results ++ [entry];
  analysis_errors := analysis_errors results;
  file_analysis := file_analysis results
|}.

(** [results['file_analysis'][path] = file_analysis], for a new key. *)
Definition store (results : Results.t) (path : string) (fa : Judgement.t)
  : Results.t := {|
  timestamp := timestamp results;
  files_analyzed := files_analyzed results;
  rule_conflicts := rule_conflicts results;
  best_practice_violations := best_practice_violations results;
  cursor_compatibility_issues := cursor_compatibility_issues results;
  high_complexity_files := high_complexity_files results;
  analysis_errors := analysis_errors results;
  file_analysis := file_analysis results ++ [(path, fa)]
|}.

(** The handler:
    [results['analysis_errors'].append({'file': path, 'error': str(e)})]. *)
Definition append_error (results : Results.t) (path : string) (e : exn)
  : Results.t := {|
  timestamp := timestamp results;
  files_analyzed := files_analyzed results;
  rule_conflicts := rule_conflicts results;
  best_practice_violations := best_practice_violations results;
  cursor_compatibility_issues := cursor_compatibility_issues results;
  high_complexity_files := high_complexity_files results;
  analysis_errors := analysis_errors results ++ [(path, e)];
  file_analysis := file_analysis results
|}.

(** [key in answer] and [answer[key]] on what a call returned. *)
Definition as_object (a : answer) : result Answer.t :=
  match a with
  | Object o => Ok o
  | NotObject => Raise TypeError
  end.

(** [if key in answer: results[...].extend(answer[key])]. *)
Definition extend (acc : list Json.value) (field : option labels)
  : result (list Json.value) :=
  match field with
  | None => Ok acc
  | Some (Items xs) => Ok (acc ++ xs)
  | Some NotIterable => Raise TypeError
  end.

(** The entry appended to ['high_complexity_files']. *)
Definition high_entry (fa : Judgement.t) : GptJson.high_file := {|
  GptJson.file := Judgement.file_path fa;
  GptJson.complexity := Judgement.complexity_rating fa;
  GptJson.cursor_compatibility := Judgement.cursor_compatibility fa
|}.

Section Collaborator.

(** [self.analyze_with_gpt(content, file_path, analysis_type)], for the
    calls of one run: a path is analysed once in a run, so no request is
    made twice. *)
Variable analyze_with_gpt : string -> string -> Gpt.analysis_type -> answer.

(** The statements of the [try] block from the first call of
    [analyze_with_gpt] to the flag: the results as the statements executed
    left them, with the judgement or the exception that ended the block. *)
Definition analyze_content (results : Results.t) (file_path content : string)
  : Results.t * result Judgement.t :=
  match as_object (analyze_with_gpt content file_path Gpt.rule_conflicts) with
  | Raise e => (results, Raise e)
  | Ok conflict_analysis =>
  match extend (rule_conflicts results)
               (Answer.conflicts conflict_analysis) with
  | Raise e => (results, Raise e)
  | Ok conflicts =>
  let results :=
    with_labels results conflicts (best_practice_violations results)
                (cursor_compatibility_issues results) in
  match as_object (analyze_with_gpt content file_path Gpt.best_practices) with
  | Raise e => (results, Raise e)
  | Ok practice_analysis =>
  match extend (best_practice_violations results)
               (Answer.violations practice_analysis) with
  | Raise e => (results, Raise e)
  | Ok violations =>
  let results :=
    with_labels results (rule_conflicts results) violations
                (cursor_compatibility_issues results) in
  match as_object
          (analyze_with_gpt content file_path Gpt.cursor_compatibility) with
  | Raise e => (results, Raise e)
  | Ok cursor_analysis =>
  match extend (cursor_compatibility_issues results)
               (Answer.issues cursor_analysis) with
  | Raise e => (results, Raise e)
  | Ok issues =>
  let results :=
    with_labels results (rule_conflicts results)
                (best_practice_violations results) issues in
  let file_analysis := {|
    Judgement.file_path := file_path;
    Judgement.size_kb := inject_Z (Z.of_nat (String.length content)) / 1024;
    Judgement.line_count := Z.of_nat (S (Py.count content Analyzer.newline));
    Judgement.conflicts := get (Answer.conflicts conflict_analysis) (Items []);
    Judgement.violations :=
      get (Answer.violations practice_analysis) (Items []);
    Judgement.cursor_issues := get (Answer.issues cursor_analysis) (Items []);
    Judgement.complexity_rating :=
      get (Answer.complexity_rating conflict_analysis) (Json.Num 0);
    Judgement.cursor_compatibility :=
      get (Answer.cursor_compatibility cursor_analysis) (Json.Num 0)
  |} in
  match Json.as_number (Judgement.complexity_rating file_analysis) with
  | Raise e => (results, Raise e)
  | Ok rating =>
      (if Py.gt rating 7
       then append_high results (high_entry file_analysis)
       else results,
       Ok file_analysis)
  end end end end end end end.

(** Body of the loop over the files of the rule patterns.  The state is
    [results] with the set [analyzed_files]; a file comes with what
    [read_text] gives, its text or an exception. *)
Definition analyze_one (state : Results.t * list string)
           (doc : string * result string) : Results.t * list string :=
  let (results, analyzed_files) := state in
  let (file_path, read_text) := doc in
  if existsb (String.eqb file_path) analyzed_files then state
  else
    match read_text with
    | Raise e => (append_error results file_path e, analyzed_files)
    | Ok content =>
        let analyzed_files := analyzed_files ++ [file_path] in
        match analyze_content (count_file results) file_path content with
        | (results, Ok file_analysis) =>
            (store results file_path file_analysis, analyzed_files)
        | (results, Raise e) =>
            (append_error results file_path e, analyzed_files)
        end
    end.

Definition empty_results (now : string) : Results.t := {|
  timestamp := now;
  files_analyzed := 0;
  rule_conflicts := [];
  best_practice_violations := [];
  cursor_compatibility_issues := [];
  high_complexity_files := [];
  analysis_errors := [];
  file_analysis := []
|}.

(** [analyze_repository_semantic]: [docs] are the files the four glob
    patterns yield, in order. *)
Definition analyze_repository_semantic (now : string)
           (docs : list (string * result string)) : Results.t :=
  fst (fold_left analyze_one docs (empty_results now, [])).

End Collaborator.

(** An error dictionary: it has none of the keys the caller looks for. *)
Definition error_answer : answer :=
  Object {| Answer.conflicts := None;
            Answer.complexity_rating := None;
            Answer.violations := None;
            Answer.issues := None;
            Answer.cursor_compatibility := None |}.

Section Call.

(** [openai.ChatCompletion.create(...)] for the prompt of an analysis kind,
    a file path and a content excerpt: the text of the first choice of the
    answer this run got, or an exception.  The service samples its
    answers, so another run may get other answers to the same requests;
    within a run no request is made twice. *)
Variable chat : Gpt.analysis_type -> string -> string -> result string.

(** [json.loads(result_text)], as the caller meets its value. *)
Variable json_loads : string -> result answer.

(** [analyze_with_gpt]: at most the first 3000 characters of the content
    are sent, and every failure gives an error dictionary. *)
Definition analyze_with_gpt (self : Gpt.GPTComplexityAnalyzer)
           (content file_path : string) (kind : Gpt.analysis_type)
  : answer :=
  if negb (Gpt.has_key self) then error_answer
  else
    match chat kind file_path (String.substring 0 3000 content) with
    | Ok result_text =>
        match json_loads result_text with
        | Ok result => result
        | Raise _ => error_answer
        end
    | Raise _ => error_answer
    end.

End Call.

(** What [json.dump(results, f)] writes, as [check_threshold] reads it
    back. *)
Definition to_json (results : Results.t) : GptJson.t := {|
  GptJson.high_complexity_files := Some (high_complexity_files results)
|}.

(** A list of strings as the value under a label key. *)
Definition strings (xs : list string) : labels := Items (map Json.Str xs).

(** The answers, judgements and results of [Gpt], whose ratings are
    numbers and whose labels are lists of strings. *)
Definition of_response (r : Gpt.Response.t) : answer :=
  Object {|
    Answer.conflicts := option_map strings (Gpt.Response.conflicts r);
    Answer.complexity_rating :=
      option_map Json.Num (Gpt.Response.complexity_rating r);
    Answer.violations := option_map strings (Gpt.Response.violations r);
    Answer.issues := option_map strings (Gpt.Response.issues r);
    Answer.cursor_compatibility :=
      option_map Json.Num (Gpt.Response.cursor_compatibility r)
  |}.

Definition of_judgement (fa : Gpt.FileAnalysis.t) : Judgement.t := {|
  Judgement.file_path := Gpt.FileAnalysis.file_path fa;
  Judgement.size_kb := Gpt.FileAnalysis.size_kb fa;
  Judgement.line_count := Gpt.FileAnalysis.line_count fa;
  Judgement.conflicts := strings (Gpt.FileAnalysis.conflicts fa);
  Judgement.violations := strings (Gpt.FileAnalysis.violations fa);
  Judgement.cursor_issues := strings (Gpt.FileAnalysis.cursor_issues fa);
  Judgement.complexity_rating :=
    Json.Num (Gpt.FileAnalysis.complexity_rating fa);
  Judgement.cursor_compatibility :=
    Json.Num (Gpt.FileAnalysis.cursor_compatibility fa)
|}.

Definition of_results (r : Gpt.Results.t) : Results.t := {|
  timestamp := Gpt.Results.timestamp r;
  files_analyzed := Gpt.Results.files_analyzed r;
  rule_conflicts := map Json.Str (Gpt.Results.rule_conflicts r);
  best_practice_violations :=
    map Json.Str (Gpt.Results.best_practice_violations r);
  cursor_compatibility_issues :=
    map Json.Str (Gpt.Results.cursor_compatibility_issues r);
  high_complexity_files :=
    map GptJson.of_high_file (Gpt.Results.high_complexity_files r);
  analysis_errors := [];
  file_analysis :=
    map (fun kv => (fst kv, of_judgement (snd kv)))
        (Gpt.Results.file_analysis r)
|}.

End SemanticRun.

(** [generate-complexity-summary.py] on semantic results whose labels are
    JSON values of any type. *)
Module SummaryJson.

Import Summary.

(** One element of ['high_complexity_files'], by the keys the summary
    formats; the analyzer lists a file after [complexity > 7] held, so the
    complexity of a listed file is a number. *)
Record high_file : Type := {
  file : string;
  complexity : Q
}.

(** [gpt-complexity-results.json] as the summary reads it. *)
Record gpt_doc : Type := {
  files_analyzed : option Z;
  high_complexity_files : option (list high_file);
  rule_conflicts : option (list Json.value);
  best_practice_violations : option (list Json.value);
  cursor_compatibility_issues : option (list Json.value)
}.

(** A value that can be a member of a set: not a list, not an object. *)
Definition hashable (v : Json.value) : bool :=
  match v with
  | Json.Compound => false
  | _ => true
  end.

(** [a == b] on hashable values. *)
Definition value_eqb (a b : Json.value) : bool :=
  match a, b with
  | Json.Num x, Json.Num y => Qeq_bool x y
  | Json.Str x, Json.Str y => String.eqb x y
  | Json.Null, Json.Null => true
  | _, _ => false
  end.

(** The members of [set(xs)]: one of every class of equal values. *)
Fixpoint distinct (xs : list Json.value) : list Json.value :=
  match xs with
  | [] => []
  | x :: xs' =>
      if existsb (value_eqb x) xs' then distinct xs' else x :: distinct xs'
  end.

(** [len(set(xs))]: a list or object among [xs] raises [TypeError]. *)
Definition len_set (xs : list Json.value) : result Z :=
  if forallb hashable xs then Ok (len (distinct xs)) else Raise TypeError.

(** [if xs: parts.append(f"...{len(set(xs))}")]. *)
Definition count_line (xs : list Json.value) (heading : Z -> line)
  : result (list line) :=
  if Alert.truthy xs then n <- len_set xs ;; Ok [heading n] else Ok [].

(** "GPT analysis summary". *)
Definition gpt_part (gpt_results : option gpt_doc) : result (list line) :=
  match gpt_results with
  | None => Ok []
  | Some d =>
      let high := get (high_complexity_files d) [] in
      let conflicts := get (rule_conflicts d) [] in
      let violations := get (best_practice_violations d) [] in
      let cursor_issues := get (cursor_compatibility_issues d) [] in
      let summary_parts :=
        [ Heading "### Semantic Analysis";
          FilesAnalyzed (get (files_analyzed d) 0%Z) ]
        ++ when_some high
             (SemanticCount (len high)
              :: map (fun i => SemanticFile (file i) (complexity i))
                     (firstn 3 high)) in
      conflict_line <- count_line conflicts RuleConflicts ;;
      violation_line <- count_line violations Violations ;;
      issue_line <- count_line cursor_issues CursorIssues ;;
      Ok (summary_parts ++ conflict_line ++ violation_line ++ issue_line)
  end.

(** The part of [generate_summary] after the three files are loaded. *)
Definition build_summary (static_results : option static_doc)
           (gpt_results : option gpt_doc)
           (threshold_results : option Checker.threshold_report)
  : result (list line) :=
  gpt_lines <- gpt_part gpt_results ;;
  Ok (static_part static_results
      ++ gpt_lines
      ++ threshold_part threshold_results
      ++ status_part threshold_results
      ++ recommendations_part static_results threshold_results).

(** [generate_summary]. *)
Definition generate_summary
           (static_file : json_file (option static_doc))
           (gpt_file : json_file (option gpt_doc))
           (threshold_file : json_file (option Checker.threshold_report))
  : io (list line) :=
  static_results <~ Alert.load_json_file static_file ;;
  gpt_results <~ Alert.load_json_file gpt_file ;;
  threshold_results <~ Alert.load_json_file threshold_file ;;
  lift (build_summary static_results gpt_results threshold_results).

(** The semantic results of [Summary], whose labels are strings. *)
Definition of_doc (d : Summary.gpt_doc) : gpt_doc := {|
  files_analyzed := gpt_files_analyzed d;
  high_complexity_files :=
    option_map (map (fun i => {| file := GptResults.file i;
                                 complexity := GptResults.complexity i |}))
               (GptResults.high_complexity_files (gpt_common d));
  rule_conflicts :=
    option_map (map Json.Str) (GptResults.rule_conflicts (gpt_common d));
  best_practice_violations :=
    option_map (map Json.Str)
               (GptResults.best_practice_violations (gpt_common d));
  cursor_compatibility_issues :=
    option_map (map Json.Str)
               (GptResults.cursor_compatibility_issues (gpt_common d))
|}.

End SummaryJson.

(** ** Vocabulary of the statements *)

(** [sub] occurs in [s]. *)
Definition is_substring (sub s : string) : Prop :=
  exists pre post, s = String.append pre (String.append sub post).

(** A file that exists and holds JSON, or does not exist. *)
Definition file_of {A : Type} (o : option A) : json_file A :=
  match o with
  | Some v => Parsed v
  | None => Missing
  end.

(** No threshold of the table is zero. *)
Definition nonzero_thresholds (self : Checker.ComplexityThresholdChecker)
  : bool :=
  forallb (fun kv =>
             negb (Qeq_bool (inject_Z (snd kv)
                             * Checker.threshold_multiplier self) 0))
          (Checker.baseline self).

(** No key of the table is the empty string. *)
Definition nonempty_keys (self : Checker.ComplexityThresholdChecker) : bool :=
  forallb truthy_str (Checker.keys (Checker.baseline self)).

(** Severity of an excess percentage: critical above 50, warning otherwise. *)
Definition severity_of (excess_pct : Q) : severity :=
  if Qlt_le_dec 50 excess_pct then critical else warning.

(** The verdict for a document over its threshold. *)
Definition verdict (multiplier : Q) (file_path : string)
           (analysis : StaticResults.analysis) (baseline_score : Z)
  : Checker.exceeded_info :=
  let threshold := inject_Z baseline_score * multiplier in
  let current_score := StaticResults.complexity_score analysis in
  {| Checker.file := file_path;
     Checker.current_score := current_score;
     Checker.baseline_score := baseline_score;
     Checker.threshold := threshold;
     Checker.excess_percentage :=
       (current_score - threshold) / threshold * 100;
     Checker.size_kb := get (StaticResults.size_kb analysis) 0;
     Checker.line_count := get (StaticResults.line_count analysis) 0%Z |}.

(** Everything in a threshold report but its timestamp. *)
Definition verdicts (report : Checker.threshold_report)
  : bool * list Checker.exceeded_info * list message * list message
    * Checker.summary_t :=
  (Checker.threshold_exceeded report, Checker.exceeded_files report,
   Checker.warnings report, Checker.recommendations report,
   Checker.summary report).

(** Two runs end alike: the same exception, or reports with the same
    verdicts. *)
Definition same_outcome (a b : result Checker.threshold_report) : Prop :=
  match a, b with
  | Ok r1, Ok r2 => verdicts r1 = verdicts r2
  | Raise e1, Raise e2 => e1 = e2
  | _, _ => False
  end.

(** The documents the loop over ['file_analysis'] visits. *)
Definition static_items (static_results : option StaticResults.t)
  : list (string * StaticResults.analysis) :=
  match static_results with
  | Some sr => get (StaticResults.file_analysis sr) []
  | None => []
  end.

(** The entries the loop over ['high_complexity_files'] visits. *)
Definition semantic_items (gpt_results : option GptResults.t)
  : list GptResults.high_file :=
  match gpt_results with
  | Some gr => get (GptResults.high_complexity_files gr) []
  | None => []
  end.

(** What holds of the report once the documents [done] have been checked. *)
Definition loop_invariant (self : Checker.ComplexityThresholdChecker)
           (done : list (string * StaticResults.analysis))
           (r : Checker.threshold_report) : Prop :=
  (Checker.threshold_exceeded r = true <-> Checker.exceeded_files r <> [])
  /\ (forall info, In info (Checker.exceeded_files r) ->
       exists analysis k b,
         In (Checker.file info, analysis) done
         /\ Checker.find_baseline (Checker.keys (Checker.baseline self))
                                  (Checker.file info) = Some k
         /\ Checker.getitem (Checker.baseline self) k = Ok b
         /\ info = verdict (Checker.threshold_multiplier self)
                           (Checker.file info) analysis b
         /\ inject_Z b * Checker.threshold_multiplier self
            < StaticResults.complexity_score analysis)
  /\ Checker.files_checked (Checker.summary r) = Z.of_nat (List.length done)
  /\ Checker.files_exceeded (Checker.summary r)
     = Z.of_nat (List.length (Checker.exceeded_files r))
  /\ Checker.total_current (Checker.summary r)
     = fold_left (fun acc item =>
                    acc + StaticResults.complexity_score (snd item)) done 0
  /\ Checker.total_baseline (Checker.summary r)
     = Checker.sum (Checker.values (Checker.baseline self))
  /\ Checker.warnings r = [].

(** The warnings one entry of ['high_complexity_files'] leads to. *)
Definition entry_flags (i : GptResults.high_file) : list message :=
  (if Qlt_le_dec 8 (GptResults.complexity i)
   then [MsgSemantic (GptResults.file i) (GptResults.complexity i)]
   else [])
  ++
  (if Qlt_le_dec (GptResults.cursor_compatibility i) 5
   then [MsgCursor (GptResults.file i) (GptResults.cursor_compatibility i)]
   else []).

(** ** Scenarios *)

(** A scored document as it appears in ['file_analysis']. *)
Definition scored (score : Q) : StaticResults.analysis := {|
  StaticResults.complexity_score := score;
  StaticResults.size_kb := None;
  StaticResults.line_count := None
|}.

(** A static results file that holds the scored documents [items]. *)
Definition corpus (items : list (string * StaticResults.analysis))
  : option StaticResults.t :=
  Some {| StaticResults.high_complexity_files := None;
          StaticResults.conflicts_found := None;
          StaticResults.best_practice_violations := None;
          StaticResults.recommendations := None;
          StaticResults.file_analysis := Some items |}.

(** The checker of the end-to-end scenario: table [{"A": 100}], multiplier 2. *)
Definition checker_A : Checker.ComplexityThresholdChecker := {|
  Checker.baseline := [("A", 100%Z)];
  Checker.threshold_multiplier := 2
|}.


(** A static results file with the given conflict and violation labels. *)
Definition static_labels (conflicts violations : list string)
  : option StaticResults.t :=
  Some {| StaticResults.high_complexity_files := Some [];
          StaticResults.conflicts_found := Some conflicts;
          StaticResults.best_practice_violations := Some violations;
          StaticResults.recommendations := Some [];
          StaticResults.file_analysis := Some [] |}.

(** A semantic results file with the given Cursor-compatibility issues. *)
Definition gpt_issues (issues : list string) : option GptResults.t :=
  Some {| GptResults.rule_conflicts := Some [];
          GptResults.best_practice_violations := Some [];
          GptResults.cursor_compatibility_issues := Some issues;
          GptResults.high_complexity_files := Some [] |}.

(** The label the static analyzer writes for one match of "BLOCKED". *)
Definition blocked_once : string :=
  Analyzer.instances "Blocking rule detected" 1.

(** The analyzer's flag: [file_analysis['complexity_rating'] > 7]. *)
Definition rated_high (fa : Gpt.FileAnalysis.t) : bool :=
  Py.gt (Gpt.FileAnalysis.complexity_rating fa) 7.

(** ** Vocabulary of the further properties *)

(** The verdict the comparator reaches for one document: none or one. *)
Definition verdict_of (self : Checker.ComplexityThresholdChecker)
           (item : string * StaticResults.analysis)
  : list Checker.exceeded_info :=
  match Checker.find_baseline (Checker.keys (Checker.baseline self))
                              (fst item) with
  | Some k =>
      if truthy_str k then
        match Checker.getitem (Checker.baseline self) k with
        | Ok b =>
            if Py.gt (StaticResults.complexity_score (snd item))
                     (inject_Z b * Checker.threshold_multiplier self)
            then [verdict (Checker.threshold_multiplier self) (fst item)
                          (snd item) b]
            else []
        | Raise _ => []
        end
      else []
  | None => []
  end.

(** The recommendation that goes with a verdict. *)
Definition verdict_message (info : Checker.exceeded_info) : message :=
  MsgExceeded (severity_of (Checker.excess_percentage info))
              (Checker.file info) (Checker.excess_percentage info).

(** Every threshold of the table is above zero. *)
Definition positive_thresholds (self : Checker.ComplexityThresholdChecker)
  : bool :=
  forallb (fun kv =>
             Py.gt (inject_Z (snd kv) * Checker.threshold_multiplier self) 0)
          (Checker.baseline self).

(** What [load_json_file] makes of a file. *)
Definition loaded {A : Type} (f : json_file (option A)) : option A :=
  match f with
  | Parsed v => v
  | Missing => None
  | Unparsable => None
  end.

(** The labels [create_alert] would list under its three deduplicated
    headings. *)
Definition alert_labels (static_results : option StaticResults.t)
           (gpt_results : option GptResults.t) : list string :=
  (Alert.field_or_nil static_results StaticResults.conflicts_found
   ++ Alert.field_or_nil gpt_results GptResults.rule_conflicts)
  ++ (Alert.field_or_nil static_results StaticResults.best_practice_violations
      ++ Alert.field_or_nil gpt_results GptResults.best_practice_violations)
  ++ Alert.field_or_nil gpt_results GptResults.cursor_compatibility_issues.

(** The file headings of a threshold report, in order. *)
Definition report_files (lines : list Checker.report_line) : list string :=
  flat_map (fun l => match l with
                     | Checker.RFile path => [path]
                     | _ => []
                     end) lines.

(** The status lines of a summary. *)
Definition is_status (l : Summary.line) : bool :=
  match l with
  | Summary.StatusExceeded => true
  | Summary.StatusWithin => true
  | _ => false
  end.

(** The recommendation bullets of a summary, in order. *)
Definition summary_bullets (lines : list Summary.line) : list message :=
  flat_map (fun l => match l with
                     | Summary.Bullet m => [m]
                     | _ => []
                     end) lines.

(** The number of matches of the conflict patterns in a text. *)
Definition conflict_matches
           (re_findall : string -> string -> list Analyzer.re_flag
                         -> list string)
           (patterns : list (string * string)) (content : string) : Z :=
  fold_left (fun acc p =>
               (acc + Z.of_nat (List.length
                                  (re_findall (fst p) content
                                              [Analyzer.IGNORECASE])))%Z)
            patterns 0%Z.

(** The bullets of a threshold report, in order. *)
Definition report_bullets (lines : list Checker.report_line) : list message :=
  flat_map (fun l => match l with
                     | Checker.RBullet m => [m]
                     | _ => []
                     end) lines.

(** [b] is not above [a] in excess percentage. *)
Definition excess_desc (a b : Checker.exceeded_info) : Prop :=
  Checker.excess_percentage b <= Checker.excess_percentage a.

(** The verdicts whose excess percentage equals [q]. *)
Definition with_excess (q : Q) (infos : list Checker.exceeded_info)
  : list Checker.exceeded_info :=
  filter (fun i => Qeq_bool (Checker.excess_percentage i) q) infos.

(** A summary line that is neither a status line nor a bullet. *)
Definition is_plain (l : Summary.line) : bool :=
  match l with
  | Summary.StatusExceeded => false
  | Summary.StatusWithin => false
  | Summary.Bullet _ => false
  | _ => true
  end.

(** The static results [d] with another list of conflict labels. *)
Definition with_conflicts (d : Summary.static_doc) (labels : list string)
  : Summary.static_doc :=
  {| Summary.common :=
       {| StaticResults.high_complexity_files :=
            StaticResults.high_complexity_files (Summary.common d);
          StaticResults.conflicts_found := Some labels;
          StaticResults.best_practice_violations :=
            StaticResults.best_practice_violations (Summary.common d);
          StaticResults.recommendations :=
            StaticResults.recommendations (Summary.common d);
          StaticResults.file_analysis :=
            StaticResults.file_analysis (Summary.common d) |};
     Summary.files_analyzed := Summary.files_analyzed d;
     Summary.total_complexity := Summary.total_complexity d;
     Summary.summary := Summary.summary d |}.

(** A static results file that holds nothing but conflict labels. *)
Definition only_conflicts (labels : list string) : Summary.static_doc :=
  {| Summary.common :=
       {| StaticResults.high_complexity_files := None;
          StaticResults.conflicts_found := Some labels;
          StaticResults.best_practice_violations := None;
          StaticResults.recommendations := None;
          StaticResults.file_analysis := None |};
     Summary.files_analyzed := None;
     Summary.total_complexity := None;
     Summary.summary := None |}.

(** The entry [analyze_repository] appends to ['high_complexity_files']
    for an analysis. *)
Definition high_entry_of (a : Analyzer.Analysis.t)
  : Analyzer.Results.high_file :=
  {| Analyzer.Results.file := Analyzer.Analysis.file_path a;
     Analyzer.Results.score := Analyzer.Analysis.complexity_score a;
     Analyzer.Results.size_kb := Analyzer.Analysis.size_kb a;
     Analyzer.Results.line_count := Analyzer.Analysis.line_count a;
     Analyzer.Results.issues := Analyzer.Analysis.issues a |}.

(** The analyzer's flag: [analysis['complexity_score'] > 50]. *)
Definition scored_high (a : Analyzer.Analysis.t) : bool :=
  Py.gt (Analyzer.Analysis.complexity_score a) 50.

(** A regular expression engine that never finds a match. *)
Definition no_match : string -> string -> list Analyzer.re_flag -> list string :=
  fun _ _ _ => [].

(** A regular expression engine that finds one match of every pattern in
    every text. *)
Definition one_match : string -> string -> list Analyzer.re_flag -> list string :=
  fun _ _ _ => ["m"].

(** The analysis of a document given as path and text. *)
Definition doc_analysis
           (re_findall : string -> string -> list Analyzer.re_flag
                         -> list string)
           (self : Analyzer.MarkdownComplexityAnalyzer)
           (doc : string * string) : Analyzer.Analysis.t :=
  Analyzer.analyze_file re_findall self (fst doc) (snd doc).

(** The label a pattern with its description leaves on a text: none when
    the pattern has no match. *)
Definition pattern_label
           (re_findall : string -> string -> list Analyzer.re_flag
                         -> list string)
           (content : string) (p : string * string) : list string :=
  match re_findall (fst p) content [Analyzer.IGNORECASE] with
  | [] => []
  | m :: ms => [Analyzer.instances (snd p) (List.length (m :: ms))]
  end.

(** The count recorded in a breakdown under a name; [0] when absent. *)
Fixpoint breakdown_count (name : string) (bd : list (string * Z)) : Z :=
  match bd with
  | [] => 0%Z
  | (n, c) :: bd' => if String.eqb n name then c else breakdown_count name bd'
  end.

(** What holds of the semantic results once the files [done] have been
    met. *)
Definition semantic_invariant
           (gpt : string -> string -> Gpt.analysis_type -> Gpt.Response.t)
           (done : list (string * string)) (r : Gpt.Results.t) : Prop :=
  let judgements := map snd (Gpt.Results.file_analysis r) in
  Gpt.Results.rule_conflicts r
  = flat_map Gpt.FileAnalysis.conflicts judgements
  /\ Gpt.Results.best_practice_violations r
     = flat_map Gpt.FileAnalysis.violations judgements
  /\ Gpt.Results.cursor_compatibility_issues r
     = flat_map Gpt.FileAnalysis.cursor_issues judgements
  /\ Gpt.Results.files_analyzed r
     = Z.of_nat (List.length (Gpt.Results.file_analysis r))
  /\ NoDup (map fst (Gpt.Results.file_analysis r))
  /\ (forall path, In path (map fst (Gpt.Results.file_analysis r))
                   <-> In path (map fst done))
  /\ (forall path fa, In (path, fa) (Gpt.Results.file_analysis r) ->
        exists content, In (path, content) done
                        /\ fa = Gpt.judge gpt path content).

(** An analyzer with a key. *)
Definition keyed : Gpt.GPTComplexityAnalyzer := {| Gpt.api_key := Some "k" |}.

(** A hosted model that answers every request with the same prose. *)
Definition refusing_chat
  : Gpt.analysis_type -> string -> string -> result string :=
  fun _ _ _ => Ok "I cannot rate this file.".

(** A decoder that knows one JSON text, the empty object. *)
Definition empty_object_decoder : string -> result SemanticRun.answer :=
  fun text =>
    if String.eqb text "{}" then Ok SemanticRun.error_answer
    else Raise JSONDecodeError.

(** The regular expressions [analyze_file] searches for. *)
Definition searched_patterns (self : Analyzer.MarkdownComplexityAnalyzer)
  : list string :=
  "^#{2,}" :: map fst (Analyzer.conflict_patterns self)
  ++ map fst (Analyzer.best_practice_violations self).

(** A regular expression engine that knows one pattern, the empty one,
    which matches before every character of a text and at its end. *)
Definition empty_pattern_only
  : string -> string -> list Analyzer.re_flag -> list string :=
  fun pattern text _ =>
    match pattern with
    | EmptyString => repeat EmptyString (S (String.length text))
    | String _ _ => []
    end.

(** ** Vocabulary for ratings of any JSON type *)

(** The file exists and holds JSON, or does not exist. *)
Definition readable {A : Type} (f : json_file A) : bool :=
  match f with
  | Unparsable => false
  | _ => true
  end.

(** The entries the loop over ['high_complexity_files'] visits. *)
Definition semantic_entries (gpt_results : option GptJson.t)
  : list GptJson.high_file :=
  match gpt_results with
  | Some gr => get (GptJson.high_complexity_files gr) []
  | None => []
  end.

(** Both ratings of an entry are numbers. *)
Definition numeric_entry (i : GptJson.high_file) : bool :=
  Json.is_number (GptJson.complexity i)
  && Json.is_number (GptJson.cursor_compatibility i).

(** Every entry of ['high_complexity_files'] has numbers for ratings. *)
Definition numeric_results (gpt_results : option GptJson.t) : bool :=
  forallb numeric_entry (semantic_entries gpt_results).

(** The number a rating holds; [0] stands in for anything else. *)
Definition number_of (v : Json.value) : Q :=
  match v with
  | Json.Num q => q
  | _ => 0
  end.

(** An entry, and a results file, with the ratings read as numbers. *)
Definition numbers_of_entry (i : GptJson.high_file) : GptResults.high_file :=
  {| GptResults.file := GptJson.file i;
     GptResults.complexity := number_of (GptJson.complexity i);
     GptResults.cursor_compatibility :=
       number_of (GptJson.cursor_compatibility i) |}.

Definition numbers_of (gpt_results : option GptJson.t)
  : option GptResults.t :=
  match gpt_results with
  | Some gr =>
      Some {| GptResults.rule_conflicts := None;
              GptResults.best_practice_violations := None;
              GptResults.cursor_compatibility_issues := None;
              GptResults.high_complexity_files :=
                option_map (map numbers_of_entry)
                           (GptJson.high_complexity_files gr) |}
  | None => None
  end.






(** The paths of the files that could be read, in the order met. *)
Definition read_paths (docs : list (string * result string)) : list string :=
  flat_map (fun doc => match snd doc with
                       | Ok _ => [fst doc]
                       | Raise _ => []
                       end) docs.

(** What holds of the state of the semantic loop once the files [done]
    have been met. *)
Definition run_invariant
           (gpt : string -> string -> Gpt.analysis_type -> SemanticRun.answer)
           (done : list (string * result string))
           (state : SemanticRun.Results.t * list string) : Prop :=
  let results := fst state in
  let analyzed_files := snd state in
  let keys := map fst (SemanticRun.Results.file_analysis results) in
  SemanticRun.Results.files_analyzed results
  = Z.of_nat (List.length analyzed_files)
  /\ NoDup analyzed_files
  /\ (forall path, In path analyzed_files <-> In path (read_paths done))
  /\ NoDup keys
  /\ (forall path, In path keys -> In path analyzed_files)
  /\ (forall path, In path analyzed_files ->
                   In path keys
                   \/ In (path, TypeError)
                         (SemanticRun.Results.analysis_errors results))
  /\ (forall path fa,
         In (path, fa) (SemanticRun.Results.file_analysis results) ->
         SemanticRun.Judgement.file_path fa = path
         /\ exists content earlier,
             In (path, Ok content) done
             /\ snd (SemanticRun.analyze_content gpt earlier path content)
                = Ok fa)
  /\ (forall path e,
         In (path, e) (SemanticRun.Results.analysis_errors results) ->
         In (path, Raise e) done
         \/ (e = TypeError /\ In path analyzed_files)).

(** A judgement with no label and both ratings 0. *)
Definition default_judgement (fa : SemanticRun.Judgement.t) : Prop :=
  SemanticRun.Judgement.complexity_rating fa = Json.Num 0
  /\ SemanticRun.Judgement.cursor_compatibility fa = Json.Num 0
  /\ SemanticRun.Judgement.conflicts fa = SemanticRun.Items []
  /\ SemanticRun.Judgement.violations fa = SemanticRun.Items []
  /\ SemanticRun.Judgement.cursor_issues fa = SemanticRun.Items [].

(** An answer whose complexity rating is the text "8", with one conflict
    label. *)
Definition answer_rated_in_text
  : string -> string -> Gpt.analysis_type -> SemanticRun.answer :=
  fun _ _ _ =>
    SemanticRun.Object
      {| SemanticRun.Answer.conflicts :=
           Some (SemanticRun.Items [Json.Str "c"]);
         SemanticRun.Answer.complexity_rating := Some (Json.Str "8");
         SemanticRun.Answer.violations := None;
         SemanticRun.Answer.issues := None;
         SemanticRun.Answer.cursor_compatibility := None |}.

(** What holds of the state of the loop when every answer is an error
    dictionary. *)
Definition silent_invariant (done : list (string * result string))
           (state : SemanticRun.Results.t * list string) : Prop :=
  let results := fst state in
  SemanticRun.Results.rule_conflicts results = []
  /\ SemanticRun.Results.best_practice_violations results = []
  /\ SemanticRun.Results.cursor_compatibility_issues results = []
  /\ SemanticRun.Results.high_complexity_files results = []
  /\ (forall path, In path (read_paths done) -> In path (snd state))
  /\ (forall path, In path (snd state) ->
                   In path (map fst (SemanticRun.Results.file_analysis results)))
  /\ (forall path fa, In (path, fa) (SemanticRun.Results.file_analysis results) ->
                      default_judgement fa)
  /\ (forall path e, In (path, e) (SemanticRun.Results.analysis_errors results) ->
                     In (path, Raise e) done).

(** Every label of the semantic results can be a member of a set. *)
Definition hashable_labels (gpt_results : option SummaryJson.gpt_doc) : bool :=
  match gpt_results with
  | Some d =>
      forallb SummaryJson.hashable
              (get (SummaryJson.rule_conflicts d) []
               ++ get (SummaryJson.best_practice_violations d) []
               ++ get (SummaryJson.cursor_compatibility_issues d) [])
  | None => true
  end.

(** Semantic results that hold nothing but rule conflicts. *)
Definition only_rule_conflicts (labels : list Json.value)
  : option SummaryJson.gpt_doc :=
  Some {| SummaryJson.files_analyzed := None;
          SummaryJson.high_complexity_files := None;
          SummaryJson.rule_conflicts := Some labels;
          SummaryJson.best_practice_violations := None;
          SummaryJson.cursor_compatibility_issues := None |}.

(** * Properties *)

Unset Implicit Arguments.

(** ** Numbers and strings *)

Lemma gt_true_iff (a b : Q) : Py.gt a b = true <-> b < a.
Proof.
  unfold Py.gt. split.
  - intro H. apply Qgt_alt. destruct (a ?= b); congruence.
  - intro H. apply Qgt_alt in H. now rewrite H.
Qed.

Lemma gt_false_iff (a b : Q) : Py.gt a b = false <-> a <= b.
Proof.
  unfold Py.gt. rewrite Qle_alt. destruct (a ?= b); split; congruence.
Qed.

Lemma lt_true_iff (a b : Q) : Py.lt a b = true <-> a < b.
Proof. unfold Py.lt. apply gt_true_iff. Qed.

Lemma truediv_nonzero (a b : Q) :
  ~ b == 0 -> Py.truediv a b = Ok (a / b).
Proof.
  intro H. unfold Py.truediv.
  destruct (Qeq_bool b 0) eqn:E; [|reflexivity].
  apply Qeq_bool_iff in E. contradiction.
Qed.

Lemma prefix_iff (sub s : string) :
  String.prefix sub s = true <-> exists post, s = String.append sub post.
Proof.
  revert sub. induction s as [|c s IH]; intros [|a sub]; simpl.
  - split; [exists EmptyString; reflexivity | reflexivity].
  - split; [discriminate | intros [post H]; discriminate].
  - split; [intros _; eexists; reflexivity | reflexivity].
  - destruct (ascii_dec a c) as [->|Hne].
    + rewrite IH. split; intros [post H]; exists post.
      * now rewrite H.
      * now inversion H.
    + split; [discriminate | intros [post H]; inversion H; congruence].
Qed.

Lemma contains_iff (sub s : string) :
  Py.contains sub s = true <-> is_substring sub s.
Proof.
  unfold is_substring. induction s as [|c s IH]; cbn [Py.contains].
  - rewrite orb_false_r, prefix_iff. split.
    + intros [post H]. exists EmptyString, post. exact H.
    + intros [[|a pre] [post H]]; [exists post; exact H | discriminate].
  - rewrite orb_true_iff, IH, prefix_iff. split.
    + intros [[post H]|[pre [post H]]].
      * exists EmptyString, post. exact H.
      * exists (String c pre), post. simpl. now rewrite H.
    + intros [[|a pre] [post H]].
      * left. exists post. exact H.
      * right. exists pre, post. simpl in H. now inversion H.
Qed.

Lemma contains_false_iff (sub s : string) :
  Py.contains sub s = false <-> ~ is_substring sub s.
Proof.
  rewrite <- contains_iff. destruct (Py.contains sub s); split; congruence.
Qed.

(** ** Baseline resolution *)

Section BaselineResolution.

Import Checker.

Lemma find_baseline_None (names : list string) (file_path : string) :
  find_baseline names file_path = None <->
  forall k, In k names -> ~ is_substring k file_path.
Proof.
  induction names as [|n names IH]; simpl.
  - split; [intros _ k [] | reflexivity].
  - destruct (Py.contains n file_path) eqn:E.
    + split; [discriminate|]. intro H.
      apply contains_iff in E. destruct (H n (or_introl eq_refl) E).
    + rewrite IH. apply contains_false_iff in E. split.
      * intros H k [<-|Hin]; auto.
      * intros H k Hin. apply H. now right.
Qed.

Lemma find_baseline_Some (names : list string) (file_path k : string) :
  find_baseline names file_path = Some k <->
  exists before after,
    names = before ++ k :: after
    /\ is_substring k file_path
    /\ forall k', In k' before -> ~ is_substring k' file_path.
Proof.
  induction names as [|n names IH]; simpl.
  - split; [discriminate|]. intros (before & after & H & _).
    destruct before; discriminate.
  - destruct (Py.contains n file_path) eqn:E.
    + apply contains_iff in E. split.
      * intros [= <-]. exists [], names. repeat split; auto.
      * intros ([|b before] & after & H & Hk & Hbefore).
        -- now inversion H.
        -- inversion H; subst b. destruct (Hbefore n (or_introl eq_refl) E).
    + apply contains_false_iff in E. rewrite IH. split.
      * intros (before & after & H & Hk & Hbefore).
        exists (n :: before), after. subst names. repeat split; auto.
        intros k' [<-|Hin]; auto.
      * intros ([|b before] & after & H & Hk & Hbefore).
        -- inversion H; subst n. contradiction.
        -- inversion H; subst. exists before, after. repeat split; auto.
           intros k' Hin. apply Hbefore. now right.
Qed.

(** The score looked up for the resolved key is the one declared with it. *)
Lemma find_baseline_entry (table : list (string * Z)) (file_path k : string) :
  find_baseline (keys table) file_path = Some k ->
  exists before b after,
    table = before ++ (k, b) :: after
    /\ (forall k', In k' (keys before) -> ~ is_substring k' file_path)
    /\ getitem table k = Ok b.
Proof.
  induction table as [|[n v] table IH]; simpl; [discriminate|].
  destruct (Py.contains n file_path) eqn:E.
  - intros [= <-]. exists [], v, table. rewrite String.eqb_refl.
    repeat split. intros k' [].
  - intro H. destruct (IH H) as (before & b & after & -> & Hbefore & Hget).
    apply contains_false_iff in E.
    exists ((n, v) :: before), b, after. repeat split.
    + intros k' [<-|Hin]; auto.
    + destruct (String.eqb n k) eqn:Enk; [|exact Hget].
      apply String.eqb_eq in Enk. subst n.
      apply find_baseline_Some in H.
      destruct H as (_ & _ & _ & Hk & _). contradiction.
Qed.

Lemma nonzero_thresholds_entry (self : ComplexityThresholdChecker)
      (before after : list (string * Z)) (k : string) (b : Z) :
  nonzero_thresholds self = true ->
  baseline self = before ++ (k, b) :: after ->
  ~ inject_Z b * threshold_multiplier self == 0.
Proof.
  unfold nonzero_thresholds. intros H Htable. rewrite forallb_forall in H.
  assert (Hin : In (k, b) (baseline self))
    by (rewrite Htable; apply in_or_app; right; now left).
  specialize (H _ Hin). simpl in H. apply negb_true_iff in H.
  now apply Qeq_bool_neq.
Qed.

Lemma nonempty_keys_entry (self : ComplexityThresholdChecker)
      (before after : list (string * Z)) (k : string) (b : Z) :
  nonempty_keys self = true ->
  baseline self = before ++ (k, b) :: after ->
  truthy_str k = true.
Proof.
  unfold nonempty_keys. intros H Htable. rewrite forallb_forall in H.
  apply H. unfold keys. rewrite Htable, map_app. apply in_or_app.
  right. now left.
Qed.

Lemma severity_of_gt (excess : Q) :
  (if Py.gt excess 50 then critical else warning) = severity_of excess.
Proof.
  unfold severity_of. destruct (Qlt_le_dec 50 excess) as [H|H].
  - apply gt_true_iff in H. now rewrite H.
  - apply gt_false_iff in H. now rewrite H.
Qed.

(** What the loop body does for one document, by cases on the resolved
    baseline. *)
Lemma check_file_unmatched (self : ComplexityThresholdChecker)
      (report : threshold_report) (file_path : string)
      (analysis : StaticResults.analysis) :
  find_baseline (keys (baseline self)) file_path = None ->
  check_file self report (file_path, analysis)
  = Ok (count_file report (StaticResults.complexity_score analysis)).
Proof. intro H. unfold check_file. now rewrite H. Qed.

Lemma check_file_matched (self : ComplexityThresholdChecker)
      (report : threshold_report) (file_path : string)
      (analysis : StaticResults.analysis) (k : string) (b : Z) :
  find_baseline (keys (baseline self)) file_path = Some k ->
  truthy_str k = true ->
  getitem (baseline self) k = Ok b ->
  ~ inject_Z b * threshold_multiplier self == 0 ->
  let current := StaticResults.complexity_score analysis in
  let info := verdict (threshold_multiplier self) file_path analysis b in
  check_file self report (file_path, analysis)
  = Ok (if Py.gt current (inject_Z b * threshold_multiplier self)
        then record_exceeded (count_file report current) info
               (MsgExceeded (severity_of (excess_percentage info)) file_path
                            (excess_percentage info))
        else count_file report current).
Proof.
  intros Hfind Hk Hget Hnz current info. unfold check_file.
  rewrite Hfind, Hk, Hget. cbn [negb Py.bind].
  fold current. destruct (Py.gt current _) eqn:Egt; [|reflexivity].
  rewrite (truediv_nonzero _ _ Hnz). cbn [Py.bind excess_percentage].
  rewrite <- (severity_of_gt (excess_percentage info)).
  unfold info, verdict. cbn [excess_percentage]. fold current.
  destruct (Py.gt _ 50); reflexivity.
Qed.

End BaselineResolution.

(** ** The loop over the scored documents *)

Section StaticLoop.

Import Checker.

Variable self : ComplexityThresholdChecker.

Lemma check_file_cases (report : threshold_report) (file_path : string)
      (analysis : StaticResults.analysis) :
  nonzero_thresholds self = true ->
  let current := StaticResults.complexity_score analysis in
  check_file self report (file_path, analysis)
  = Ok (count_file report current)
  \/ exists k b,
      find_baseline (keys (baseline self)) file_path = Some k
      /\ truthy_str k = true
      /\ getitem (baseline self) k = Ok b
      /\ inject_Z b * threshold_multiplier self < current
      /\ let info := verdict (threshold_multiplier self) file_path analysis b in
         check_file self report (file_path, analysis)
         = Ok (record_exceeded (count_file report current) info
                 (MsgExceeded (severity_of (excess_percentage info)) file_path
                              (excess_percentage info))).
Proof.
  intros Hnz current.
  destruct (find_baseline (keys (baseline self)) file_path) as [k|] eqn:Hfind.
  - destruct (truthy_str k) eqn:Hk.
    + destruct (find_baseline_entry _ _ _ Hfind)
        as (before & b & after & Htable & _ & Hget).
      pose proof (nonzero_thresholds_entry self _ _ _ _ Hnz Htable) as Hb.
      rewrite (check_file_matched self report _ analysis _ _ Hfind Hk Hget Hb).
      fold current.
      destruct (Py.gt current _) eqn:Egt; [right|now left].
      exists k, b. apply gt_true_iff in Egt. repeat split; auto.
    + left. unfold check_file. now rewrite Hfind, Hk.
  - left. now apply check_file_unmatched.
Qed.

Lemma for_each_induction {A S : Type} (body : S -> A -> result S)
      (P : list A -> S -> Prop) :
  (forall done x s, P done s ->
                    exists s', body s x = Ok s' /\ P (done ++ [x]) s') ->
  forall xs done s,
    P done s -> exists s', for_each body xs s = Ok s' /\ P (done ++ xs) s'.
Proof.
  intros Hstep xs. induction xs as [|x xs IH]; intros done s HP; simpl.
  - exists s. now rewrite app_nil_r.
  - destruct (Hstep done x s HP) as (s1 & -> & HP1). simpl.
    destruct (IH (done ++ [x]) s1 HP1) as (s' & Hrun & HP').
    exists s'. split; [exact Hrun|]. now rewrite <- app_assoc in HP'.
Qed.

Lemma loop_invariant_empty (now : string) :
  loop_invariant self [] (empty_report self now).
Proof.
  unfold loop_invariant. simpl. repeat split; try discriminate.
  - intro H. now contradiction H.
  - intros info [].
Qed.

Lemma loop_invariant_step (done : list (string * StaticResults.analysis))
      (item : string * StaticResults.analysis) (r : threshold_report) :
  nonzero_thresholds self = true ->
  loop_invariant self done r ->
  exists r', check_file self r item = Ok r'
             /\ loop_invariant self (done ++ [item]) r'.
Proof.
  intros Hnz (Hgate & Hfiles & Hchecked & Hexceeded & Hcurrent & Hbase & Hwarn).
  destruct item as [file_path analysis].
  destruct (check_file_cases r file_path analysis Hnz)
    as [Hrun|(k & b & Hfind & Hk & Hget & Hlt & Hrun)];
    rewrite Hrun; eexists; (split; [reflexivity|]);
    unfold loop_invariant; cbn -[Z.of_nat verdict];
    rewrite ?fold_left_app, ?length_app, ?Nat2Z.inj_add; cbn -[verdict].
  - repeat split; auto; try apply Hgate; try (now f_equal).
    intros info Hin. destruct (Hfiles info Hin) as (a & k & b & Ha & Hrest).
    exists a, k, b. split; [apply in_or_app; now left | exact Hrest].
  - repeat split; auto; try (now f_equal).
    + intros _ H. now apply app_eq_nil in H as [_ H].
    + intros info Hin. apply in_app_or in Hin as [Hin|[<-|[]]].
      * destruct (Hfiles info Hin) as (a & k' & b' & Ha & Hrest).
        exists a, k', b'. split; [apply in_or_app; now left | exact Hrest].
      * exists analysis, k, b. cbn. repeat split; auto.
        apply in_or_app. right. now left.
Qed.

Lemma static_loop (now : string) (static_results : option StaticResults.t) :
  nonzero_thresholds self = true ->
  exists r,
    check_static_results self (empty_report self now) static_results = Ok r
    /\ loop_invariant self (static_items static_results) r.
Proof.
  intro Hnz.
  assert (Heq : check_static_results self (empty_report self now)
                                     static_results
                = for_each (check_file self) (static_items static_results)
                           (empty_report self now)).
  { unfold check_static_results, static_items.
    destruct static_results as [[? ? ? ? [items|]]|]; reflexivity. }
  rewrite Heq.
  apply (for_each_induction (check_file self) (loop_invariant self)
           (fun done x s => loop_invariant_step done x s Hnz)
           (static_items static_results) [] (empty_report self now)
           (loop_invariant_empty now)).
Qed.

End StaticLoop.

(** ** The later stages of [check_threshold] *)

Section LaterStages.

Import Checker.

Lemma check_semantic_warnings (r : threshold_report)
      (i : GptResults.high_file) :
  warnings (check_semantic r i) = warnings r ++ entry_flags i.
Proof.
  unfold check_semantic, entry_flags.
  destruct (Qlt_le_dec 8 (GptResults.complexity i)) as [H8|H8];
    [apply gt_true_iff in H8 | apply gt_false_iff in H8]; rewrite H8;
    (destruct (Qlt_le_dec (GptResults.cursor_compatibility i) 5) as [H5|H5];
     [apply lt_true_iff in H5
     | apply gt_false_iff in H5; unfold Py.lt]; rewrite H5);
    cbn; rewrite <- ?app_assoc, ?app_nil_r; reflexivity.
Qed.

Lemma check_semantic_rest (r : threshold_report) (i : GptResults.high_file) :
  threshold_exceeded (check_semantic r i) = threshold_exceeded r
  /\ exceeded_files (check_semantic r i) = exceeded_files r
  /\ recommendations (check_semantic r i) = recommendations r
  /\ summary (check_semantic r i) = summary r.
Proof.
  unfold check_semantic.
  destruct (Py.gt _ 8); destruct (Py.lt _ 5); cbn; repeat split.
Qed.

Lemma check_gpt_results_fields (r : threshold_report)
      (gpt_results : option GptResults.t) :
  let r' := check_gpt_results r gpt_results in
  warnings r' = warnings r ++ flat_map entry_flags (semantic_items gpt_results)
  /\ threshold_exceeded r' = threshold_exceeded r
  /\ exceeded_files r' = exceeded_files r
  /\ recommendations r' = recommendations r
  /\ summary r' = summary r.
Proof.
  assert (Hfold : forall infos r0,
             let r' := fold_left check_semantic infos r0 in
             warnings r' = warnings r0 ++ flat_map entry_flags infos
             /\ threshold_exceeded r' = threshold_exceeded r0
             /\ exceeded_files r' = exceeded_files r0
             /\ recommendations r' = recommendations r0
             /\ summary r' = summary r0).
  { induction infos as [|i infos IH]; intro r0; cbn.
    - rewrite app_nil_r. repeat split.
    - destruct (IH (check_semantic r0 i)) as (Hw & Ht & He & Hr & Hs).
      destruct (check_semantic_rest r0 i) as (Ht' & He' & Hr' & Hs').
      rewrite Hw, Ht, He, Hr, Hs, check_semantic_warnings, <- app_assoc.
      repeat split; assumption. }
  unfold check_gpt_results, semantic_items.
  destruct gpt_results as [[? ? ? [infos|]]|]; cbn;
    try (rewrite app_nil_r; repeat split).
  apply Hfold.
Qed.

Lemma overall_recommendations_fields (r : threshold_report) :
  let r' := overall_recommendations r in
  warnings r' = warnings r
  /\ threshold_exceeded r' = threshold_exceeded r
  /\ exceeded_files r' = exceeded_files r
  /\ summary r' = summary r
  /\ recommendations r'
     = recommendations r
       ++ (if threshold_exceeded r then [MsgSplit; MsgReview] else [])
       ++ (if (Z.of_nat (List.length (warnings r)) >? 5)%Z
           then [MsgConsolidate] else []).
Proof.
  unfold overall_recommendations.
  destruct (threshold_exceeded r) eqn:E; cbn;
    destruct (Z.of_nat (List.length (warnings r)) >? 5)%Z; cbn;
    rewrite ?E, <- ?app_assoc, ?app_nil_r; repeat split; reflexivity.
Qed.

(** A run with non-zero thresholds returns a report, whose verdicts are
    those of the loop over the documents and whose warnings are those of
    the loop over the semantic entries. *)
Lemma check_loaded_run (self : ComplexityThresholdChecker) (now : string)
      (static_results : option StaticResults.t)
      (gpt_results : option GptResults.t) :
  nonzero_thresholds self = true ->
  exists report,
    check_loaded self now static_results gpt_results = Ok report
    /\ (threshold_exceeded report = true <-> exceeded_files report <> [])
    /\ (forall info, In info (exceeded_files report) ->
         exists analysis k b,
           In (file info, analysis) (static_items static_results)
           /\ find_baseline (keys (baseline self)) (file info) = Some k
           /\ getitem (baseline self) k = Ok b
           /\ info = verdict (threshold_multiplier self) (file info) analysis b
           /\ inject_Z b * threshold_multiplier self
              < StaticResults.complexity_score analysis)
    /\ files_checked (summary report)
       = Z.of_nat (List.length (static_items static_results))
    /\ files_exceeded (summary report)
       = Z.of_nat (List.length (exceeded_files report))
    /\ total_current (summary report)
       = fold_left (fun acc item =>
                      acc + StaticResults.complexity_score (snd item))
                   (static_items static_results) 0
    /\ total_baseline (summary report) = sum (values (baseline self))
    /\ warnings report = flat_map entry_flags (semantic_items gpt_results).
Proof.
  intro Hnz. unfold check_loaded.
  destruct (static_loop self now static_results Hnz) as (r & -> & Hinv).
  cbn [Py.bind]. eexists. split; [reflexivity|].
  destruct Hinv as (Hgate & Hfiles & Hchecked & Hexc & Hcur & Hbase & Hwarn).
  destruct (overall_recommendations_fields (check_gpt_results r gpt_results))
    as (Hw & Ht & He & Hs & _).
  destruct (check_gpt_results_fields r gpt_results)
    as (Hw' & Ht' & He' & _ & Hs').
  cbv zeta in *. rewrite Hw, Ht, He, Hs, Hw', Ht', He', Hs', Hwarn.
  repeat split; auto; apply Hgate.
Qed.

Lemma init_nonzero_thresholds : nonzero_thresholds init = true.
Proof. reflexivity. Qed.

Lemma init_nonempty_keys : nonempty_keys init = true.
Proof. reflexivity. Qed.

Lemma check_threshold_loaded (self : ComplexityThresholdChecker)
      (now : string) (static_results : option (option StaticResults.t))
      (gpt_results : option (option GptResults.t)) :
  snd (check_threshold self now (file_of static_results)
                       (file_of gpt_results))
  = check_loaded self now
      (match static_results with Some sr => sr | None => None end)
      (match gpt_results with Some gr => gr | None => None end).
Proof.
  unfold check_threshold.
  destruct static_results as [sr|], gpt_results as [gr|];
    cbn -[check_loaded];
    match goal with
    | |- context [check_loaded ?a ?b ?c ?d] => destruct (check_loaded a b c d)
    end; reflexivity.
Qed.

End LaterStages.

(** ** Ratings of any JSON type in [check_threshold] *)

Section JsonRatings.

Import Checker.

Lemma check_gpt_results_items (r : threshold_report)
      (gpt_results : option GptResults.t) :
  check_gpt_results r gpt_results
  = fold_left check_semantic (semantic_items gpt_results) r.
Proof.
  unfold check_gpt_results, semantic_items.
  destruct gpt_results as [[? ? ? [infos|]]|]; reflexivity.
Qed.

Lemma check_gpt_results_entries (r : threshold_report)
      (gpt_results : option GptJson.t) :
  CheckerJson.check_gpt_results r gpt_results
  = for_each CheckerJson.check_semantic (semantic_entries gpt_results) r.
Proof.
  unfold CheckerJson.check_gpt_results, semantic_entries.
  destruct gpt_results as [[[infos|]]|]; reflexivity.
Qed.

Lemma semantic_items_numbers_of (gpt_results : option GptJson.t) :
  semantic_items (numbers_of gpt_results)
  = map numbers_of_entry (semantic_entries gpt_results).
Proof. destruct gpt_results as [[[infos|]]|]; reflexivity. Qed.

Lemma check_semantic_numeric (r : threshold_report) (i : GptJson.high_file) :
  numeric_entry i = true ->
  CheckerJson.check_semantic r i = Ok (check_semantic r (numbers_of_entry i)).
Proof.
  destruct i as [f [c| | |] [k| | |]]; try discriminate. reflexivity.
Qed.

Lemma check_semantic_not_numeric (r : threshold_report)
      (i : GptJson.high_file) :
  numeric_entry i = false ->
  CheckerJson.check_semantic r i = Raise TypeError.
Proof.
  destruct i as [f [c| | |] [k| | |]]; try discriminate; reflexivity.
Qed.

Lemma for_each_check_semantic (infos : list GptJson.high_file)
      (r : threshold_report) :
  for_each CheckerJson.check_semantic infos r
  = if forallb numeric_entry infos
    then Ok (fold_left check_semantic (map numbers_of_entry infos) r)
    else Raise TypeError.
Proof.
  revert r. induction infos as [|i infos IH]; intro r; [reflexivity|].
  cbn [for_each forallb map fold_left].
  destruct (numeric_entry i) eqn:E.
  - rewrite (check_semantic_numeric r i E). cbn [Py.bind andb]. apply IH.
  - rewrite (check_semantic_not_numeric r i E). reflexivity.
Qed.

(** On results whose listed ratings are numbers the run is the one of
    [Checker.check_loaded]; otherwise the loop over the entries raises
    [TypeError], unless the loop over the documents raised before. *)
Lemma check_loaded_json (self : ComplexityThresholdChecker) (now : string)
      (static_results : option StaticResults.t)
      (gpt_results : option GptJson.t) :
  CheckerJson.check_loaded self now static_results gpt_results
  = if numeric_results gpt_results
    then check_loaded self now static_results (numbers_of gpt_results)
    else _ <- check_static_results self (empty_report self now)
                                   static_results ;;
         Raise TypeError.
Proof.
  unfold CheckerJson.check_loaded, check_loaded, numeric_results.
  destruct (check_static_results _ _ _) as [r|e]; cbn [Py.bind].
  - rewrite check_gpt_results_entries, for_each_check_semantic.
    destruct (forallb _ _); [|reflexivity]. cbn [Py.bind].
    now rewrite check_gpt_results_items, semantic_items_numbers_of.
  - now destruct (forallb _ _).
Qed.

Lemma numbers_of_high_files (infos : list GptResults.high_file) :
  map numbers_of_entry (map GptJson.of_high_file infos) = infos
  /\ forallb numeric_entry (map GptJson.of_high_file infos) = true.
Proof.
  induction infos as [|[f c k] infos [IHm IHf]]; [split; reflexivity|].
  cbn. split; [f_equal; exact IHm | exact IHf].
Qed.

(** [Checker.check_loaded] is the run on results whose ratings are
    numbers. *)
Lemma check_loaded_of_results (self : ComplexityThresholdChecker)
      (now : string) (static_results : option StaticResults.t)
      (gpt_results : option GptResults.t) :
  CheckerJson.check_loaded self now static_results
                           (option_map GptJson.of_results gpt_results)
  = check_loaded self now static_results gpt_results.
Proof.
  rewrite check_loaded_json.
  assert (Hitems : map numbers_of_entry
                     (semantic_entries
                        (option_map GptJson.of_results gpt_results))
                   = semantic_items gpt_results).
  { destruct gpt_results as [[? ? ? [infos|]]|]; try reflexivity.
    apply numbers_of_high_files. }
  assert (Hnum : numeric_results (option_map GptJson.of_results gpt_results)
                 = true).
  { unfold numeric_results.
    destruct gpt_results as [[? ? ? [infos|]]|]; try reflexivity.
    apply numbers_of_high_files. }
  rewrite Hnum. unfold check_loaded.
  destruct (check_static_results _ _ _) as [r|e]; [|reflexivity].
  cbn [Py.bind].
  now rewrite !check_gpt_results_items, semantic_items_numbers_of, Hitems.
Qed.

Lemma check_threshold_json (self : ComplexityThresholdChecker) (now : string)
      (static_file : json_file (option StaticResults.t))
      (gpt_file : json_file (option GptJson.t)) :
  snd (CheckerJson.check_threshold self now static_file gpt_file)
  = if readable static_file && readable gpt_file
    then CheckerJson.check_loaded self now (loaded static_file)
                                  (loaded gpt_file)
    else Raise JSONDecodeError.
Proof.
  unfold CheckerJson.check_threshold.
  destruct static_file as [| |sr], gpt_file as [| |gr];
    cbn -[CheckerJson.check_loaded]; try reflexivity;
    match goal with
    | |- context [CheckerJson.check_loaded ?a ?b ?c ?d] =>
        destruct (CheckerJson.check_loaded a b c d)
    end; reflexivity.
Qed.

End JsonRatings.

(** ** The threshold rule *)

Section ThresholdRule.

Import Checker.

(** C1.  For a document whose id resolves to a baseline key [k] (in a table
    without empty keys or zero thresholds), the loop body returns, and it
    emits a verdict exactly when the score is above
    [baseline_score * multiplier]: at or below the threshold nothing is
    appended; above it, one verdict is appended whose [threshold] is
    [baseline_score * multiplier] and whose [excess_percentage] is
    [(score - threshold) / threshold * 100], together with one message whose
    severity is critical exactly when that percentage is above 50 and
    warning otherwise.  In particular a score of 240 against baseline 80 is
    a warning at exactly 50 percent, and in the scenario of table
    [{"A": 100}], multiplier 2 and one document scored 250 the run yields
    one verdict with threshold 200, excess 25 percent, severity warning.
    The ten-entry table of the checker has no empty key and no zero
    threshold. *)
Theorem threshold_verdict_rule :
  (forall (self : ComplexityThresholdChecker) (report : threshold_report)
          (file_path : string) (analysis : StaticResults.analysis)
          (k : string),
      nonzero_thresholds self = true ->
      nonempty_keys self = true ->
      find_baseline (keys (baseline self)) file_path = Some k ->
      exists b report',
        getitem (baseline self) k = Ok b
        /\ check_file self report (file_path, analysis) = Ok report'
        /\ let current := StaticResults.complexity_score analysis in
           let limit := inject_Z b * threshold_multiplier self in
           let excess := (current - limit) / limit * 100 in
           let info := verdict (threshold_multiplier self) file_path analysis b in
           (current <= limit ->
            exceeded_files report' = exceeded_files report
            /\ recommendations report' = recommendations report
            /\ threshold_exceeded report' = threshold_exceeded report)
           /\ (limit < current ->
               exceeded_files report' = exceeded_files report ++ [info]
               /\ file info = file_path
               /\ current_score info = current
               /\ baseline_score info = b
               /\ threshold info = limit
               /\ excess_percentage info = excess
               /\ recommendations report'
                  = recommendations report
                    ++ [MsgExceeded (severity_of excess) file_path excess]
               /\ threshold_exceeded report' = true)
           /\ (severity_of excess = critical <-> 50 < excess)
           /\ (severity_of excess = warning <-> excess <= 50))
  /\ (exists report info,
        check_loaded init EmptyString
          (corpus [("rules/workflow-level4.mdc", scored 240)]) None
        = Ok report
        /\ exceeded_files report = [info]
        /\ threshold info == 160
        /\ excess_percentage info == 50
        /\ recommendations report
           = [MsgExceeded warning "rules/workflow-level4.mdc"
                          (excess_percentage info);
              MsgSplit; MsgReview])
  /\ (exists report info,
        check_loaded checker_A EmptyString
          (corpus [("docs/A-notes.md", scored 250)]) None
        = Ok report
        /\ exceeded_files report = [info]
        /\ file info = "docs/A-notes.md"
        /\ baseline_score info = 100%Z
        /\ threshold info == 200
        /\ excess_percentage info == 25
        /\ recommendations report
           = [MsgExceeded warning "docs/A-notes.md" (excess_percentage info);
              MsgSplit; MsgReview]
        /\ threshold_exceeded report = true)
  /\ (nonzero_thresholds init = true /\ nonempty_keys init = true).
Proof.
  split; [|split; [|split; [|split; reflexivity]]].
  - intros self report file_path analysis k Hnz Hne Hfind.
    destruct (find_baseline_entry _ _ _ Hfind)
      as (before & b & after & Htable & _ & Hget).
    pose proof (nonzero_thresholds_entry self _ _ _ _ Hnz Htable) as Hb.
    pose proof (nonempty_keys_entry self _ _ _ _ Hne Htable) as Hk.
    exists b. eexists. split; [exact Hget|]. split.
    + exact (check_file_matched self report _ analysis _ _ Hfind Hk Hget Hb).
    + cbv zeta. repeat split.
      * apply gt_false_iff in H. now rewrite H.
      * apply gt_false_iff in H. now rewrite H.
      * apply gt_false_iff in H. now rewrite H.
      * apply gt_true_iff in H. now rewrite H.
      * apply gt_true_iff in H. now rewrite H.
      * apply gt_true_iff in H. now rewrite H.
      * unfold severity_of. destruct (Qlt_le_dec 50 _); [auto|discriminate].
      * unfold severity_of. intro H.
        destruct (Qlt_le_dec 50 _) as [|Hle]; [reflexivity|].
        destruct (Qlt_not_le _ _ H Hle).
      * unfold severity_of. destruct (Qlt_le_dec 50 _); [discriminate|auto].
      * unfold severity_of. intro H.
        destruct (Qlt_le_dec 50 _) as [Hlt|]; [|reflexivity].
        destruct (Qlt_not_le _ _ Hlt H).
  - eexists. eexists. split; [vm_compute; reflexivity|].
    cbn [exceeded_files]. split; [reflexivity|]. repeat split.
  - eexists. eexists. split; [vm_compute; reflexivity|].
    cbn [exceeded_files]. split; [reflexivity|]. repeat split.
Qed.

(** The rule at the end-to-end scenario: the document "docs/A-notes.md"
    scored 250 against the table [{"A": 100}] with multiplier 2. *)
Lemma threshold_verdict_rule_scenario :
  exists b report',
    getitem (baseline checker_A) "A" = Ok b
    /\ check_file checker_A (empty_report checker_A EmptyString)
                  ("docs/A-notes.md", scored 250) = Ok report'
    /\ ((250 <= inject_Z b * 2 ->
         exceeded_files report' = []
         /\ recommendations report' = []
         /\ threshold_exceeded report' = false)
        /\ (inject_Z b * 2 < 250 ->
            exceeded_files report'
            = [] ++ [verdict 2 "docs/A-notes.md" (scored 250) b]
            /\ file (verdict 2 "docs/A-notes.md" (scored 250) b)
               = "docs/A-notes.md"
            /\ current_score (verdict 2 "docs/A-notes.md" (scored 250) b) = 250
            /\ baseline_score (verdict 2 "docs/A-notes.md" (scored 250) b) = b
            /\ threshold (verdict 2 "docs/A-notes.md" (scored 250) b)
               = inject_Z b * 2
            /\ excess_percentage (verdict 2 "docs/A-notes.md" (scored 250) b)
               = (250 - inject_Z b * 2) / (inject_Z b * 2) * 100
            /\ recommendations report'
               = [] ++ [MsgExceeded
                          (severity_of
                             ((250 - inject_Z b * 2) / (inject_Z b * 2) * 100))
                          "docs/A-notes.md"
                          ((250 - inject_Z b * 2) / (inject_Z b * 2) * 100)]
            /\ threshold_exceeded report' = true)
        /\ (severity_of ((250 - inject_Z b * 2) / (inject_Z b * 2) * 100)
            = critical
            <-> 50 < (250 - inject_Z b * 2) / (inject_Z b * 2) * 100)
        /\ (severity_of ((250 - inject_Z b * 2) / (inject_Z b * 2) * 100)
            = warning
            <-> (250 - inject_Z b * 2) / (inject_Z b * 2) * 100 <= 50)).
Proof.
  exact (proj1 threshold_verdict_rule checker_A
               (empty_report checker_A EmptyString) "docs/A-notes.md"
               (scored 250) "A" eq_refl eq_refl eq_refl).
Defined.

End ThresholdRule.

(** ** The gate, the totals and the baseline table *)

Section Gate.

Import Checker.

Lemma snd_io_bind {A B : Type} (m : io A) (k : A -> io B) :
  snd (io_bind m k) = Py.bind (snd m) (fun v => snd (k v)).
Proof.
  destruct m as [out [v|e]]; cbn; [|reflexivity].
  destruct (k v); reflexivity.
Qed.

Lemma main_json_exit_status (now : string)
      (static_file : json_file (option StaticResults.t))
      (gpt_file : json_file (option GptJson.t)) :
  exit_status (CheckerJson.main now static_file gpt_file)
  = match snd (CheckerJson.check_threshold init now static_file gpt_file) with
    | Ok report => if threshold_exceeded report then 1%Z else 0%Z
    | Raise _ => 1%Z
    end.
Proof.
  unfold exit_status, CheckerJson.main. rewrite snd_io_bind.
  destruct (snd _) as [report|e]; cbn [Py.bind]; [|reflexivity].
  destruct (threshold_exceeded report); reflexivity.
Qed.




(** C10, as the code has it.  In every run of the default checker
    [summary.total_baseline] is the sum of the configured baseline scores,
    which is 575 for the ten-entry table, whatever documents the corpus
    holds. *)
Theorem total_baseline_is_configuration_sum :
  forall (now : string) (static_results : option (option StaticResults.t))
         (gpt_results : option (option GptResults.t)),
  exists report,
    snd (check_threshold init now (file_of static_results)
                         (file_of gpt_results)) = Ok report
    /\ total_baseline (summary report) = sum (values (baseline init))
    /\ total_baseline (summary report) = 575%Z
    /\ List.length (baseline init) = 10%nat.
Proof.
  intros now static_results gpt_results.
  pose proof (check_threshold_loaded init now static_results gpt_results)
    as Hrun.
  destruct (check_loaded_run init now
              (match static_results with Some sr => sr | None => None end)
              (match gpt_results with Some gr => gr | None => None end)
              init_nonzero_thresholds)
    as (report & Hok & _ & _ & _ & _ & _ & Hbase & _).
  rewrite Hok in Hrun. exists report. repeat split; auto.
Qed.

(** C10 as stated fails: on an empty corpus the default checker reports a
    total baseline of 575, not 455. *)
Lemma total_baseline_not_455 :
  exists report,
    snd (check_threshold init EmptyString Missing Missing) = Ok report
    /\ total_baseline (summary report) = 575%Z
    /\ total_baseline (summary report) <> 455%Z.
Proof.
  eexists. split; [reflexivity|]. split; [reflexivity|discriminate].
Qed.

(** C6.  A document whose id contains no baseline key gets no verdict
    whatever its score: the loop body returns a report with the same
    [exceeded_files], gate and recommendations, one more file checked and
    the score added to [total_current]; and in a whole run (of a table
    without zero thresholds) the document is not among the files of
    [exceeded_files], while every document of the corpus is counted in
    [files_checked] and [total_current]. *)
Theorem unmatched_document_has_no_verdict :
  forall (self : ComplexityThresholdChecker) (report : threshold_report)
         (file_path : string) (analysis : StaticResults.analysis),
    (forall k, In k (keys (baseline self)) -> ~ is_substring k file_path) ->
    (exists report',
        check_file self report (file_path, analysis) = Ok report'
        /\ exceeded_files report' = exceeded_files report
        /\ threshold_exceeded report' = threshold_exceeded report
        /\ recommendations report' = recommendations report
        /\ files_exceeded (summary report') = files_exceeded (summary report)
        /\ files_checked (summary report')
           = (files_checked (summary report) + 1)%Z
        /\ total_current (summary report')
           = total_current (summary report)
             + StaticResults.complexity_score analysis)
    /\ (nonzero_thresholds self = true ->
        forall (now : string) (static_results : option StaticResults.t)
               (gpt_results : option GptResults.t),
        exists final,
          check_loaded self now static_results gpt_results = Ok final
          /\ ~ In file_path (map file (exceeded_files final))
          /\ files_checked (summary final)
             = Z.of_nat (List.length (static_items static_results))
          /\ total_current (summary final)
             = fold_left (fun acc item =>
                            acc + StaticResults.complexity_score (snd item))
                         (static_items static_results) 0).
Proof.
  intros self report file_path analysis Hnone. split.
  - apply find_baseline_None in Hnone.
    rewrite (check_file_unmatched self report file_path analysis Hnone).
    eexists. split; [reflexivity|]. cbn. repeat split.
  - intros Hnz now static_results gpt_results.
    destruct (check_loaded_run self now static_results gpt_results Hnz)
      as (final & Hok & _ & Hfiles & Hchecked & _ & Hcur & _).
    exists final. repeat split; auto.
    intro Hin. apply in_map_iff in Hin as (info & Hfile & Hin).
    destruct (Hfiles info Hin) as (a & k & b & _ & Hfind & _).
    rewrite Hfile in Hfind. apply find_baseline_Some in Hfind.
    destruct Hfind as (before & after & Hkeys & Hk & _).
    apply (Hnone k); [|exact Hk].
    rewrite Hkeys. apply in_or_app. right. now left.
Qed.

(** The default table on a document whose id holds none of its keys. *)
Lemma unmatched_document_readme :
  (exists report',
      check_file init (empty_report init EmptyString)
                 ("README.md", scored 1000) = Ok report'
      /\ exceeded_files report' = []
      /\ threshold_exceeded report' = false
      /\ recommendations report' = []
      /\ files_exceeded (summary report') = 0%Z
      /\ files_checked (summary report') = (0 + 1)%Z
      /\ total_current (summary report') = 0 + 1000)
  /\ (nonzero_thresholds init = true ->
      forall (now : string) (static_results : option StaticResults.t)
             (gpt_results : option GptResults.t),
      exists final,
        check_loaded init now static_results gpt_results = Ok final
        /\ ~ In "README.md" (map file (exceeded_files final))
        /\ files_checked (summary final)
           = Z.of_nat (List.length (static_items static_results))
        /\ total_current (summary final)
           = fold_left (fun acc item =>
                          acc + StaticResults.complexity_score (snd item))
                       (static_items static_results) 0).
Proof.
  apply (unmatched_document_has_no_verdict
           init (empty_report init EmptyString) "README.md" (scored 1000)).
  apply find_baseline_None. reflexivity.
Defined.

(** C7.  Baseline resolution returns [k] exactly when [k] is the first key
    of the table, in declaration order, that occurs in the document id, and
    the score then read from the table is the one declared with that key;
    it returns nothing exactly when no key occurs in the id.  When two keys
    both occur in the id, the one declared first is returned, so swapping
    the two declarations swaps the baseline score that is used. *)
Theorem baseline_resolution_first_match :
  (forall (self : ComplexityThresholdChecker) (file_path k : string),
      find_baseline (keys (baseline self)) file_path = Some k <->
      exists before b after,
        baseline self = before ++ (k, b) :: after
        /\ is_substring k file_path
        /\ (forall k', In k' (keys before) -> ~ is_substring k' file_path)
        /\ getitem (baseline self) k = Ok b)
  /\ (forall (self : ComplexityThresholdChecker) (file_path : string),
        find_baseline (keys (baseline self)) file_path = None <->
        forall k, In k (keys (baseline self)) -> ~ is_substring k file_path)
  /\ (forall (k1 k2 : string) (b1 b2 : Z) (rest : list (string * Z))
             (file_path : string),
        is_substring k1 file_path ->
        is_substring k2 file_path ->
        (find_baseline (keys ((k1, b1) :: (k2, b2) :: rest)) file_path
         = Some k1
         /\ getitem ((k1, b1) :: (k2, b2) :: rest) k1 = Ok b1)
        /\ (find_baseline (keys ((k2, b2) :: (k1, b1) :: rest)) file_path
            = Some k2
            /\ getitem ((k2, b2) :: (k1, b1) :: rest) k2 = Ok b2)).
Proof.
  split; [|split].
  - intros self file_path k. split.
    + intro Hfind.
      destruct (find_baseline_entry _ _ _ Hfind)
        as (before & b & after & Htable & Hbefore & Hget).
      exists before, b, after. repeat split; auto.
      apply find_baseline_Some in Hfind.
      destruct Hfind as (_ & _ & _ & Hk & _). exact Hk.
    + intros (before & b & after & Htable & Hk & Hbefore & _).
      apply find_baseline_Some. exists (keys before), (keys after).
      repeat split; auto. unfold keys. now rewrite Htable, map_app.
  - intros self file_path. apply find_baseline_None.
  - intros k1 k2 b1 b2 rest file_path H1 H2.
    apply contains_iff in H1, H2. cbn.
    rewrite H1, H2, !String.eqb_refl. repeat split.
Qed.

(** Two keys that both occur in "docs/AB.md", declared in either order. *)
Lemma baseline_resolution_tie_break :
  (find_baseline (keys [("A", 1%Z); ("AB", 2%Z)]) "docs/AB.md" = Some "A"
   /\ getitem [("A", 1%Z); ("AB", 2%Z)] "A" = Ok 1%Z)
  /\ (find_baseline (keys [("AB", 2%Z); ("A", 1%Z)]) "docs/AB.md" = Some "AB"
      /\ getitem [("AB", 2%Z); ("A", 1%Z)] "AB" = Ok 2%Z).
Proof.
  apply (proj2 (proj2 baseline_resolution_first_match)
               "A" "AB" 1%Z 2%Z [] "docs/AB.md").
  - apply contains_iff. reflexivity.
  - apply contains_iff. reflexivity.
Defined.

End Gate.

(** ** Semantic judgements *)

Section Semantic.

Variable analyze_with_gpt :
  string -> string -> Gpt.analysis_type -> Gpt.Response.t.

Lemma high_complexity_files_filter (now : string)
      (docs : list (string * string)) :
  let results := Gpt.analyze_repository_semantic analyze_with_gpt now docs in
  Gpt.Results.high_complexity_files results
  = map Gpt.high_entry
        (filter rated_high (map snd (Gpt.Results.file_analysis results))).
Proof.
  unfold Gpt.analyze_repository_semantic.
  match goal with
  | |- context [fold_left _ docs ?r0] =>
      assert (H0 : Gpt.Results.high_complexity_files r0
                   = map Gpt.high_entry
                       (filter rated_high
                          (map snd (Gpt.Results.file_analysis r0))))
        by reflexivity;
      generalize dependent r0
  end.
  induction docs as [|[file_path content] docs IH]; intros r0 H0; cbn zeta.
  - exact H0.
  - cbn [fold_left]. apply IH. unfold Gpt.analyze_one.
    destruct (existsb _ _); [exact H0|]. cbn.
    rewrite map_app, filter_app, map_app, H0. cbn.
    unfold rated_high. cbn.
    destruct (Py.gt _ 7); cbn; now rewrite ?app_nil_r.
Qed.

End Semantic.

(** ** The semantic run on answers of any JSON type *)

Section SemanticRunLoop.

Import SemanticRun.

Variable analyze_with_gpt : string -> string -> Gpt.analysis_type -> answer.

Lemma as_object_raises (a : answer) (e : exn) :
  as_object a = Raise e -> e = TypeError.
Proof. destruct a; [discriminate|]. now intros [= <-]. Qed.

Lemma extend_raises (acc : list Json.value) (field : option labels)
      (e : exn) :
  extend acc field = Raise e -> e = TypeError.
Proof. destruct field as [[xs|]|]; try discriminate. now intros [= <-]. Qed.

Lemma as_number_raises (v : Json.value) (e : exn) :
  Json.as_number v = Raise e -> e = TypeError.
Proof. destruct v; try discriminate; now intros [= <-]. Qed.

(** What the [try] block leaves behind. *)
Lemma analyze_content_run (results : Results.t) (file_path content : string) :
  let (results', outcome) :=
    analyze_content analyze_with_gpt results file_path content in
  Results.timestamp results' = Results.timestamp results
  /\ Results.files_analyzed results' = Results.files_analyzed results
  /\ Results.analysis_errors results' = Results.analysis_errors results
  /\ Results.file_analysis results' = Results.file_analysis results
  /\ match outcome with
     | Ok fa =>
         Judgement.file_path fa = file_path
         /\ exists rating,
             Judgement.complexity_rating fa = Json.Num rating
             /\ Results.high_complexity_files results'
                = Results.high_complexity_files results
                  ++ (if Py.gt rating 7 then [high_entry fa] else [])
     | Raise e =>
         e = TypeError
         /\ Results.high_complexity_files results'
            = Results.high_complexity_files results
     end.
Proof.
  unfold analyze_content.
  repeat match goal with
         | |- context [match ?x with _ => _ end] =>
             lazymatch x with
             | Py.gt _ _ => fail
             | context [match _ with _ => _ end] => fail
             | _ => destruct x eqn:?
             end
         end;
    try match goal with
        | H : as_object _ = Raise _ |- _ => apply as_object_raises in H
        | H : extend _ _ = Raise _ |- _ => apply extend_raises in H
        | H : Json.as_number _ = Raise _ |- _ => apply as_number_raises in H
        end;
    try (cbn; repeat split; first [reflexivity | assumption]).
  match goal with
  | H : Json.as_number ?v = Ok ?q |- _ =>
      cbn [Judgement.complexity_rating] in H;
      destruct (get (Answer.complexity_rating _) _) as [rating| | |] eqn:E;
      try discriminate H; injection H as <-
  end.
  destruct (Py.gt rating 7) eqn:E7; cbn -[Py.count Z.of_nat];
    (repeat split; try reflexivity);
    exists rating; rewrite ?E7; split; try reflexivity.
  now rewrite app_nil_r.
Qed.



End SemanticRunLoop.

Section SemanticFlags.

Import Checker.









End SemanticFlags.

(** ** Loading the results files *)

Section Loading.

(** C5, as the code has it.  Through [load_json_file] (the alert generator
    and the summary generator define the same loader) a results file that
    is not JSON is read exactly as a missing one: the loader returns the
    empty dictionary, raises nothing and prints nothing.  So the outcome
    of [create_alert] and of [generate_summary] is the outcome with that
    file missing; the section of the summary that depends on the file is
    absent, threshold results that cannot be read give the status WITHIN
    LIMITS, and with all three files not JSON the alert is built from its
    fixed headings and the summary is the WITHIN LIMITS status alone.  In
    the threshold checker a missing results file is read as the empty
    dictionary after a warning is printed. *)
Theorem unparsable_file_read_as_missing :
  (forall A : Type,
      Alert.load_json_file (@Unparsable (option A))
      = Alert.load_json_file Missing
      /\ Alert.load_json_file (@Unparsable (option A)) = ([], Ok None))
  /\ (forall threshold_file static_file gpt_file,
         Alert.create_alert Unparsable static_file gpt_file
         = Alert.create_alert Missing static_file gpt_file
         /\ Alert.create_alert threshold_file Unparsable gpt_file
            = Alert.create_alert threshold_file Missing gpt_file
         /\ Alert.create_alert threshold_file static_file Unparsable
            = Alert.create_alert threshold_file static_file Missing)
  /\ (forall static_file gpt_file threshold_file,
         SummaryJson.generate_summary Unparsable gpt_file threshold_file
         = SummaryJson.generate_summary Missing gpt_file threshold_file
         /\ SummaryJson.generate_summary static_file Unparsable threshold_file
            = SummaryJson.generate_summary static_file Missing threshold_file
         /\ SummaryJson.generate_summary static_file gpt_file Unparsable
            = SummaryJson.generate_summary static_file gpt_file Missing)
  /\ (forall static_file gpt_file threshold_file lines,
         (snd (SummaryJson.generate_summary Unparsable gpt_file
                                            threshold_file)
          = Ok lines ->
          exists gpt_lines,
            SummaryJson.gpt_part (loaded gpt_file) = Ok gpt_lines
            /\ lines = gpt_lines
                       ++ Summary.threshold_part (loaded threshold_file)
                       ++ Summary.status_part (loaded threshold_file)
                       ++ Summary.recommendations_part
                            None (loaded threshold_file))
         /\ (snd (SummaryJson.generate_summary static_file Unparsable
                                               threshold_file)
             = Ok lines ->
             lines = Summary.static_part (loaded static_file)
                     ++ Summary.threshold_part (loaded threshold_file)
                     ++ Summary.status_part (loaded threshold_file)
                     ++ Summary.recommendations_part
                          (loaded static_file) (loaded threshold_file))
         /\ (snd (SummaryJson.generate_summary static_file gpt_file
                                               Unparsable)
             = Ok lines ->
             exists gpt_lines,
               SummaryJson.gpt_part (loaded gpt_file) = Ok gpt_lines
               /\ lines = Summary.static_part (loaded static_file)
                          ++ gpt_lines
                          ++ [ Summary.StatusWithin;
                               Summary.Note
                                 "All files are within complexity thresholds." ]
                          ++ Summary.recommendations_part
                               (loaded static_file) None))
  /\ SummaryJson.generate_summary Unparsable Unparsable Unparsable
     = ([], Ok [ Summary.StatusWithin;
                 Summary.Note "All files are within complexity thresholds." ])
  /\ Alert.create_alert Unparsable Unparsable Unparsable
     = ([], Alert.build_alert None None None)
  /\ (exists lines, Alert.build_alert None None None = Ok lines)
  /\ Checker.load_static_results Missing
     = (["No static complexity results found"], Ok None)
  /\ Checker.load_gpt_results Missing
     = (["No GPT complexity results found"], Ok None).
Proof.
  assert (Hloaded : forall static_file gpt_file threshold_file,
             SummaryJson.generate_summary static_file gpt_file threshold_file
             = ([], SummaryJson.build_summary
                      (loaded static_file) (loaded gpt_file)
                      (loaded threshold_file)))
    by (intros [| |?] [| |?] [| |?]; reflexivity).
  split; [|split; [|split; [|split; [|split; [|split; [|split; [|split]]]]]]];
    try reflexivity.
  - intro A. split; reflexivity.
  - intros threshold_file static_file gpt_file. split; [|split].
    + destruct threshold_file; reflexivity.
    + destruct static_file; reflexivity.
    + destruct gpt_file; reflexivity.
  - intros static_file gpt_file threshold_file.
    rewrite !Hloaded. repeat split.
  - intros static_file gpt_file threshold_file lines.
    rewrite !Hloaded. cbn [snd loaded]. unfold SummaryJson.build_summary.
    split; [|split].
    + destruct (SummaryJson.gpt_part (loaded gpt_file)) as [gpt_lines|e];
        cbn [Py.bind]; [|discriminate].
      intros [= <-]. exists gpt_lines. split; reflexivity.
    + cbn [SummaryJson.gpt_part Py.bind]. now intros [= <-].
    + destruct (SummaryJson.gpt_part (loaded gpt_file)) as [gpt_lines|e];
        cbn [Py.bind]; [|discriminate].
      intros [= <-]. exists gpt_lines. split; reflexivity.
  - eexists. reflexivity.
Qed.

(** C5 as stated fails: the alert generator's loader prints no warning for
    a file that is not JSON, and the threshold checker does not read such a
    file as a missing one. *)
Lemma unparsable_file_not_as_claimed :
  fst (Alert.load_json_file (@Unparsable (option StaticResults.t))) = []
  /\ snd (Checker.load_static_results Unparsable) = Raise JSONDecodeError
  /\ snd (Checker.load_static_results Missing) = Ok None
  /\ snd (Checker.check_threshold Checker.init EmptyString Unparsable Missing)
     = Raise JSONDecodeError
  /\ Py.exit_status (Checker.main EmptyString Unparsable Missing) = 1%Z
  /\ Py.exit_status (Checker.main EmptyString Missing Missing) = 0%Z.
Proof. repeat split. Qed.

End Loading.

(** ** The alert *)

Section AlertSections.

Import Alert.

Lemma set_section_raises (alert_parts : list line) (title : string)
      (items : list string) :
  items <> [] -> set_section alert_parts title items = Raise TypeError.
Proof. destruct items; [congruence | reflexivity]. Qed.

Lemma set_section_empty (alert_parts : list line) (title : string) :
  set_section alert_parts title [] = Ok alert_parts.
Proof. reflexivity. Qed.

(** The alert is built exactly when there is no conflict, violation or
    compatibility issue to list; otherwise the subscript on the set
    raises. *)
Lemma build_alert_raises_iff
      (threshold_results : option Checker.threshold_report)
      (static_results : option StaticResults.t)
      (gpt_results : option GptResults.t) :
  let conflicts :=
    field_or_nil static_results StaticResults.conflicts_found
    ++ field_or_nil gpt_results GptResults.rule_conflicts in
  let violations :=
    field_or_nil static_results StaticResults.best_practice_violations
    ++ field_or_nil gpt_results GptResults.best_practice_violations in
  let issues :=
    field_or_nil gpt_results GptResults.cursor_compatibility_issues in
  (conflicts ++ violations ++ issues <> [] ->
   build_alert threshold_results static_results gpt_results = Raise TypeError)
  /\ (conflicts ++ violations ++ issues = [] ->
      exists lines,
        build_alert threshold_results static_results gpt_results = Ok lines).
Proof.
  intros conflicts violations issues. unfold build_alert.
  fold conflicts violations issues.
  destruct conflicts as [|c cs]; [|split; [reflexivity|discriminate]].
  rewrite set_section_empty. cbn [Py.bind].
  destruct violations as [|v vs]; [|split; [reflexivity|discriminate]].
  rewrite set_section_empty. cbn [Py.bind].
  destruct issues as [|i rest]; [|split; [reflexivity|discriminate]].
  rewrite set_section_empty. cbn [Py.bind].
  split; [intro H; now destruct H|]. intros _. eexists. reflexivity.
Qed.

(** C4 fails on the code.  With one conflict label in the static results
    (or one best-practice violation, or one Cursor-compatibility issue in
    the semantic results) [create_alert] ends with [TypeError] instead of
    returning the alert. *)
Theorem create_alert_raises_on_label :
  snd (create_alert Missing (Parsed (static_labels [blocked_once] []))
                    Missing) = Raise TypeError
  /\ snd (create_alert Missing
                       (Parsed (static_labels [] ["Avoid pandas aliasing: 1 instances"]))
                       Missing) = Raise TypeError
  /\ snd (create_alert Missing Missing
                       (Parsed (gpt_issues ["Workflow too long for context"])))
     = Raise TypeError
  /\ (exists lines, snd (create_alert Missing (Parsed (static_labels [] []))
                                      Missing) = Ok lines).
Proof.
  repeat split. eexists. reflexivity.
Qed.

Lemma conflicts_found_concat
      (re_findall : string -> string -> list Analyzer.re_flag -> list string)
      (self : Analyzer.MarkdownComplexityAnalyzer) (now : string)
      (docs : list (string * string)) :
  Analyzer.Results.conflicts_found
    (Analyzer.analyze_repository re_findall self now docs)
  = flat_map (fun doc =>
                Analyzer.Analysis.conflicts
                  (Analyzer.analyze_file re_findall self (fst doc) (snd doc)))
             docs.
Proof.
  unfold Analyzer.analyze_repository. cbn [Analyzer.finish
    Analyzer.Results.conflicts_found].
  match goal with
  | |- context [fold_left _ docs ?r0] =>
      change (flat_map _ docs)
        with (Analyzer.Results.conflicts_found r0
              ++ flat_map (fun doc =>
                   Analyzer.Analysis.conflicts
                     (Analyzer.analyze_file re_findall self (fst doc)
                                            (snd doc))) docs);
      generalize r0
  end.
  induction docs as [|[file_path content] docs IH]; intro r0; cbn.
  - now rewrite app_nil_r.
  - rewrite IH. cbn. now rewrite <- app_assoc.
Qed.

(** C8 fails on the code.  When two documents produce the same conflict
    label, the static results hold it twice and [create_alert] ends with
    [TypeError] at the subscript on [set(conflicts)]: the alert has no
    conflict line at all.  The console listing of the static analyzer,
    which iterates over the set, prints the label once. *)
Theorem duplicate_label_alert_raises :
  snd (create_alert Missing
                    (Parsed (static_labels [blocked_once; blocked_once] []))
                    Missing) = Raise TypeError
  /\ set_iter (set_of [blocked_once; blocked_once]) = [blocked_once]
  /\ blocked_once = "Blocking rule detected: 1 instances".
Proof. repeat split. Qed.

End AlertSections.

(** ** Determinism *)

Section Determinism.

Import Checker.

Lemma check_file_same (self : ComplexityThresholdChecker)
      (r1 r2 : threshold_report) (item : string * StaticResults.analysis) :
  verdicts r1 = verdicts r2 ->
  same_outcome (check_file self r1 item) (check_file self r2 item).
Proof.
  destruct r1 as [t1 g1 e1 w1 c1 s1], r2 as [t2 g2 e2 w2 c2 s2].
  unfold verdicts. cbn. intros [= -> -> -> -> ->].
  destruct item as [file_path analysis]. unfold check_file.
  destruct (find_baseline _ _) as [k|]; [|reflexivity].
  destruct (truthy_str k); cbn; [|reflexivity].
  destruct (getitem _ k) as [b|e]; cbn; [|reflexivity].
  destruct (Py.gt _ _); [|reflexivity].
  destruct (truediv _ _) as [ratio|e]; cbn; [|reflexivity].
  destruct (Py.gt _ 50); reflexivity.
Qed.

Lemma for_each_check_file_same (self : ComplexityThresholdChecker)
      (items : list (string * StaticResults.analysis))
      (r1 r2 : threshold_report) :
  verdicts r1 = verdicts r2 ->
  same_outcome (for_each (check_file self) items r1)
               (for_each (check_file self) items r2).
Proof.
  revert r1 r2. induction items as [|item items IH]; intros r1 r2 H.
  - exact H.
  - cbn [for_each]. pose proof (check_file_same self r1 r2 item H) as Hstep.
    destruct (check_file self r1 item) as [r1'|e1],
             (check_file self r2 item) as [r2'|e2];
      cbn in Hstep |- *; try contradiction; [now apply IH | exact Hstep].
Qed.

Lemma check_semantic_same (r1 r2 : threshold_report)
      (i : GptResults.high_file) :
  verdicts r1 = verdicts r2 ->
  verdicts (check_semantic r1 i) = verdicts (check_semantic r2 i).
Proof.
  destruct r1 as [t1 g1 e1 w1 c1 s1], r2 as [t2 g2 e2 w2 c2 s2].
  unfold verdicts. cbn. intros [= -> -> -> -> ->]. unfold check_semantic.
  destruct (Py.gt _ 8), (Py.lt _ 5); reflexivity.
Qed.

Lemma check_gpt_results_same (r1 r2 : threshold_report)
      (gpt_results : option GptResults.t) :
  verdicts r1 = verdicts r2 ->
  verdicts (check_gpt_results r1 gpt_results)
  = verdicts (check_gpt_results r2 gpt_results).
Proof.
  unfold check_gpt_results.
  destruct gpt_results as [[? ? ? [infos|]]|]; cbn; auto.
  revert r1 r2. induction infos as [|i infos IH]; intros r1 r2 H; cbn; auto.
  apply IH. now apply check_semantic_same.
Qed.

Lemma overall_recommendations_same (r1 r2 : threshold_report) :
  verdicts r1 = verdicts r2 ->
  verdicts (overall_recommendations r1) = verdicts (overall_recommendations r2).
Proof.
  destruct r1 as [t1 g1 e1 w1 c1 s1], r2 as [t2 g2 e2 w2 c2 s2].
  unfold verdicts. cbn. intros [= -> -> -> -> ->].
  unfold overall_recommendations. cbn.
  destruct g2; cbn; destruct (_ >? 5)%Z; reflexivity.
Qed.

Lemma check_loaded_same (self : ComplexityThresholdChecker)
      (now1 now2 : string) (static_results : option StaticResults.t)
      (gpt_results : option GptResults.t) :
  same_outcome (check_loaded self now1 static_results gpt_results)
               (check_loaded self now2 static_results gpt_results).
Proof.
  unfold check_loaded.
  assert (Hloop : same_outcome
            (check_static_results self (empty_report self now1) static_results)
            (check_static_results self (empty_report self now2)
                                  static_results)).
  { unfold check_static_results.
    destruct static_results as [[? ? ? ? [items|]]|]; try reflexivity.
    now apply for_each_check_file_same. }
  destruct (check_static_results self (empty_report self now1) _) as [r1|e1],
           (check_static_results self (empty_report self now2) _) as [r2|e2];
    cbn in Hloop |- *; try contradiction; [|exact Hloop].
  now apply overall_recommendations_same, check_gpt_results_same.
Qed.

(** C9.  The score of a document is a function of its text: analysing the
    same text, under whatever path, gives the same [complexity_score],
    [size_kb], [line_count] and breakdown (and the same conflict and
    violation labels).  The verdicts of the comparator are a function of
    the two results files, the baseline table and the multiplier: two runs
    on the same inputs, at whatever times, print the same lines and either
    both end with the same exception or return reports with the same gate,
    [exceeded_files], [warnings], [recommendations] and [summary]. *)
Theorem scoring_and_comparison_deterministic :
  (forall (re_findall :
             string -> string -> list Analyzer.re_flag -> list string)
          (self : Analyzer.MarkdownComplexityAnalyzer)
          (path1 path2 content : string),
      let a1 := Analyzer.analyze_file re_findall self path1 content in
      let a2 := Analyzer.analyze_file re_findall self path2 content in
      Analyzer.Analysis.complexity_score a1
      = Analyzer.Analysis.complexity_score a2
      /\ Analyzer.Analysis.size_kb a1 = Analyzer.Analysis.size_kb a2
      /\ Analyzer.Analysis.line_count a1 = Analyzer.Analysis.line_count a2
      /\ Analyzer.Analysis.complexity_breakdown a1
         = Analyzer.Analysis.complexity_breakdown a2
      /\ Analyzer.Analysis.conflicts a1 = Analyzer.Analysis.conflicts a2
      /\ Analyzer.Analysis.best_practice_violations a1
         = Analyzer.Analysis.best_practice_violations a2)
  /\ (forall (self : ComplexityThresholdChecker) (now1 now2 : string)
             (static_file : json_file (option StaticResults.t))
             (gpt_file : json_file (option GptResults.t)),
         let run1 := check_threshold self now1 static_file gpt_file in
         let run2 := check_threshold self now2 static_file gpt_file in
         fst run1 = fst run2
         /\ same_outcome (snd run1) (snd run2)
         /\ forall report1 report2,
             snd run1 = Ok report1 -> snd run2 = Ok report2 ->
             threshold_exceeded report1 = threshold_exceeded report2
             /\ exceeded_files report1 = exceeded_files report2
             /\ warnings report1 = warnings report2
             /\ recommendations report1 = recommendations report2
             /\ summary report1 = summary report2).
Proof.
  split.
  - intros re_findall self path1 path2 content. cbv zeta.
    unfold Analyzer.analyze_file.
    destruct (Analyzer.scan_conflicts _ _ _ _ _). cbn. repeat split.
  - intros self now1 now2 static_file gpt_file run1 run2.
    assert (Hboth : fst run1 = fst run2
                    /\ same_outcome (snd run1) (snd run2)).
    { unfold run1, run2, check_threshold.
      destruct static_file as [| |sr], gpt_file as [| |gr];
        cbn -[check_loaded]; try (split; reflexivity);
        pose proof (check_loaded_same self now1 now2) as H;
        match goal with
        | |- context [check_loaded self now1 ?s ?g] =>
            specialize (H s g);
            destruct (check_loaded self now1 s g),
                     (check_loaded self now2 s g)
        end; cbn in H |- *; try contradiction; split; auto. }
    destruct Hboth as [Hout Hsame]. split; [exact Hout|].
    split; [exact Hsame|].
    intros report1 report2 H1 H2. rewrite H1, H2 in Hsame.
    unfold same_outcome, verdicts in Hsame.
    injection Hsame as -> -> -> -> ->. repeat split.
Qed.

End Determinism.

(** ** Worked examples *)

Section Examples.

Example count_does_not_overlap :
  Py.count "aaa" "aa" = 1%nat /\ Py.count "abcabcab" "abc" = 2%nat
  /\ Py.count "abc" EmptyString = 4%nat.
Proof. repeat split. Qed.

Example contains_examples :
  Py.contains "level4" "rules/workflow-level4.mdc" = true
  /\ Py.contains "level5" "rules/workflow-level4.mdc" = false
  /\ Py.contains EmptyString "x" = true.
Proof. repeat split. Qed.

(** One step over the threshold of 160 is a warning, 241 is critical. *)
Example boundary_161_and_241 :
  (exists report,
      Checker.check_loaded Checker.init EmptyString
        (corpus [("rules/workflow-level4.mdc", scored 160);
                 ("x/workflow-level4.mdc", scored 161);
                 ("y/workflow-level4.mdc", scored 241)]) None = Ok report
      /\ map (fun i => (Checker.file i, Qred (Checker.excess_percentage i)))
             (Checker.exceeded_files report)
         = [("x/workflow-level4.mdc", 5 # 8);
            ("y/workflow-level4.mdc", 405 # 8)]
      /\ map (fun m => match m with
                       | MsgExceeded sev _ _ => Some sev
                       | _ => None
                       end) (Checker.recommendations report)
         = [Some warning; Some critical; None; None]
      /\ Checker.files_checked (Checker.summary report) = 3%Z
      /\ Checker.files_exceeded (Checker.summary report) = 2%Z).
Proof. eexists. split; [vm_compute; reflexivity|]. repeat split. Qed.

(** A key that is the empty string occurs in every id and is resolved, but
    it is falsy, so no verdict follows. *)
Example empty_key_gives_no_verdict :
  let self := {| Checker.baseline := [(EmptyString, 1%Z)];
                 Checker.threshold_multiplier := 2 |} in
  Checker.find_baseline (Checker.keys (Checker.baseline self)) "a.md"
  = Some EmptyString
  /\ Checker.check_file self (Checker.empty_report self EmptyString)
                        ("a.md", scored 100)
     = Ok (Checker.count_file (Checker.empty_report self EmptyString) 100).
Proof. split; reflexivity. Qed.

(** A baseline of zero makes the excess percentage a division by zero. *)
Example zero_baseline_divides_by_zero :
  let self := {| Checker.baseline := [("a", 0%Z)];
                 Checker.threshold_multiplier := 2 |} in
  Checker.check_file self (Checker.empty_report self EmptyString)
                     ("a.md", scored 100)
  = Raise ZeroDivisionError.
Proof. reflexivity. Qed.

End Examples.

(** * Further properties of the scripts *)

(** ** The comparator run as a whole *)

Section ComparatorRun.

Import Checker.

(** The loop body appends the verdict of the document, if there is one,
    with its message. *)
Lemma check_file_verdict_of (self : ComplexityThresholdChecker)
      (r : threshold_report) (item : string * StaticResults.analysis) :
  nonzero_thresholds self = true ->
  check_file self r item
  = Ok (fold_left (fun acc info =>
                     record_exceeded acc info (verdict_message info))
                  (verdict_of self item)
                  (count_file r (StaticResults.complexity_score (snd item)))).
Proof.
  intro Hnz. destruct item as [file_path analysis].
  unfold check_file, verdict_of. cbn [fst snd].
  destruct (find_baseline _ _) as [k|] eqn:Hfind; [|reflexivity].
  destruct (find_baseline_entry _ _ _ Hfind)
    as (before & b & after & Htable & _ & Hget).
  rewrite Hget.
  destruct (truthy_str k); cbn [negb]; [|reflexivity].
  cbn [Py.bind]. destruct (Py.gt _ _); [|reflexivity].
  rewrite (truediv_nonzero _ _
             (nonzero_thresholds_entry self _ _ _ _ Hnz Htable)).
  cbn [Py.bind fold_left]. unfold verdict_message, verdict.
  cbn [excess_percentage file].
  rewrite <- severity_of_gt. destruct (Py.gt _ 50); reflexivity.
Qed.

Lemma verdict_of_length (self : ComplexityThresholdChecker)
      (item : string * StaticResults.analysis) :
  (List.length (verdict_of self item) <= 1)%nat.
Proof.
  unfold verdict_of. destruct (find_baseline _ _); [|cbn; lia].
  destruct (truthy_str _); [|cbn; lia].
  destruct (getitem _ _); [|cbn; lia].
  destruct (Py.gt _ _); cbn; lia.
Qed.

(** The loop over the documents, as a comprehension. *)
Lemma static_loop_exact (self : ComplexityThresholdChecker) (now : string)
      (static_results : option StaticResults.t) :
  nonzero_thresholds self = true ->
  exists r,
    check_static_results self (empty_report self now) static_results = Ok r
    /\ exceeded_files r
       = flat_map (verdict_of self) (static_items static_results)
    /\ recommendations r = map verdict_message (exceeded_files r).
Proof.
  intro Hnz.
  assert (Heq : check_static_results self (empty_report self now)
                                     static_results
                = for_each (check_file self) (static_items static_results)
                           (empty_report self now)).
  { unfold check_static_results, static_items.
    destruct static_results as [[? ? ? ? [items|]]|]; reflexivity. }
  rewrite Heq.
  refine (for_each_induction (check_file self)
            (fun done r =>
               exceeded_files r = flat_map (verdict_of self) done
               /\ recommendations r = map verdict_message (exceeded_files r))
            _ (static_items static_results) [] (empty_report self now)
            (conj eq_refl eq_refl)).
  intros done item r [He Hr]. rewrite (check_file_verdict_of self r item Hnz).
  eexists. split; [reflexivity|]. rewrite flat_map_app. cbn [flat_map].
  rewrite app_nil_r.
  pose proof (verdict_of_length self item) as Hlen.
  destruct (verdict_of self item) as [|info [|info' rest]]; cbn in Hlen |- *.
  - rewrite app_nil_r. split; assumption.
  - split; [now rewrite He | now rewrite Hr, map_app].
  - lia.
Qed.

(** X1.  In a run over a table without zero thresholds, [exceeded_files]
    holds, in corpus order, the verdict of each document that has one (at
    most one per document), and [recommendations] is one message per
    verdict, in the same order, followed by the two general
    recommendations when there is a verdict and by the consolidation
    advice when there are more than five warnings. *)
Theorem report_is_comprehension_of_corpus :
  forall (self : ComplexityThresholdChecker) (now : string)
         (static_results : option StaticResults.t)
         (gpt_results : option GptResults.t),
    nonzero_thresholds self = true ->
    exists report,
      check_loaded self now static_results gpt_results = Ok report
      /\ exceeded_files report
         = flat_map (verdict_of self) (static_items static_results)
      /\ (forall item, (List.length (verdict_of self item) <= 1)%nat)
      /\ recommendations report
         = map verdict_message (exceeded_files report)
           ++ (if threshold_exceeded report then [MsgSplit; MsgReview]
               else [])
           ++ (if (5 <? Z.of_nat (List.length (warnings report)))%Z
               then [MsgConsolidate] else []).
Proof.
  intros self now static_results gpt_results Hnz. unfold check_loaded.
  destruct (static_loop_exact self now static_results Hnz)
    as (r & -> & He & Hr).
  cbn [Py.bind]. eexists. split; [reflexivity|].
  destruct (overall_recommendations_fields (check_gpt_results r gpt_results))
    as (Hw & Ht & Hx & _ & Hrec).
  destruct (check_gpt_results_fields r gpt_results)
    as (_ & Ht' & Hx' & Hrec' & _).
  cbv zeta in *. rewrite Hx, Hx', Hrec, Hrec', Hw, Ht, Ht', He, Hr, <- He.
  repeat split.
  - apply verdict_of_length.
  - rewrite Z.gtb_ltb. reflexivity.
Qed.

(** The default checker on a corpus of three documents, two of them over
    their thresholds. *)
Lemma report_is_comprehension_example :
  exists report,
    check_loaded init EmptyString
      (corpus [("a/main-optimized.mdc", scored 121);
               ("b/notes.md", scored 900);
               ("c/workflow-level4.mdc", scored 400)]) None = Ok report
    /\ exceeded_files report
       = flat_map (verdict_of init)
           (static_items
              (corpus [("a/main-optimized.mdc", scored 121);
                       ("b/notes.md", scored 900);
                       ("c/workflow-level4.mdc", scored 400)]))
    /\ (forall item, (List.length (verdict_of init item) <= 1)%nat)
    /\ recommendations report
       = map verdict_message (exceeded_files report)
         ++ (if threshold_exceeded report then [MsgSplit; MsgReview] else [])
         ++ (if (5 <? Z.of_nat (List.length (warnings report)))%Z
             then [MsgConsolidate] else []).
Proof.
  exact (report_is_comprehension_of_corpus init EmptyString
           (corpus [("a/main-optimized.mdc", scored 121);
                    ("b/notes.md", scored 900);
                    ("c/workflow-level4.mdc", scored 400)]) None eq_refl).
Defined.

End ComparatorRun.

Section ComparatorInvariants.

Import Checker.

Lemma positive_thresholds_nonzero (self : ComplexityThresholdChecker) :
  positive_thresholds self = true -> nonzero_thresholds self = true.
Proof.
  unfold positive_thresholds, nonzero_thresholds.
  rewrite !forallb_forall. intros H kv Hin. specialize (H kv Hin).
  apply gt_true_iff in H. apply negb_true_iff.
  destruct (Qeq_bool _ 0) eqn:E; [|reflexivity].
  apply Qeq_bool_iff in E. rewrite E in H. discriminate H.
Qed.

Lemma positive_thresholds_In (self : ComplexityThresholdChecker)
      (k : string) (b : Z) :
  positive_thresholds self = true ->
  In (k, b) (baseline self) ->
  0 < inject_Z b * threshold_multiplier self.
Proof.
  unfold positive_thresholds. rewrite forallb_forall. intros H Hin.
  apply gt_true_iff. exact (H _ Hin).
Qed.

Lemma getitem_In (table : list (string * Z)) (k : string) (b : Z) :
  getitem table k = Ok b -> In (k, b) table.
Proof.
  induction table as [|[k' v] table IH]; cbn; [discriminate|].
  destruct (String.eqb k' k) eqn:E.
  - apply String.eqb_eq in E. intros [= <-]. left. now subst.
  - intro H. right. now apply IH.
Qed.

Lemma excess_positive (current limit : Q) :
  0 < limit -> limit < current -> 0 < (current - limit) / limit * 100.
Proof.
  intros Hpos Hlt.
  assert (Hdiff : 0 < current - limit).
  { unfold Qminus. rewrite <- (Qplus_opp_r limit).
    apply Qplus_lt_le_compat; [exact Hlt | apply Qle_refl]. }
  apply Qmult_lt_0_compat; [|reflexivity].
  unfold Qdiv. apply Qmult_lt_0_compat; [exact Hdiff|].
  now apply Qinv_lt_0_compat.
Qed.

Lemma flat_map_length_le {A B : Type} (f : A -> list B) (xs : list A) :
  (forall x, (List.length (f x) <= 1)%nat) ->
  (List.length (flat_map f xs) <= List.length xs)%nat.
Proof.
  intro H. induction xs as [|x xs IH]; cbn; [lia|].
  rewrite length_app. specialize (H x). lia.
Qed.

Lemma exceeded_files_comprehension (self : ComplexityThresholdChecker)
      (now : string) (static_results : option StaticResults.t)
      (gpt_results : option GptResults.t) (report : threshold_report) :
  nonzero_thresholds self = true ->
  check_loaded self now static_results gpt_results = Ok report ->
  exceeded_files report
  = flat_map (verdict_of self) (static_items static_results).
Proof.
  intros Hnz. unfold check_loaded.
  destruct (static_loop_exact self now static_results Hnz)
    as (r & -> & He & _).
  cbn [Py.bind]. intros [= <-].
  destruct (overall_recommendations_fields (check_gpt_results r gpt_results))
    as (_ & _ & Hx & _).
  destruct (check_gpt_results_fields r gpt_results) as (_ & _ & Hx' & _).
  cbv zeta in *. now rewrite Hx, Hx', He.
Qed.

(** X2.  In a run over a table whose thresholds are all above zero, every
    verdict of [exceeded_files] belongs to a document of the corpus, its
    threshold is its baseline score times the multiplier, its score is
    above that threshold and its excess percentage is above zero;
    [files_exceeded] is the number of verdicts and never exceeds
    [files_checked], the number of documents. *)
Theorem verdicts_are_over_threshold :
  forall (self : ComplexityThresholdChecker) (now : string)
         (static_results : option StaticResults.t)
         (gpt_results : option GptResults.t),
    positive_thresholds self = true ->
    exists report,
      check_loaded self now static_results gpt_results = Ok report
      /\ (forall info, In info (exceeded_files report) ->
            In (file info) (map fst (static_items static_results))
            /\ threshold info
               = inject_Z (baseline_score info) * threshold_multiplier self
            /\ 0 < threshold info
            /\ threshold info < current_score info
            /\ 0 < excess_percentage info)
      /\ files_exceeded (summary report)
         = Z.of_nat (List.length (exceeded_files report))
      /\ files_checked (summary report)
         = Z.of_nat (List.length (static_items static_results))
      /\ (0 <= files_exceeded (summary report)
          <= files_checked (summary report))%Z.
Proof.
  intros self now static_results gpt_results Hpos.
  pose proof (positive_thresholds_nonzero self Hpos) as Hnz.
  destruct (check_loaded_run self now static_results gpt_results Hnz)
    as (report & Hok & _ & Hfiles & Hchecked & Hexc & _).
  pose proof (exceeded_files_comprehension self now static_results
                gpt_results report Hnz Hok) as Hcomp.
  exists report. split; [exact Hok|]. split; [|split; [|split]]; auto.
  - intros info Hin.
    destruct (Hfiles info Hin) as (a & k & b & Hdoc & _ & Hget & Hinfo & Hlt).
    pose proof (positive_thresholds_In self k b Hpos (getitem_In _ _ _ Hget))
      as Hb.
    split; [apply in_map_iff; exists (file info, a); split; auto|].
    rewrite Hinfo. cbn. repeat split; auto.
    now apply excess_positive.
  - rewrite Hexc, Hchecked, Hcomp. split; [lia|].
    apply Nat2Z.inj_le. apply flat_map_length_le.
    apply verdict_of_length.
Qed.

(** The default checker on a corpus with one document over its threshold. *)
Lemma verdicts_are_over_threshold_example :
  exists report,
    check_loaded init EmptyString
      (corpus [("a/main-optimized.mdc", scored 121); ("b/notes.md", scored 9)])
      None = Ok report
    /\ (forall info, In info (exceeded_files report) ->
          In (file info)
             (map fst
                (static_items
                   (corpus [("a/main-optimized.mdc", scored 121);
                            ("b/notes.md", scored 9)])))
          /\ threshold info
             = inject_Z (baseline_score info) * threshold_multiplier init
          /\ 0 < threshold info
          /\ threshold info < current_score info
          /\ 0 < excess_percentage info)
    /\ files_exceeded (summary report)
       = Z.of_nat (List.length (exceeded_files report))
    /\ files_checked (summary report)
       = Z.of_nat
           (List.length
              (static_items
                 (corpus [("a/main-optimized.mdc", scored 121);
                          ("b/notes.md", scored 9)])))
    /\ (0 <= files_exceeded (summary report)
        <= files_checked (summary report))%Z.
Proof.
  exact (verdicts_are_over_threshold init EmptyString
           (corpus [("a/main-optimized.mdc", scored 121);
                    ("b/notes.md", scored 9)]) None eq_refl).
Defined.

(** A run that returns is the run of [Checker.check_loaded] on ratings
    that are numbers. *)
Lemma check_loaded_json_returns (self : ComplexityThresholdChecker)
      (now : string) (static_results : option StaticResults.t)
      (gpt_results : option GptJson.t) (report : threshold_report) :
  CheckerJson.check_loaded self now static_results gpt_results = Ok report ->
  numeric_results gpt_results = true
  /\ check_loaded self now static_results (numbers_of gpt_results)
     = Ok report.
Proof.
  rewrite check_loaded_json.
  destruct (numeric_results gpt_results); [now split|].
  destruct (check_static_results _ _ _); discriminate.
Qed.

Lemma check_loaded_same_verdicts (self : ComplexityThresholdChecker)
      (now : string) (static_results : option StaticResults.t)
      (gpt1 gpt2 : option GptResults.t) (r1 r2 : threshold_report) :
  check_loaded self now static_results gpt1 = Ok r1 ->
  check_loaded self now static_results gpt2 = Ok r2 ->
  threshold_exceeded r1 = threshold_exceeded r2
  /\ exceeded_files r1 = exceeded_files r2
  /\ summary r1 = summary r2.
Proof.
  unfold check_loaded.
  destruct (check_static_results _ _ _) as [r|e]; cbn [Py.bind];
    [|discriminate].
  intros [= <-] [= <-].
  destruct (overall_recommendations_fields (check_gpt_results r gpt1))
    as (_ & Ht1 & Hx1 & Hs1 & _).
  destruct (overall_recommendations_fields (check_gpt_results r gpt2))
    as (_ & Ht2 & Hx2 & Hs2 & _).
  destruct (check_gpt_results_fields r gpt1) as (_ & Ht1' & Hx1' & _ & Hs1').
  destruct (check_gpt_results_fields r gpt2) as (_ & Ht2' & Hx2' & _ & Hs2').
  cbv zeta in *.
  rewrite Ht1, Hx1, Hs1, Ht2, Hx2, Hs2, Ht1', Hx1', Hs1', Ht2', Hx2', Hs2'.
  repeat split.
Qed.

Lemma check_threshold_json_returns (self : ComplexityThresholdChecker)
      (now : string) (static_file : json_file (option StaticResults.t))
      (gpt_file : json_file (option GptJson.t)) (report : threshold_report) :
  snd (CheckerJson.check_threshold self now static_file gpt_file) = Ok report
  -> readable static_file && readable gpt_file = true
     /\ CheckerJson.check_loaded self now (loaded static_file)
                                 (loaded gpt_file) = Ok report.
Proof.
  rewrite check_threshold_json.
  destruct (readable static_file && readable gpt_file);
    [now split | discriminate].
Qed.

(** X3.  The semantic results never change the verdicts of a run that
    returns a report: whatever the semantic results hold, two such runs
    over the same static results have the same gate, the same
    [exceeded_files] and the same summary, and [main] exits with the same
    status.  The semantic results file can only end the run before there
    is a report: a run of the default checker returns one exactly when
    both files are missing or hold JSON and every listed rating is a
    number, and [main] exits with status 1 when it does not. *)
Theorem gate_ignores_semantic_results :
  (forall (self : ComplexityThresholdChecker) (now : string)
          (static_results : option StaticResults.t)
          (gpt1 gpt2 : option GptJson.t) (r1 r2 : threshold_report),
      CheckerJson.check_loaded self now static_results gpt1 = Ok r1 ->
      CheckerJson.check_loaded self now static_results gpt2 = Ok r2 ->
      threshold_exceeded r1 = threshold_exceeded r2
      /\ exceeded_files r1 = exceeded_files r2
      /\ summary r1 = summary r2)
  /\ (forall (now : string)
             (static_file : json_file (option StaticResults.t))
             (gpt1 gpt2 : json_file (option GptJson.t))
             (r1 r2 : threshold_report),
         snd (CheckerJson.check_threshold init now static_file gpt1) = Ok r1 ->
         snd (CheckerJson.check_threshold init now static_file gpt2) = Ok r2 ->
         exit_status (CheckerJson.main now static_file gpt1)
         = exit_status (CheckerJson.main now static_file gpt2))
  /\ (forall (now : string)
             (static_file : json_file (option StaticResults.t))
             (gpt_file : json_file (option GptJson.t)),
         (exists report,
             snd (CheckerJson.check_threshold init now static_file gpt_file)
             = Ok report)
         <-> readable static_file && readable gpt_file
             && numeric_results (loaded gpt_file) = true)
  /\ (forall (now : string)
             (static_file : json_file (option StaticResults.t))
             (gpt_file : json_file (option GptJson.t)) (e : exn),
         snd (CheckerJson.check_threshold init now static_file gpt_file)
         = Raise e ->
         exit_status (CheckerJson.main now static_file gpt_file) = 1%Z).
Proof.
  assert (Hsame : forall self now static_results gpt1 gpt2 r1 r2,
             CheckerJson.check_loaded self now static_results gpt1 = Ok r1 ->
             CheckerJson.check_loaded self now static_results gpt2 = Ok r2 ->
             threshold_exceeded r1 = threshold_exceeded r2
             /\ exceeded_files r1 = exceeded_files r2
             /\ summary r1 = summary r2).
  { intros self now static_results gpt1 gpt2 r1 r2 H1 H2.
    apply check_loaded_json_returns in H1 as [_ H1].
    apply check_loaded_json_returns in H2 as [_ H2].
    exact (check_loaded_same_verdicts self now static_results _ _ r1 r2
             H1 H2). }
  split; [exact Hsame|]. split; [|split].
  - intros now static_file gpt1 gpt2 r1 r2 H1 H2.
    rewrite !main_json_exit_status, H1, H2.
    apply check_threshold_json_returns in H1 as [_ H1].
    apply check_threshold_json_returns in H2 as [_ H2].
    destruct (Hsame init now _ _ _ r1 r2 H1 H2) as (-> & _). reflexivity.
  - intros now static_file gpt_file.
    rewrite check_threshold_json, check_loaded_json.
    destruct (readable static_file && readable gpt_file); cbn [andb].
    + destruct (numeric_results (loaded gpt_file)).
      * split; [reflexivity|]. intros _.
        destruct (check_loaded_run init now (loaded static_file)
                    (numbers_of (loaded gpt_file)) init_nonzero_thresholds)
          as (report & Hok & _).
        now exists report.
      * split; [|discriminate]. intros (report & H).
        destruct (check_static_results _ _ _); discriminate.
    + split; [|discriminate]. intros (report & H). discriminate.
  - intros now static_file gpt_file e H.
    now rewrite main_json_exit_status, H.
Qed.

End ComparatorInvariants.

Section ComparatorEdges.

Import Checker.

Lemma check_static_results_items (self : ComplexityThresholdChecker)
      (r : threshold_report) (static_results : option StaticResults.t) :
  check_static_results self r static_results
  = for_each (check_file self) (static_items static_results) r.
Proof.
  unfold check_static_results, static_items.
  destruct static_results as [[? ? ? ? [items|]]|]; reflexivity.
Qed.

(** X4.  With no scored document to look at (the static results file is
    missing, holds an empty dictionary, or has no or an empty
    ['file_analysis']) and a semantic results file that is missing or
    holds JSON with numbers for the listed ratings, the run returns, for
    every baseline table, a report with the gate open: no verdict, zero
    files checked, a zero total, and no recommendation but the
    consolidation advice when the semantic results alone raise more than
    five warnings; [main] exits with status 0, and a missing static file
    is announced on the console.  With a semantic results file that is not
    JSON the run ends with [JSONDecodeError], with a listed rating that is
    not a number it ends with [TypeError], and [main] exits with status
    1. *)
Theorem no_scored_document_passes :
  forall (self : ComplexityThresholdChecker) (now : string)
         (static_results : option (option StaticResults.t))
         (gpt_file : json_file (option GptJson.t)),
    static_items (match static_results with Some sr => sr | None => None end)
    = [] ->
    (readable gpt_file = true ->
     numeric_results (loaded gpt_file) = true ->
     (exists report,
         snd (CheckerJson.check_threshold self now (file_of static_results)
                                          gpt_file) = Ok report
         /\ threshold_exceeded report = false
         /\ exceeded_files report = []
         /\ files_checked (summary report) = 0%Z
         /\ files_exceeded (summary report) = 0%Z
         /\ total_current (summary report) = 0
         /\ recommendations report
            = (if (5 <? Z.of_nat (List.length (warnings report)))%Z
               then [MsgConsolidate] else []))
     /\ exit_status (CheckerJson.main now (file_of static_results) gpt_file)
        = 0%Z
     /\ (static_results = None ->
         In "No static complexity results found"
            (fst (CheckerJson.check_threshold self now
                    (file_of static_results) gpt_file))))
    /\ (readable gpt_file = false ->
        snd (CheckerJson.check_threshold self now (file_of static_results)
                                         gpt_file) = Raise JSONDecodeError
        /\ exit_status (CheckerJson.main now (file_of static_results)
                                         gpt_file) = 1%Z)
    /\ (readable gpt_file = true ->
        numeric_results (loaded gpt_file) = false ->
        snd (CheckerJson.check_threshold self now (file_of static_results)
                                         gpt_file) = Raise TypeError
        /\ exit_status (CheckerJson.main now (file_of static_results)
                                         gpt_file) = 1%Z).
Proof.
  intros self now static_results gpt_file Hnone.
  assert (Hstatic : readable (file_of static_results) = true)
    by now destruct static_results.
  assert (Hloaded : loaded (file_of static_results)
                    = match static_results with
                      | Some sr => sr
                      | None => None
                      end)
    by now destruct static_results.
  assert (Hrun : forall self',
             snd (CheckerJson.check_threshold self' now
                    (file_of static_results) gpt_file)
             = if readable gpt_file
               then if numeric_results (loaded gpt_file)
                    then Ok (overall_recommendations
                               (check_gpt_results
                                  (empty_report self' now)
                                  (numbers_of (loaded gpt_file))))
                    else Raise TypeError
               else Raise JSONDecodeError).
  { intro self'. rewrite check_threshold_json, Hstatic. cbn [andb].
    destruct (readable gpt_file); [|reflexivity].
    rewrite check_loaded_json. unfold check_loaded.
    rewrite check_static_results_items, Hloaded, Hnone.
    cbn [for_each Py.bind]. reflexivity. }
  split; [|split].
  - intros Hread Hnum.
    assert (Hreport : forall self',
               exists report,
                 snd (CheckerJson.check_threshold self' now
                        (file_of static_results) gpt_file) = Ok report
                 /\ threshold_exceeded report = false
                 /\ exceeded_files report = []
                 /\ files_checked (summary report) = 0%Z
                 /\ files_exceeded (summary report) = 0%Z
                 /\ total_current (summary report) = 0
                 /\ recommendations report
                    = (if (5 <? Z.of_nat (List.length (warnings report)))%Z
                       then [MsgConsolidate] else [])).
    { intro self'. rewrite Hrun, Hread, Hnum.
      eexists. split; [reflexivity|].
      destruct (overall_recommendations_fields
                  (check_gpt_results (empty_report self' now)
                     (numbers_of (loaded gpt_file))))
        as (Hw & Ht & Hx & Hs & Hrec).
      destruct (check_gpt_results_fields (empty_report self' now)
                  (numbers_of (loaded gpt_file)))
        as (_ & Ht' & Hx' & Hrec' & Hs').
      cbv zeta in *. rewrite Ht, Hx, Hs, Hrec, Hw, Ht', Hx', Hs', Hrec'.
      cbn. rewrite Z.gtb_ltb. repeat split. }
    split; [apply Hreport|]. split.
    + destruct (Hreport init) as (report & Hok & Hgate & _).
      now rewrite main_json_exit_status, Hok, Hgate.
    + intros ->. unfold CheckerJson.check_threshold.
      destruct gpt_file as [| |g]; cbn -[CheckerJson.check_loaded];
        try (now left);
        destruct (CheckerJson.check_loaded _ _ _ _); now left.
  - intros Hread. rewrite main_json_exit_status, !Hrun, Hread. now split.
  - intros Hread Hnum.
    rewrite main_json_exit_status, !Hrun, Hread, Hnum. now split.
Qed.

(** No static results file and no semantic results file. *)
Lemma no_scored_document_missing_files :
  (exists report,
      snd (CheckerJson.check_threshold init EmptyString (file_of None)
                                       Missing) = Ok report
      /\ threshold_exceeded report = false
      /\ exceeded_files report = []
      /\ files_checked (summary report) = 0%Z
      /\ files_exceeded (summary report) = 0%Z
      /\ total_current (summary report) = 0
      /\ recommendations report
         = (if (5 <? Z.of_nat (List.length (warnings report)))%Z
            then [MsgConsolidate] else []))
  /\ exit_status (CheckerJson.main EmptyString (file_of None) Missing) = 0%Z
  /\ (@None (option StaticResults.t) = None ->
      In "No static complexity results found"
         (fst (CheckerJson.check_threshold init EmptyString (file_of None)
                                           Missing))).
Proof.
  exact (proj1 (no_scored_document_passes init EmptyString None Missing
                  eq_refl) eq_refl eq_refl).
Defined.

(** X5.  A results file that is not JSON ends the threshold run with
    [JSONDecodeError] before any document is checked, whichever of the two
    files it is, and [main] then exits with status 1, the status it also
    uses for an exceeded threshold. *)
Theorem unparsable_results_end_the_run :
  forall (self : ComplexityThresholdChecker) (now : string),
    (forall gpt_file,
        check_threshold self now Unparsable gpt_file
        = ([], Raise JSONDecodeError))
    /\ (forall static_results : option (option StaticResults.t),
           snd (check_threshold self now (file_of static_results) Unparsable)
           = Raise JSONDecodeError)
    /\ (forall gpt_file,
           exit_status (main now Unparsable gpt_file) = 1%Z)
    /\ (forall static_results : option (option StaticResults.t),
           exit_status (main now (file_of static_results) Unparsable) = 1%Z)
    /\ (forall (static_file : json_file (option StaticResults.t))
               (gpt_file : json_file (option GptResults.t)) report,
           snd (check_threshold init now static_file gpt_file) = Ok report ->
           threshold_exceeded report = true ->
           exit_status (main now static_file gpt_file) = 1%Z).
Proof.
  intros self now. split; [|split; [|split; [|split]]].
  - intro gpt_file. reflexivity.
  - intros [sr|]; reflexivity.
  - intro gpt_file. reflexivity.
  - intros [sr|]; reflexivity.
  - intros static_file gpt_file report Hok Hgate.
    unfold exit_status, main. rewrite snd_io_bind, Hok. cbn [Py.bind].
    now rewrite Hgate.
Qed.

Lemma entry_flags_length (i : GptResults.high_file) :
  (List.length (entry_flags i) <= 2)%nat.
Proof.
  unfold entry_flags.
  destruct (Qlt_le_dec 8 _), (Qlt_le_dec _ 5); cbn; lia.
Qed.

Lemma flat_map_length_le2 {A B : Type} (f : A -> list B) (xs : list A) :
  (forall x, (List.length (f x) <= 2)%nat) ->
  (List.length (flat_map f xs) <= 2 * List.length xs)%nat.
Proof.
  intro H. induction xs as [|x xs IH]; cbn; [lia|].
  rewrite length_app. specialize (H x). lia.
Qed.

Lemma recommendations_comprehension (self : ComplexityThresholdChecker)
      (now : string) (static_results : option StaticResults.t)
      (gpt_results : option GptResults.t) (report : threshold_report) :
  nonzero_thresholds self = true ->
  check_loaded self now static_results gpt_results = Ok report ->
  recommendations report
  = map verdict_message (exceeded_files report)
    ++ (if threshold_exceeded report then [MsgSplit; MsgReview] else [])
    ++ (if (5 <? Z.of_nat (List.length (warnings report)))%Z
        then [MsgConsolidate] else []).
Proof.
  intros Hnz. unfold check_loaded.
  destruct (static_loop_exact self now static_results Hnz)
    as (r & -> & He & Hr).
  cbn [Py.bind]. intros [= <-].
  destruct (overall_recommendations_fields (check_gpt_results r gpt_results))
    as (Hw & Ht & Hx & _ & Hrec).
  destruct (check_gpt_results_fields r gpt_results)
    as (_ & Ht' & Hx' & Hrec' & _).
  cbv zeta in *. rewrite Hx, Hx', Hrec, Hrec', Hw, Ht, Ht', Hr.
  now rewrite Z.gtb_ltb.
Qed.

Lemma numbers_of_entries_length (gpt_results : option GptJson.t) :
  List.length (semantic_items (numbers_of gpt_results))
  = List.length (semantic_entries gpt_results).
Proof. now rewrite semantic_items_numbers_of, length_map. Qed.

(** X6.  In a run of the default checker over semantic results whose
    listed ratings are numbers, each entry of ['high_complexity_files']
    gives at most two warnings; the consolidation advice is among the
    recommendations exactly when there are more than five warnings, and
    the two general recommendations are there exactly when the gate is
    closed.  When a listed rating is not a number the run raises
    [TypeError] and recommends nothing. *)
Theorem general_recommendations_decision_table :
  forall (now : string) (static_results : option StaticResults.t)
         (gpt_results : option GptJson.t),
    (numeric_results gpt_results = true ->
     exists report,
       CheckerJson.check_loaded init now static_results gpt_results
       = Ok report
       /\ (List.length (warnings report)
           <= 2 * List.length (semantic_entries gpt_results))%nat
       /\ (In MsgConsolidate (recommendations report)
           <-> (5 < List.length (warnings report))%nat)
       /\ (In MsgSplit (recommendations report)
           <-> threshold_exceeded report = true)
       /\ (In MsgReview (recommendations report)
           <-> threshold_exceeded report = true))
    /\ (numeric_results gpt_results = false ->
        CheckerJson.check_loaded init now static_results gpt_results
        = Raise TypeError).
Proof.
  intros now static_results gpt_results.
  rewrite check_loaded_json. split.
  2:{ intros ->.
      destruct (static_loop init now static_results init_nonzero_thresholds)
        as (r & -> & _). reflexivity. }
  intros ->.
  destruct (check_loaded_run init now static_results (numbers_of gpt_results)
              init_nonzero_thresholds)
    as (report & Hok & _ & _ & _ & _ & _ & _ & Hwarn).
  pose proof (recommendations_comprehension init now static_results
                (numbers_of gpt_results) report init_nonzero_thresholds Hok)
    as Hrec.
  exists report. split; [exact Hok|]. split.
  { rewrite Hwarn, <- numbers_of_entries_length.
    apply flat_map_length_le2, entry_flags_length. }
  assert (Hmsg : forall m, In m (map verdict_message (exceeded_files report))
                           -> exists s f q, m = MsgExceeded s f q).
  { intros m Hin. apply in_map_iff in Hin as (info & <- & _).
    unfold verdict_message. eauto. }
  rewrite Hrec. repeat split.
  - intro Hin. apply in_app_or in Hin as [Hin|Hin].
    + destruct (Hmsg _ Hin) as (? & ? & ? & ?). discriminate.
    + apply in_app_or in Hin as [Hin|Hin].
      * destruct (threshold_exceeded report); cbn in Hin;
          intuition discriminate.
      * destruct (5 <? _)%Z eqn:E; [|destruct Hin].
        apply Z.ltb_lt in E. lia.
  - intro H. apply in_or_app. right. apply in_or_app. right.
    assert (E : (5 <? Z.of_nat (List.length (warnings report)))%Z = true)
      by (apply Z.ltb_lt; lia).
    rewrite E. now left.
  - intro Hin. apply in_app_or in Hin as [Hin|Hin].
    + destruct (Hmsg _ Hin) as (? & ? & ? & ?). discriminate.
    + apply in_app_or in Hin as [Hin|Hin].
      * destruct (threshold_exceeded report); [reflexivity|destruct Hin].
      * destruct (5 <? _)%Z; cbn in Hin; intuition discriminate.
  - intros ->. apply in_or_app. right. apply in_or_app. left. now left.
  - intro Hin. apply in_app_or in Hin as [Hin|Hin].
    + destruct (Hmsg _ Hin) as (? & ? & ? & ?). discriminate.
    + apply in_app_or in Hin as [Hin|Hin].
      * destruct (threshold_exceeded report); [reflexivity|destruct Hin].
      * destruct (5 <? _)%Z; cbn in Hin; intuition discriminate.
  - intros ->. apply in_or_app. right. apply in_or_app. left.
    right. now left.
Qed.

End ComparatorEdges.

(** ** The written report *)

Section WrittenReport.

Import Checker.

Lemma insert_by_excess_perm (x : exceeded_info) (l : list exceeded_info) :
  Permutation (x :: l) (insert_by_excess x l).
Proof.
  induction l as [|y l IH]; cbn; [reflexivity|].
  destruct (Py.lt _ _); [|reflexivity].
  rewrite perm_swap. now apply perm_skip.
Qed.

Lemma sorted_by_excess_perm (l : list exceeded_info) :
  Permutation l (sorted_by_excess l).
Proof.
  induction l as [|x l IH]; cbn; [reflexivity|].
  rewrite <- insert_by_excess_perm. now apply perm_skip.
Qed.

Lemma insert_by_excess_sorted (x : exceeded_info) (l : list exceeded_info) :
  StronglySorted excess_desc l ->
  StronglySorted excess_desc (insert_by_excess x l).
Proof.
  induction l as [|y l IH]; intro Hs; cbn.
  - constructor; constructor.
  - inversion Hs as [|? ? Hl Hy]; subst.
    destruct (Py.lt _ _) eqn:E.
    + apply lt_true_iff in E. constructor; [now apply IH|].
      apply (Permutation_Forall (insert_by_excess_perm x l)).
      constructor; [|exact Hy]. unfold excess_desc. now apply Qlt_le_weak.
    + apply gt_false_iff in E. constructor; [exact Hs|].
      constructor; [exact E|].
      apply (Forall_impl (P := excess_desc y)); [|exact Hy].
      intros z Hz. unfold excess_desc in *. now apply (Qle_trans _ _ _ Hz).
Qed.

Lemma insert_by_excess_stable (q : Q) (x : exceeded_info)
      (l : list exceeded_info) :
  with_excess q (insert_by_excess x l) = with_excess q (x :: l).
Proof.
  unfold with_excess. induction l as [|y l IH]; [reflexivity|].
  cbn [insert_by_excess]. destruct (Py.lt _ _) eqn:E; [|reflexivity].
  apply lt_true_iff in E. cbn [filter] in *. rewrite IH.
  destruct (Qeq_bool (excess_percentage x) q) eqn:Ex,
           (Qeq_bool (excess_percentage y) q) eqn:Ey; try reflexivity.
  apply Qeq_bool_iff in Ex, Ey. rewrite Ex, Ey in E.
  destruct (Qlt_irrefl _ E).
Qed.

(** X7.  The order in which the written report (and the console) lists the
    verdicts, [sorted(..., key=excess_percentage, reverse=True)], is a
    rearrangement of [exceeded_files] in which no verdict comes before one
    with a larger excess percentage, and verdicts with equal percentages
    keep the order they have in [exceeded_files]. *)
Theorem sorted_by_excess_is_stable_descending :
  forall infos : list exceeded_info,
    Permutation infos (sorted_by_excess infos)
    /\ StronglySorted excess_desc (sorted_by_excess infos)
    /\ (forall q, with_excess q (sorted_by_excess infos)
                  = with_excess q infos).
Proof.
  intro infos. split; [apply sorted_by_excess_perm|]. split.
  - induction infos as [|x infos IH]; cbn; [constructor|].
    now apply insert_by_excess_sorted.
  - intro q. induction infos as [|x infos IH]; [reflexivity|].
    cbn [sorted_by_excess fold_right]. rewrite insert_by_excess_stable.
    unfold with_excess in *. cbn [filter].
    fold (sorted_by_excess infos). now rewrite IH.
Qed.

Lemma report_files_app (a b : list report_line) :
  report_files (a ++ b) = report_files a ++ report_files b.
Proof. apply flat_map_app. Qed.

Lemma report_bullets_app (a b : list report_line) :
  report_bullets (a ++ b) = report_bullets a ++ report_bullets b.
Proof. apply flat_map_app. Qed.

Lemma report_files_bullets (ms : list message) :
  report_files (map RBullet ms) = [].
Proof. induction ms; [reflexivity | assumption]. Qed.

Lemma report_bullets_bullets (ms : list message) :
  report_bullets (map RBullet ms) = ms.
Proof.
  induction ms as [|m ms IH]; [reflexivity|].
  cbn. unfold report_bullets in IH. now rewrite IH.
Qed.

Lemma report_files_sections (infos : list exceeded_info) :
  report_files (flat_map file_section infos) = map file infos.
Proof.
  induction infos as [|i infos IH]; [reflexivity|].
  cbn. unfold report_files in IH. now rewrite IH.
Qed.

Lemma report_bullets_sections (infos : list exceeded_info) :
  report_bullets (flat_map file_section infos) = [].
Proof. induction infos as [|i infos IH]; [reflexivity | exact IH]. Qed.

(** X8.  The written report has one heading per verdict, in descending
    order of excess percentage (so each exceeded file is listed once), and
    its bullets are all the warnings followed by all the recommendations
    of the report, in order. *)
Theorem generate_report_lists_everything :
  forall report : threshold_report,
    report_files (generate_report report)
    = map file (sorted_by_excess (exceeded_files report))
    /\ Permutation (map file (exceeded_files report))
                   (report_files (generate_report report))
    /\ report_bullets (generate_report report)
       = warnings report ++ recommendations report.
Proof.
  intro report.
  assert (Hfiles : report_files (generate_report report)
                   = map file (sorted_by_excess (exceeded_files report))).
  { unfold generate_report.
    destruct (exceeded_files report) as [|e es],
             (warnings report) as [|w ws],
             (recommendations report) as [|c cs];
      rewrite ?report_files_app, ?report_files_sections,
              ?report_files_bullets;
      cbn [report_files flat_map app]; rewrite ?app_nil_r; reflexivity. }
  split; [exact Hfiles|]. split.
  - rewrite Hfiles. apply Permutation_map, sorted_by_excess_perm.
  - unfold generate_report.
    destruct (exceeded_files report) as [|e es],
             (warnings report) as [|w ws],
             (recommendations report) as [|c cs];
      rewrite ?report_bullets_app, ?report_bullets_sections,
              ?report_bullets_bullets;
      cbn [report_bullets flat_map app]; rewrite ?app_nil_r; reflexivity.
Qed.

End WrittenReport.

(** ** The summary for review comments *)

Section SummaryLines.

Import Summary.

Ltac plain_lines :=
  repeat first
    [ apply Forall_nil
    | apply Forall_cons; [reflexivity|]
    | apply Forall_app; split
    | apply Forall_map; apply Forall_forall; intros; reflexivity
    | progress unfold when_some
    | match goal with
      | |- context [if ?b then _ else _] => destruct b
      | |- context [match ?o with Some _ => _ | None => _ end] => destruct o
      end ].

Lemma static_part_plain (static_results : option static_doc) :
  Forall (fun l => is_plain l = true) (static_part static_results).
Proof. unfold static_part. destruct static_results; plain_lines. Qed.

Lemma gpt_part_plain (gpt_results : option gpt_doc) :
  Forall (fun l => is_plain l = true) (gpt_part gpt_results).
Proof. unfold gpt_part. destruct gpt_results; plain_lines. Qed.

Lemma threshold_part_plain
      (threshold_results : option Checker.threshold_report) :
  Forall (fun l => is_plain l = true) (threshold_part threshold_results).
Proof. unfold threshold_part. destruct threshold_results; plain_lines. Qed.

Lemma plain_no_status (lines : list line) :
  Forall (fun l => is_plain l = true) lines -> filter is_status lines = [].
Proof.
  induction 1 as [|l lines Hl _ IH]; [reflexivity|].
  cbn. rewrite IH. destruct l; try reflexivity; discriminate.
Qed.

Lemma plain_no_bullet (lines : list line) :
  Forall (fun l => is_plain l = true) lines -> summary_bullets lines = [].
Proof.
  induction 1 as [|l lines Hl _ IH]; [reflexivity|].
  cbn. unfold summary_bullets in IH. rewrite IH.
  destruct l; try reflexivity; discriminate.
Qed.

Lemma generate_summary_loaded
      (static_file : json_file (option static_doc))
      (gpt_file : json_file (option gpt_doc))
      (threshold_file : json_file (option Checker.threshold_report)) :
  generate_summary static_file gpt_file threshold_file
  = ([], Ok (build_summary (loaded static_file) (loaded gpt_file)
                           (loaded threshold_file))).
Proof. destruct static_file, gpt_file, threshold_file; reflexivity. Qed.

Lemma status_of_recommendations
      (static_results : option static_doc)
      (threshold_results : option Checker.threshold_report) :
  filter is_status (recommendations_part static_results threshold_results)
  = [].
Proof.
  unfold recommendations_part, when_some.
  destruct (Alert.truthy _); [|reflexivity]. cbn.
  match goal with
  | |- context [map Bullet ?l] => induction l as [|m ms IH]
  end; [reflexivity | exact IH].
Qed.

Lemma build_summary_status
      (static_results : option static_doc) (gpt_results : option gpt_doc)
      (threshold_results : option Checker.threshold_report) :
  filter is_status (build_summary static_results gpt_results
                                  threshold_results)
  = [match threshold_results with
     | Some r => if Checker.threshold_exceeded r then StatusExceeded
                 else StatusWithin
     | None => StatusWithin
     end].
Proof.
  unfold build_summary. rewrite !filter_app.
  rewrite (plain_no_status _ (static_part_plain _)),
          (plain_no_status _ (gpt_part_plain _)),
          (plain_no_status _ (threshold_part_plain _)),
          status_of_recommendations.
  unfold status_part.
  destruct threshold_results as [r|]; [|reflexivity].
  destruct (Checker.threshold_exceeded r); reflexivity.
Qed.

Lemma build_summary_exceeded
      (static_results : option static_doc) (gpt_results : option gpt_doc)
      (threshold_results : option Checker.threshold_report) :
  In StatusExceeded (build_summary static_results gpt_results
                                   threshold_results)
  <-> exists r, threshold_results = Some r
                /\ Checker.threshold_exceeded r = true.
Proof.
  assert (Hin : In StatusExceeded
                   (build_summary static_results gpt_results
                                  threshold_results)
                <-> In StatusExceeded
                       (filter is_status
                          (build_summary static_results gpt_results
                                         threshold_results))).
  { rewrite filter_In. split; [intro H; split; auto | intros [H _]; exact H]. }
  rewrite Hin, build_summary_status. split.
  - destruct threshold_results as [r|].
    + destruct (Checker.threshold_exceeded r) eqn:E.
      * intros _. exists r. split; auto.
      * intros [H|[]]. discriminate.
    + intros [H|[]]. discriminate.
  - intros (r & -> & ->). now left.
Qed.

Lemma count_line_run (xs : list Json.value) (heading : Z -> line) :
  (forall n, is_plain (heading n) = true) ->
  if forallb SummaryJson.hashable xs
  then exists lines,
      SummaryJson.count_line xs heading = Ok lines
      /\ Forall (fun l => is_plain l = true) lines
  else SummaryJson.count_line xs heading = Raise TypeError.
Proof.
  intro Hplain. unfold SummaryJson.count_line, SummaryJson.len_set.
  destruct xs as [|x xs]; [eexists; split; [reflexivity | constructor]|].
  cbn [Alert.truthy].
  destruct (forallb SummaryJson.hashable (x :: xs)); cbn [Py.bind];
    [|reflexivity].
  eexists. split; [reflexivity|]. constructor; [apply Hplain | constructor].
Qed.

Lemma gpt_part_json (gpt_results : option SummaryJson.gpt_doc) :
  if hashable_labels gpt_results
  then exists lines,
      SummaryJson.gpt_part gpt_results = Ok lines
      /\ Forall (fun l => is_plain l = true) lines
  else SummaryJson.gpt_part gpt_results = Raise TypeError.
Proof.
  destruct gpt_results as [d|]; cbn [hashable_labels];
    [|eexists; split; [reflexivity | constructor]].
  unfold SummaryJson.gpt_part. rewrite !forallb_app.
  pose proof (count_line_run (get (SummaryJson.rule_conflicts d) [])
                RuleConflicts (fun _ => eq_refl)) as Hc.
  pose proof (count_line_run (get (SummaryJson.best_practice_violations d) [])
                Violations (fun _ => eq_refl)) as Hv.
  pose proof (count_line_run
                (get (SummaryJson.cursor_compatibility_issues d) [])
                CursorIssues (fun _ => eq_refl)) as Hi.
  destruct (forallb _ (get (SummaryJson.rule_conflicts d) []));
    [destruct Hc as (c & -> & Pc) | now rewrite Hc].
  destruct (forallb _ (get (SummaryJson.best_practice_violations d) []));
    [destruct Hv as (v & -> & Pv) | now rewrite Hv].
  destruct (forallb _ (get (SummaryJson.cursor_compatibility_issues d) []));
    [destruct Hi as (i & -> & Pi) | now rewrite Hi].
  cbn [Py.bind andb]. eexists. split; [reflexivity|].
  repeat (apply Forall_app; split); try assumption.
  - repeat constructor.
  - unfold when_some. destruct (Alert.truthy _); [|constructor].
    constructor; [reflexivity|].
    apply Forall_map, Forall_forall. reflexivity.
Qed.

Lemma summary_json_loaded
      (static_file : json_file (option static_doc))
      (gpt_file : json_file (option SummaryJson.gpt_doc))
      (threshold_file : json_file (option Checker.threshold_report)) :
  SummaryJson.generate_summary static_file gpt_file threshold_file
  = ([], SummaryJson.build_summary (loaded static_file) (loaded gpt_file)
                                   (loaded threshold_file)).
Proof. destruct static_file, gpt_file, threshold_file; reflexivity. Qed.

(** X9.  [generate_summary] prints nothing on the console.  It returns a
    summary exactly when no label of the semantic results is a list or an
    object, on which [len(set(...))] raises [TypeError]; the summary then
    carries exactly one status line: THRESHOLD EXCEEDED when the threshold
    results were read and their gate is closed, WITHIN LIMITS otherwise,
    which includes a threshold results file that is missing or is not
    JSON. *)
Theorem summary_has_one_status_line :
  forall (static_file : json_file (option static_doc))
         (gpt_file : json_file (option SummaryJson.gpt_doc))
         (threshold_file : json_file (option Checker.threshold_report)),
    let run :=
      SummaryJson.generate_summary static_file gpt_file threshold_file in
    fst run = []
    /\ (hashable_labels (loaded gpt_file) = true ->
        exists lines,
          snd run = Ok lines
          /\ filter is_status lines
             = [match loaded threshold_file with
                | Some r => if Checker.threshold_exceeded r
                            then StatusExceeded else StatusWithin
                | None => StatusWithin
                end]
          /\ (In StatusExceeded lines <->
              exists r, threshold_file = Parsed (Some r)
                        /\ Checker.threshold_exceeded r = true))
    /\ (hashable_labels (loaded gpt_file) = false ->
        snd run = Raise TypeError).
Proof.
  intros static_file gpt_file threshold_file run. unfold run.
  rewrite summary_json_loaded. cbn [fst snd].
  split; [reflexivity|].
  unfold SummaryJson.build_summary.
  pose proof (gpt_part_json (loaded gpt_file)) as Hgpt.
  split; intro Hhash; rewrite Hhash in Hgpt; [|now rewrite Hgpt].
  destruct Hgpt as (gpt_lines & -> & Hplain). cbn [Py.bind].
  eexists. split; [reflexivity|].
  assert (Hstatus :
            filter is_status
                   (static_part (loaded static_file)
                    ++ gpt_lines
                    ++ threshold_part (loaded threshold_file)
                    ++ status_part (loaded threshold_file)
                    ++ recommendations_part (loaded static_file)
                                            (loaded threshold_file))
            = [match loaded threshold_file with
               | Some r => if Checker.threshold_exceeded r
                           then StatusExceeded else StatusWithin
               | None => StatusWithin
               end]).
  { rewrite !filter_app.
    rewrite (plain_no_status _ (static_part_plain _)),
            (plain_no_status _ Hplain),
            (plain_no_status _ (threshold_part_plain _)),
            status_of_recommendations.
    unfold status_part.
    destruct (loaded threshold_file) as [r|]; [|reflexivity].
    destruct (Checker.threshold_exceeded r); reflexivity. }
  split; [exact Hstatus|].
  match goal with
  | |- In StatusExceeded ?lines <-> _ =>
      assert (Hin : In StatusExceeded lines
                    <-> In StatusExceeded (filter is_status lines))
  end.
  { rewrite filter_In. split; [intro H; split; auto | intros [H _]; exact H]. }
  rewrite Hin, Hstatus. split.
  - destruct threshold_file as [| |[r|]]; cbn [loaded];
      try (intros [H|[]]; discriminate).
    destruct (Checker.threshold_exceeded r) eqn:E.
    + intros _. exists r. split; auto.
    + intros [H|[]]. discriminate.
  - intros (r & -> & Hgate). cbn [loaded]. rewrite Hgate. now left.
Qed.

Lemma distinct_strings (xs : list string) :
  SummaryJson.distinct (map Json.Str xs)
  = map Json.Str (nodup string_dec xs).
Proof.
  induction xs as [|x xs IH]; [reflexivity|].
  cbn [map SummaryJson.distinct nodup]. rewrite IH.
  destruct (in_dec string_dec x xs) as [Hin|Hout].
  - assert (E : existsb (SummaryJson.value_eqb (Json.Str x))
                        (map Json.Str xs) = true).
    { apply existsb_exists. exists (Json.Str x). split.
      - now apply in_map.
      - cbn. apply String.eqb_refl. }
    now rewrite E.
  - assert (E : existsb (SummaryJson.value_eqb (Json.Str x))
                        (map Json.Str xs) = false).
    { apply not_true_is_false. intro H. apply existsb_exists in H
        as (v & Hv & Heq). apply in_map_iff in Hv as (y & <- & Hy).
      cbn in Heq. apply String.eqb_eq in Heq. now subst. }
    now rewrite E.
Qed.

Lemma count_line_strings (xs : list string) (heading : Z -> line) :
  SummaryJson.count_line (map Json.Str xs) heading
  = Ok (when_some xs [heading (len_set xs)]).
Proof.
  unfold SummaryJson.count_line, SummaryJson.len_set, when_some, len_set.
  destruct xs as [|x xs]; [reflexivity|].
  cbn [map Alert.truthy].
  assert (Hhash : forallb SummaryJson.hashable (Json.Str x :: map Json.Str xs)
                  = true).
  { apply forallb_forall. intros v [<-|Hv]; [reflexivity|].
    apply in_map_iff in Hv as (y & <- & _). reflexivity. }
  rewrite Hhash. cbn [Py.bind].
  change (Json.Str x :: map Json.Str xs) with (map Json.Str (x :: xs)).
  rewrite distinct_strings. unfold len, Alert.set_of, Alert.set_iter.
  now rewrite length_map.
Qed.

(** [Summary.build_summary] is the summary of semantic results whose labels
    are strings. *)
Lemma build_summary_of_doc (static_results : option static_doc)
      (gpt_results : option gpt_doc)
      (threshold_results : option Checker.threshold_report) :
  SummaryJson.build_summary static_results
                            (option_map SummaryJson.of_doc gpt_results)
                            threshold_results
  = Ok (build_summary static_results gpt_results threshold_results).
Proof.
  unfold SummaryJson.build_summary, build_summary.
  destruct gpt_results as [[[rc bv ci high] n]|]; [|reflexivity].
  unfold SummaryJson.gpt_part, gpt_part, SummaryJson.of_doc.
  cbn [option_map SummaryJson.rule_conflicts
       SummaryJson.best_practice_violations
       SummaryJson.cursor_compatibility_issues
       SummaryJson.high_complexity_files SummaryJson.files_analyzed
       gpt_common gpt_files_analyzed GptResults.rule_conflicts
       GptResults.best_practice_violations
       GptResults.cursor_compatibility_issues
       GptResults.high_complexity_files].
  assert (Hget : forall o : option (list string),
             get (option_map (map Json.Str) o) [] = map Json.Str (get o []))
    by (intros [xs|]; reflexivity).
  rewrite !Hget, !count_line_strings. cbn [Py.bind].
  assert (Hhigh :
            when_some
              (get (option_map
                      (map (fun i =>
                              {| SummaryJson.file := GptResults.file i;
                                 SummaryJson.complexity :=
                                   GptResults.complexity i |})) high) [])
              (SemanticCount
                 (len (get (option_map
                              (map (fun i =>
                                      {| SummaryJson.file := GptResults.file i;
                                         SummaryJson.complexity :=
                                           GptResults.complexity i |}))
                              high) []))
               :: map (fun i => SemanticFile (SummaryJson.file i)
                                             (SummaryJson.complexity i))
                      (firstn 3
                         (get (option_map
                                 (map (fun i =>
                                         {| SummaryJson.file :=
                                              GptResults.file i;
                                            SummaryJson.complexity :=
                                              GptResults.complexity i |}))
                                 high) [])))
            = when_some (get high [])
                (SemanticCount (len (get high []))
                 :: map (fun i => SemanticFile (GptResults.file i)
                                               (GptResults.complexity i))
                        (firstn 3 (get high [])))).
  { destruct high as [high|]; [|reflexivity]. cbn [option_map get].
    unfold when_some. destruct high as [|h high]; [reflexivity|].
    cbn [Alert.truthy map]. unfold len.
    change (List.length
              ({| SummaryJson.file := GptResults.file h;
                  SummaryJson.complexity := GptResults.complexity h |}
               :: map (fun i =>
                         {| SummaryJson.file := GptResults.file i;
                            SummaryJson.complexity := GptResults.complexity i |})
                      high))
      with (S (List.length
                 (map (fun i =>
                         {| SummaryJson.file := GptResults.file i;
                            SummaryJson.complexity := GptResults.complexity i |})
                      high))).
    rewrite length_map. f_equal.
    change ({| SummaryJson.file := GptResults.file h;
               SummaryJson.complexity := GptResults.complexity h |}
            :: map (fun i =>
                      {| SummaryJson.file := GptResults.file i;
                         SummaryJson.complexity := GptResults.complexity i |})
                   high)
      with (map (fun i =>
                   {| SummaryJson.file := GptResults.file i;
                      SummaryJson.complexity := GptResults.complexity i |})
                (h :: high)).
    rewrite firstn_map, map_map. reflexivity. }
  rewrite Hhigh, <- !app_assoc. reflexivity.
Qed.

(** Semantic results with a JSON object among the rule conflicts, and
    with strings only. *)
Lemma summary_of_unhashable_label :
  snd (SummaryJson.generate_summary
         Missing (Parsed (only_rule_conflicts [Json.Str "a"; Json.Compound]))
         Missing)
  = Raise TypeError.
Proof.
  exact (proj2 (proj2 (summary_has_one_status_line
                         Missing
                         (Parsed (only_rule_conflicts
                                    [Json.Str "a"; Json.Compound]))
                         Missing)) eq_refl).
Defined.

(** X10.  The summary of the results a run of the default checker wrote
    shows THRESHOLD EXCEEDED exactly when that run made [main] exit with
    status 1, that is, exactly when the run emitted a verdict. *)
Theorem summary_status_agrees_with_exit_status :
  forall (now : string) (static_results : option (option StaticResults.t))
         (gpt_results : option (option GptResults.t))
         (static_file : json_file (option static_doc))
         (gpt_file : json_file (option gpt_doc)),
  exists report lines,
    snd (Checker.check_threshold Checker.init now (file_of static_results)
                                 (file_of gpt_results)) = Ok report
    /\ generate_summary static_file gpt_file (Parsed (Some report))
       = ([], Ok lines)
    /\ (In StatusExceeded lines <->
        exit_status (Checker.main now (file_of static_results)
                                  (file_of gpt_results)) = 1%Z)
    /\ (In StatusExceeded lines <-> Checker.exceeded_files report <> []).
Proof.
  intros now static_results gpt_results static_file gpt_file.
  pose proof (check_threshold_loaded Checker.init now static_results
                gpt_results) as Hrun.
  destruct (check_loaded_run Checker.init now
              (match static_results with Some sr => sr | None => None end)
              (match gpt_results with Some gr => gr | None => None end)
              init_nonzero_thresholds) as (report & Hok & Hgate & _).
  rewrite Hok in Hrun.
  exists report. eexists. split; [exact Hrun|].
  split; [apply generate_summary_loaded|]. cbn [loaded].
  assert (Hiff : In StatusExceeded
                    (build_summary (loaded static_file) (loaded gpt_file)
                                   (Some report))
                 <-> Checker.threshold_exceeded report = true).
  { rewrite build_summary_exceeded. split.
    - intros (r & [= <-] & H). exact H.
    - intro H. exists report. split; auto. }
  split.
  - rewrite Hiff. unfold exit_status, Checker.main.
    rewrite snd_io_bind, Hrun. cbn [Py.bind].
    destruct (Checker.threshold_exceeded report); cbn; split; congruence.
  - now rewrite Hiff.
Qed.

End SummaryLines.

Section SummaryCounts.

Import Summary.

Lemma len_set_same_elements (l1 l2 : list string) :
  (forall x, In x l1 <-> In x l2) -> len_set l1 = len_set l2.
Proof.
  intro H. unfold len_set, len, Alert.set_of, Alert.set_iter. f_equal.
  apply Permutation_length, NoDup_Permutation; try apply NoDup_nodup.
  intro x. rewrite !nodup_In. apply H.
Qed.

Lemma truthy_same_elements (l1 l2 : list string) :
  (forall x, In x l1 <-> In x l2) -> Alert.truthy l1 = Alert.truthy l2.
Proof.
  intro H. destruct l1 as [|a l1], l2 as [|b l2]; try reflexivity.
  - destruct (proj2 (H b) (or_introl eq_refl)).
  - destruct (proj1 (H a) (or_introl eq_refl)).
Qed.

Lemma len_set_le (l : list string) : (len_set l <= len l)%Z.
Proof.
  unfold len_set, len, Alert.set_of, Alert.set_iter.
  apply Nat2Z.inj_le. induction l as [|x l IH]; cbn; [lia|].
  destruct (in_dec string_dec x l); cbn; lia.
Qed.

(** X11.  The summary counts conflict labels as a set: two static results
    that differ only in their conflict lists, the lists holding the same
    labels (in any order, any number of times each), have the same
    summary; the count shown is never above the length of the list. *)
Theorem summary_counts_distinct_conflicts :
  forall (d : static_doc) (labels labels' : list string)
         (gpt_results : option gpt_doc)
         (threshold_results : option Checker.threshold_report),
    (forall x, In x labels <-> In x labels') ->
    build_summary (Some (with_conflicts d labels)) gpt_results
                  threshold_results
    = build_summary (Some (with_conflicts d labels')) gpt_results
                    threshold_results
    /\ (len_set labels <= len labels)%Z
    /\ (labels <> [] ->
        In (RuleConflicts (len_set labels))
           (build_summary (Some (with_conflicts d labels)) gpt_results
                          threshold_results)).
Proof.
  intros d labels labels' gpt_results threshold_results Hsame.
  split; [|split; [apply len_set_le|]].
  - unfold build_summary, static_part, recommendations_part.
    cbn [with_conflicts common StaticResults.conflicts_found get
         StaticResults.high_complexity_files
         StaticResults.best_practice_violations
         StaticResults.recommendations files_analyzed total_complexity
         summary].
    unfold when_some at 2 7.
    rewrite (len_set_same_elements _ _ Hsame),
            (truthy_same_elements _ _ Hsame).
    reflexivity.
  - intro Hne. unfold build_summary. apply in_or_app. left.
    unfold static_part.
    cbn [with_conflicts common StaticResults.conflicts_found get].
    apply in_or_app. right. apply in_or_app. right. apply in_or_app. right.
    apply in_or_app. left. unfold when_some.
    destruct labels; [contradiction|]. now left.
Qed.

(** The label of two documents, in two arrangements. *)
Lemma summary_counts_distinct_conflicts_example :
  build_summary
    (Some (with_conflicts (only_conflicts []) [blocked_once; blocked_once]))
    None None
  = build_summary
      (Some (with_conflicts (only_conflicts []) [blocked_once])) None None
  /\ (len_set [blocked_once; blocked_once]
      <= len [blocked_once; blocked_once])%Z
  /\ ([blocked_once; blocked_once] <> [] ->
      In (RuleConflicts (len_set [blocked_once; blocked_once]))
         (build_summary
            (Some (with_conflicts (only_conflicts [])
                                  [blocked_once; blocked_once]))
            None None)).
Proof.
  apply (summary_counts_distinct_conflicts (only_conflicts [])
           [blocked_once; blocked_once] [blocked_once] None None).
  intro x. cbn. tauto.
Defined.

(** X12.  The summary shows at most five recommendations: the first five
    of the static analyzer's recommendations followed by the threshold
    report's. *)
Theorem summary_shows_first_five_recommendations :
  forall (static_results : option static_doc) (gpt_results : option gpt_doc)
         (threshold_results : option Checker.threshold_report),
    let recommendations :=
      map MsgText
          match static_results with
          | Some d => get (StaticResults.recommendations (common d)) []
          | None => []
          end
      ++ match threshold_results with
         | Some r => Checker.recommendations r
         | None => []
         end in
    summary_bullets (build_summary static_results gpt_results
                                   threshold_results)
    = firstn 5 recommendations
    /\ (List.length (summary_bullets
                       (build_summary static_results gpt_results
                                      threshold_results)) <= 5)%nat.
Proof.
  intros static_results gpt_results threshold_results recommendations.
  assert (Hb : summary_bullets (build_summary static_results gpt_results
                                              threshold_results)
               = firstn 5 recommendations).
  { unfold build_summary, summary_bullets. rewrite !flat_map_app.
    fold (summary_bullets (static_part static_results)).
    fold (summary_bullets (gpt_part gpt_results)).
    fold (summary_bullets (threshold_part threshold_results)).
    rewrite (plain_no_bullet _ (static_part_plain _)),
            (plain_no_bullet _ (gpt_part_plain _)),
            (plain_no_bullet _ (threshold_part_plain _)).
    assert (Hs : flat_map (fun l => match l with Bullet m => [m] | _ => [] end)
                          (status_part threshold_results) = []).
    { unfold status_part. destruct threshold_results as [r|]; [|reflexivity].
      destruct (Checker.threshold_exceeded r); reflexivity. }
    rewrite Hs. cbn [app]. unfold recommendations_part.
    fold recommendations. unfold when_some.
    destruct recommendations as [|m ms]; [reflexivity|].
    cbn [Alert.truthy flat_map app].
    generalize (firstn 5 (m :: ms)). intro l.
    induction l as [|x l IH]; cbn; [reflexivity | now rewrite IH]. }
  split; [exact Hb|]. rewrite Hb. apply firstn_le_length.
Qed.

End SummaryCounts.

(** ** When the alert is produced *)

Section AlertProduced.

Import Alert.

Lemma create_alert_loaded
      (threshold_file : json_file (option Checker.threshold_report))
      (static_file : json_file (option StaticResults.t))
      (gpt_file : json_file (option GptResults.t)) :
  create_alert threshold_file static_file gpt_file
  = ([], build_alert (loaded threshold_file) (loaded static_file)
                     (loaded gpt_file)).
Proof.
  destruct threshold_file, static_file, gpt_file; reflexivity.
Qed.

(** X13.  [create_alert] prints nothing and returns the alert exactly when
    the results it loads hold no conflict label, no best-practice
    violation and no Cursor-compatibility issue; as soon as one of these
    lists has an element it ends with [TypeError].  Files that are missing
    or are not JSON count as holding none. *)
Theorem create_alert_returns_iff_no_label :
  forall (threshold_file : json_file (option Checker.threshold_report))
         (static_file : json_file (option StaticResults.t))
         (gpt_file : json_file (option GptResults.t)),
    fst (create_alert threshold_file static_file gpt_file) = []
    /\ (snd (create_alert threshold_file static_file gpt_file)
        = Raise TypeError
        <-> alert_labels (loaded static_file) (loaded gpt_file) <> [])
    /\ ((exists lines,
            snd (create_alert threshold_file static_file gpt_file)
            = Ok lines)
        <-> alert_labels (loaded static_file) (loaded gpt_file) = []).
Proof.
  intros threshold_file static_file gpt_file.
  rewrite create_alert_loaded. cbn [fst snd]. split; [reflexivity|].
  destruct (build_alert_raises_iff (loaded threshold_file)
              (loaded static_file) (loaded gpt_file)) as [Hraise Hok].
  cbv zeta in Hraise, Hok. fold (alert_labels (loaded static_file)
                                               (loaded gpt_file)) in *.
  destruct (alert_labels (loaded static_file) (loaded gpt_file)) as [|l ls].
  - destruct (Hok eq_refl) as (lines & Hlines). rewrite Hlines. split.
    + split; [discriminate | intro H; now contradiction H].
    + split; [reflexivity | intros _; now exists lines].
  - rewrite Hraise by discriminate. split.
    + split; [discriminate | reflexivity].
    + split; [intros (lines & H); discriminate | discriminate].
Qed.

Lemma flat_map_not_nil {A B : Type} (f : A -> list B) (xs : list A) :
  flat_map f xs <> [] <-> exists x, In x xs /\ f x <> [].
Proof.
  induction xs as [|x xs IH]; cbn.
  - split; [intro H; now contradiction H | intros (x & [] & _)].
  - split.
    + intro H. destruct (f x) as [|b bs] eqn:E.
      * cbn in H. apply IH in H as (y & Hy & Hf). exists y. auto.
      * exists x. split; [now left | rewrite E; discriminate].
    + intros (y & [<-|Hy] & Hf) H; apply app_eq_nil in H as [H1 H2].
      * contradiction.
      * apply (proj2 IH); [exists y; auto | exact H2].
Qed.

Lemma violations_concat
      (re_findall : string -> string -> list Analyzer.re_flag -> list string)
      (self : Analyzer.MarkdownComplexityAnalyzer) (now : string)
      (docs : list (string * string)) :
  Analyzer.Results.best_practice_violations
    (Analyzer.analyze_repository re_findall self now docs)
  = flat_map (fun doc =>
                Analyzer.Analysis.best_practice_violations
                  (Analyzer.analyze_file re_findall self (fst doc) (snd doc)))
             docs.
Proof.
  unfold Analyzer.analyze_repository. cbn [Analyzer.finish
    Analyzer.Results.best_practice_violations].
  match goal with
  | |- context [fold_left _ docs ?r0] =>
      change (flat_map _ docs)
        with (Analyzer.Results.best_practice_violations r0
              ++ flat_map (fun doc =>
                   Analyzer.Analysis.best_practice_violations
                     (Analyzer.analyze_file re_findall self (fst doc)
                                            (snd doc))) docs);
      generalize r0
  end.
  induction docs as [|[file_path content] docs IH]; intro r0; cbn.
  - now rewrite app_nil_r.
  - rewrite IH. cbn. now rewrite <- app_assoc.
Qed.

(** X14.  Run on the results the static analyzer wrote, with no semantic
    results, [create_alert] ends with [TypeError] exactly when some
    analysed document matched a conflict pattern or a best-practice
    pattern; it returns the alert only for a repository without any such
    match. *)
Theorem alert_fails_on_any_pattern_match :
  forall (re_findall :
            string -> string -> list Analyzer.re_flag -> list string)
         (self : Analyzer.MarkdownComplexityAnalyzer) (now : string)
         (docs : list (string * string))
         (threshold_file : json_file (option Checker.threshold_report)),
    let static_file :=
      Parsed (Some (Analyzer.to_json
                      (Analyzer.analyze_repository re_findall self now docs)))
    in
    snd (create_alert threshold_file static_file Missing) = Raise TypeError
    <-> exists doc,
        In doc docs
        /\ (Analyzer.Analysis.conflicts
              (Analyzer.analyze_file re_findall self (fst doc) (snd doc))
            <> []
            \/ Analyzer.Analysis.best_practice_violations
                 (Analyzer.analyze_file re_findall self (fst doc) (snd doc))
               <> []).
Proof.
  intros re_findall self now docs threshold_file static_file.
  rewrite create_alert_loaded. cbn [snd].
  destruct (build_alert_raises_iff (loaded threshold_file)
              (loaded static_file) (@None GptResults.t)) as [Hraise Hok].
  cbv zeta in Hraise, Hok.
  unfold static_file in *.
  cbn [loaded field_or_nil Analyzer.to_json get
       StaticResults.conflicts_found
       StaticResults.best_practice_violations] in *.
  rewrite conflicts_found_concat, violations_concat, !app_nil_r in *.
  set (cs := flat_map
               (fun doc => Analyzer.Analysis.conflicts
                  (Analyzer.analyze_file re_findall self (fst doc)
                                         (snd doc))) docs) in *.
  set (vs := flat_map
               (fun doc => Analyzer.Analysis.best_practice_violations
                  (Analyzer.analyze_file re_findall self (fst doc)
                                         (snd doc))) docs) in *.
  assert (Hlabels : cs ++ vs <> [] <->
                    exists doc, In doc docs
                      /\ (Analyzer.Analysis.conflicts
                            (Analyzer.analyze_file re_findall self (fst doc)
                                                   (snd doc)) <> []
                          \/ Analyzer.Analysis.best_practice_violations
                               (Analyzer.analyze_file re_findall self
                                  (fst doc) (snd doc)) <> [])).
  { split.
    - intro H. destruct cs as [|c cs'] eqn:Ec.
      + cbn in H. apply flat_map_not_nil in H as (d & Hd & Hv).
        exists d. auto.
      + assert (Hne : cs <> []) by (rewrite Ec; discriminate).
        apply flat_map_not_nil in Hne as (d & Hd & Hc). exists d. auto.
    - intros (d & Hd & [Hc|Hv]) H; apply app_eq_nil in H as [H1 H2].
      + apply (proj2 (flat_map_not_nil _ docs)) in H1; auto.
        exists d. auto.
      + apply (proj2 (flat_map_not_nil _ docs)) in H2; auto.
        exists d. auto. }
  rewrite <- Hlabels. split.
  - intros H Hnil. destruct (Hok Hnil) as (lines & Hlines).
    rewrite Hlines in H. discriminate.
  - exact Hraise.
Qed.

End AlertProduced.

(** ** The static analysis of a repository *)

Section RepositoryAnalysis.

Variable re_findall : string -> string -> list Analyzer.re_flag -> list string.
Variable self : Analyzer.MarkdownComplexityAnalyzer.

Local Abbreviation analysis_of := (doc_analysis re_findall self).

Lemma analysis_file_path (doc : string * string) :
  Analyzer.Analysis.file_path (analysis_of doc) = fst doc.
Proof.
  unfold doc_analysis, Analyzer.analyze_file.
  destruct (Analyzer.scan_conflicts _ _ _ _ _). reflexivity.
Qed.

(** What the loop of [analyze_repository] adds to its accumulator. *)
Lemma analyze_loop (docs : list (string * string)) (r0 : Analyzer.Results.t) :
  let r := fold_left (Analyzer.analyze_one re_findall self) docs r0 in
  Analyzer.Results.files_analyzed r
  = (Analyzer.Results.files_analyzed r0 + Z.of_nat (List.length docs))%Z
  /\ Analyzer.Results.total_complexity r
     = fold_left (fun acc doc =>
                    acc + Analyzer.Analysis.complexity_score (analysis_of doc))
                 docs (Analyzer.Results.total_complexity r0)
  /\ Analyzer.Results.file_analysis r
     = Analyzer.Results.file_analysis r0
       ++ map (fun doc => (fst doc, analysis_of doc)) docs
  /\ Analyzer.Results.high_complexity_files r
     = Analyzer.Results.high_complexity_files r0
       ++ map high_entry_of (filter scored_high (map analysis_of docs))
  /\ Analyzer.Results.recommendations r
     = Analyzer.Results.recommendations r0
  /\ Analyzer.Results.timestamp r = Analyzer.Results.timestamp r0.
Proof.
  revert r0. induction docs as [|doc docs IH]; intro r0; cbn zeta.
  - cbn. rewrite Z.add_0_r, !app_nil_r. repeat split.
  - cbn [fold_left]. specialize (IH (Analyzer.analyze_one re_findall self r0 doc)).
    cbv zeta in IH. destruct IH as (Hn & Ht & Hf & Hh & Hr & Hs).
    rewrite Hn, Ht, Hf, Hh, Hr, Hs. clear Hn Ht Hf Hh Hr Hs.
    pose proof (analysis_file_path doc) as Hpath.
    unfold doc_analysis in *. destruct doc as [file_path content].
    cbn [Analyzer.analyze_one fst snd] in *.
    cbn [Analyzer.Results.files_analyzed Analyzer.Results.total_complexity
         Analyzer.Results.file_analysis Analyzer.Results.high_complexity_files
         Analyzer.Results.recommendations Analyzer.Results.timestamp
         map filter List.length].
    rewrite <- !app_assoc. cbn [app].
    repeat split; try lia.
    unfold scored_high at 2.
    destruct (Py.gt _ 50); cbn [map app]; rewrite <- ?app_assoc; cbn [app];
      [|reflexivity].
    unfold high_entry_of. cbn [fst snd]. now rewrite Hpath.
Qed.

(** X15.  [analyze_repository] counts every markdown file, adds up their
    scores in the order met, keeps one analysis per file under its path,
    and collects the conflict and violation labels of all files in that
    order, duplicates included; the timestamp is the clock reading. *)
Theorem analyze_repository_totals :
  forall (now : string) (docs : list (string * string)),
    let r := Analyzer.analyze_repository re_findall self now docs in
    Analyzer.Results.files_analyzed r = Z.of_nat (List.length docs)
    /\ Analyzer.Results.total_complexity r
       = fold_left (fun acc doc =>
                      acc + Analyzer.Analysis.complexity_score
                              (Analyzer.analyze_file re_findall self
                                                     (fst doc) (snd doc)))
                   docs 0
    /\ Analyzer.Results.file_analysis r
       = map (fun doc =>
                (fst doc,
                 Analyzer.analyze_file re_findall self (fst doc) (snd doc)))
             docs
    /\ Analyzer.Results.conflicts_found r
       = flat_map (fun doc =>
                     Analyzer.Analysis.conflicts
                       (Analyzer.analyze_file re_findall self (fst doc)
                                              (snd doc))) docs
    /\ Analyzer.Results.best_practice_violations r
       = flat_map (fun doc =>
                     Analyzer.Analysis.best_practice_violations
                       (Analyzer.analyze_file re_findall self (fst doc)
                                              (snd doc))) docs
    /\ Analyzer.Results.timestamp r = now.
Proof.
  intros now docs r.
  destruct (analyze_loop docs
              {| Analyzer.Results.timestamp := now;
                 Analyzer.Results.files_analyzed := 0;
                 Analyzer.Results.total_complexity := 0;
                 Analyzer.Results.high_complexity_files := [];
                 Analyzer.Results.conflicts_found := [];
                 Analyzer.Results.best_practice_violations := [];
                 Analyzer.Results.recommendations := [];
                 Analyzer.Results.file_analysis := [];
                 Analyzer.Results.summary := None |})
    as (Hn & Ht & Hf & _ & _ & Hs).
  cbv zeta in Hn, Ht, Hf, Hs.
  split; [|split; [|split; [|split; [|split]]]].
  - exact Hn.
  - exact Ht.
  - exact Hf.
  - apply conflicts_found_concat.
  - apply violations_concat.
  - exact Hs.
Qed.

(** X16.  ['high_complexity_files'] holds, in the order met, exactly the
    files whose score is above 50, each with the score, size and line
    count of its analysis. *)
Theorem high_complexity_files_are_above_50 :
  forall (now : string) (docs : list (string * string)),
    let r := Analyzer.analyze_repository re_findall self now docs in
    Analyzer.Results.high_complexity_files r
    = map high_entry_of
          (filter scored_high
             (map (fun doc =>
                     Analyzer.analyze_file re_findall self (fst doc)
                                           (snd doc)) docs))
    /\ (forall h, In h (Analyzer.Results.high_complexity_files r) ->
                  50 < Analyzer.Results.score h)
    /\ (forall doc, In doc docs ->
          50 < Analyzer.Analysis.complexity_score
                 (Analyzer.analyze_file re_findall self (fst doc) (snd doc))
          -> In (fst doc)
                (map Analyzer.Results.file
                     (Analyzer.Results.high_complexity_files r))).
Proof.
  intros now docs r.
  assert (Hhigh : Analyzer.Results.high_complexity_files r
                  = map high_entry_of
                        (filter scored_high (map analysis_of docs))).
  { destruct (analyze_loop docs
                {| Analyzer.Results.timestamp := now;
                   Analyzer.Results.files_analyzed := 0;
                   Analyzer.Results.total_complexity := 0;
                   Analyzer.Results.high_complexity_files := [];
                   Analyzer.Results.conflicts_found := [];
                   Analyzer.Results.best_practice_violations := [];
                   Analyzer.Results.recommendations := [];
                   Analyzer.Results.file_analysis := [];
                   Analyzer.Results.summary := None |})
      as (_ & _ & _ & Hh & _).
    exact Hh. }
  split; [exact Hhigh|]. rewrite Hhigh. split.
  - intros h Hin. apply in_map_iff in Hin as (a & <- & Ha).
    apply filter_In in Ha as [_ Ha]. now apply gt_true_iff in Ha.
  - intros doc Hdoc Hscore. apply in_map_iff.
    exists (high_entry_of (analysis_of doc)). split.
    + cbn. apply analysis_file_path.
    + apply in_map, filter_In. split.
      * apply in_map_iff. exists doc. split; auto.
      * now apply gt_true_iff.
Qed.

Lemma finish_fields (x : Analyzer.Results.t) :
  Analyzer.Results.total_complexity (Analyzer.finish x)
  = Analyzer.Results.total_complexity x
  /\ Analyzer.Results.conflicts_found (Analyzer.finish x)
     = Analyzer.Results.conflicts_found x
  /\ Analyzer.Results.best_practice_violations (Analyzer.finish x)
     = Analyzer.Results.best_practice_violations x
  /\ Analyzer.Results.files_analyzed (Analyzer.finish x)
     = Analyzer.Results.files_analyzed x
  /\ Analyzer.Results.file_analysis (Analyzer.finish x)
     = Analyzer.Results.file_analysis x.
Proof. repeat split. Qed.

(** X17.  The analyzer's recommendations follow a fixed table, in this
    order: the advice to split files when the total score is above 200,
    the advice to review mandatory rules when a conflict label was found,
    the advice to address violations when a violation label was found;
    nothing else is recommended. *)
Theorem analyzer_recommendations_table :
  forall (now : string) (docs : list (string * string)),
    let r := Analyzer.analyze_repository re_findall self now docs in
    Analyzer.Results.recommendations r
    = (if Qlt_le_dec 200 (Analyzer.Results.total_complexity r)
       then ["Consider splitting complex files into smaller modules"]
       else [])
      ++ (match Analyzer.Results.conflicts_found r with
          | [] => []
          | _ :: _ => ["Review mandatory rules for potential conflicts"]
          end)
      ++ (match Analyzer.Results.best_practice_violations r with
          | [] => []
          | _ :: _ => ["Address best practice violations in code examples"]
          end)
    /\ (In "Consider splitting complex files into smaller modules"
           (Analyzer.Results.recommendations r)
        <-> 200 < Analyzer.Results.total_complexity r)
    /\ (In "Review mandatory rules for potential conflicts"
           (Analyzer.Results.recommendations r)
        <-> Analyzer.Results.conflicts_found r <> [])
    /\ (In "Address best practice violations in code examples"
           (Analyzer.Results.recommendations r)
        <-> Analyzer.Results.best_practice_violations r <> []).
Proof.
  intros now docs r.
  assert (Hrec :
            Analyzer.Results.recommendations r
            = (if Qlt_le_dec 200 (Analyzer.Results.total_complexity r)
               then ["Consider splitting complex files into smaller modules"]
               else [])
              ++ (match Analyzer.Results.conflicts_found r with
                  | [] => []
                  | _ :: _ =>
                      ["Review mandatory rules for potential conflicts"]
                  end)
              ++ (match Analyzer.Results.best_practice_violations r with
                  | [] => []
                  | _ :: _ =>
                      ["Address best practice violations in code examples"]
                  end)).
  { unfold r, Analyzer.analyze_repository.
    match goal with
    | |- context [Analyzer.finish ?x] => set (acc := x)
    end.
    destruct (finish_fields acc) as (Ht & Hc & Hv & _). rewrite Ht, Hc, Hv.
    assert (Hnil : Analyzer.Results.recommendations acc = []).
    { unfold acc.
      match goal with
      | |- context [fold_left _ docs ?r0] =>
          destruct (analyze_loop docs r0) as (_ & _ & _ & _ & Hr & _)
      end. exact Hr. }
    unfold Analyzer.finish. cbn [Analyzer.Results.recommendations].
    rewrite Hnil.
    destruct (Qlt_le_dec 200 _) as [H|H];
      [apply gt_true_iff in H | apply gt_false_iff in H]; rewrite H;
      destruct (Analyzer.Results.conflicts_found acc),
               (Analyzer.Results.best_practice_violations acc);
      reflexivity. }
  split; [exact Hrec|]. rewrite Hrec.
  destruct (Qlt_le_dec 200 _) as [H|H];
    destruct (Analyzer.Results.conflicts_found r) as [|c cs];
    destruct (Analyzer.Results.best_practice_violations r) as [|v vs];
    cbn; repeat split; intros; try discriminate; auto;
    try (exfalso; apply (Qlt_not_le _ _ H0 H));
    try congruence;
    repeat match goal with
           | Hin : _ \/ _ |- _ => destruct Hin
           | Hin : False |- _ => destruct Hin
           | Heq : _ = _ |- _ => discriminate Heq
           end.
Qed.

Lemma sum_at_least (zs : list Z) :
  (forall z, In z zs -> 1 <= z)%Z ->
  (Z.of_nat (List.length zs) <= Checker.sum zs)%Z.
Proof.
  unfold Checker.sum.
  assert (H : forall zs acc,
             (forall z, In z zs -> 1 <= z)%Z ->
             (acc + Z.of_nat (List.length zs) <= fold_left Z.add zs acc)%Z).
  { clear zs. induction zs as [|z zs IH]; intros acc Hz; cbn [fold_left].
    - cbn. lia.
    - specialize (IH (acc + z)%Z (fun y Hy => Hz y (or_intror Hy))).
      specialize (Hz z (or_introl eq_refl)).
      cbn [List.length]. lia. }
  intro Hz. specialize (H zs 0%Z Hz). lia.
Qed.

(** X18.  For a repository with at least one markdown file the summary is
    present: the average is the total score divided by the number of
    files, the total line count is the sum of the line counts and at least
    the number of files (a file has at least one line), and the numbers of
    files with conflicts and with violations are between 0 and the number
    of files.  For an empty repository the summary is the empty
    dictionary, nothing is divided and nothing is recommended. *)
Theorem analyzer_summary_statistics :
  forall (now : string) (docs : list (string * string)),
    docs <> [] ->
    let r := Analyzer.analyze_repository re_findall self now docs in
    let n := Z.of_nat (List.length docs) in
    (exists sm,
        Analyzer.Results.summary r = Some sm
        /\ Analyzer.Results.average_complexity sm
           = Analyzer.Results.total_complexity r / inject_Z n
        /\ (n <= Analyzer.Results.total_lines sm)%Z
        /\ (0 <= Analyzer.Results.files_with_conflicts sm <= n)%Z
        /\ (0 <= Analyzer.Results.files_with_violations sm <= n)%Z)
    /\ Analyzer.Results.summary
         (Analyzer.analyze_repository re_findall self now [])
       = None
    /\ Analyzer.Results.recommendations
         (Analyzer.analyze_repository re_findall self now [])
       = [].
Proof.
  intros now docs Hne r n. split; [|split; reflexivity].
  unfold r, Analyzer.analyze_repository.
  match goal with
  | |- context [Analyzer.finish ?x] => set (acc := x)
  end.
  assert (Hloop : Analyzer.Results.files_analyzed acc = n
                  /\ Analyzer.Results.file_analysis acc
                     = map (fun doc => (fst doc, analysis_of doc)) docs).
  { unfold acc.
    match goal with
    | |- context [fold_left _ docs ?r0] =>
        destruct (analyze_loop docs r0) as (Hn & _ & Hf & _)
    end. split; [exact Hn | exact Hf]. }
  destruct Hloop as [Hn Hf].
  assert (Hpos : (0 < n)%Z).
  { unfold n. destruct docs; [contradiction|]. cbn [List.length]. lia. }
  unfold Analyzer.finish.
  cbn [Analyzer.Results.summary Analyzer.Results.total_complexity].
  rewrite Hn. assert (E : (n >? 0)%Z = true) by (apply Z.gtb_lt; lia).
  rewrite E. eexists. split; [reflexivity|].
  cbn [Analyzer.Results.average_complexity Analyzer.Results.total_lines
       Analyzer.Results.files_with_conflicts
       Analyzer.Results.files_with_violations].
  assert (Hmap : map snd (Analyzer.Results.file_analysis acc)
                 = map analysis_of docs).
  { rewrite Hf, map_map. apply map_ext. reflexivity. }
  rewrite Hmap.
  assert (Hlen : forall f : Analyzer.Analysis.t -> bool,
             (0 <= Z.of_nat (List.length
                              (filter f (map analysis_of docs))) <= n)%Z).
  { intro f. split; [lia|]. unfold n. apply Nat2Z.inj_le.
    rewrite <- (length_map analysis_of docs). apply filter_length_le. }
  split; [reflexivity|]. split; [|split; apply Hlen].
  unfold n.
  rewrite <- (length_map analysis_of docs),
          <- (length_map Analyzer.Analysis.line_count
                         (map analysis_of docs)).
  apply sum_at_least. intros z Hz.
  apply in_map_iff in Hz as (a & <- & Ha).
  apply in_map_iff in Ha as (doc & <- & _).
  unfold doc_analysis, Analyzer.analyze_file.
  destruct (Analyzer.scan_conflicts _ _ _ _ _).
  cbn [Analyzer.Analysis.line_count]. lia.
Qed.

End RepositoryAnalysis.

(** A repository of one short file, read with an engine that finds no
    match. *)
Lemma analyzer_summary_statistics_example :
  (exists sm,
      Analyzer.Results.summary
        (Analyzer.analyze_repository no_match Analyzer.init EmptyString
                                     [("README.md", "# Title")])
      = Some sm
      /\ Analyzer.Results.average_complexity sm
         = Analyzer.Results.total_complexity
             (Analyzer.analyze_repository no_match Analyzer.init EmptyString
                                          [("README.md", "# Title")])
           / inject_Z (Z.of_nat 1)
      /\ (Z.of_nat 1 <= Analyzer.Results.total_lines sm)%Z
      /\ (0 <= Analyzer.Results.files_with_conflicts sm <= Z.of_nat 1)%Z
      /\ (0 <= Analyzer.Results.files_with_violations sm <= Z.of_nat 1)%Z)
  /\ Analyzer.Results.summary
       (Analyzer.analyze_repository no_match Analyzer.init EmptyString [])
     = None
  /\ Analyzer.Results.recommendations
       (Analyzer.analyze_repository no_match Analyzer.init EmptyString [])
     = [].
Proof.
  apply (analyzer_summary_statistics no_match Analyzer.init EmptyString
           [("README.md", "# Title")]).
  discriminate.
Defined.

(** ** The score of one document *)

Section DocumentScore.

Variable re_findall : string -> string -> list Analyzer.re_flag -> list string.

Lemma prefix_length (sub s : string) :
  String.prefix sub s = true -> (String.length sub <= String.length s)%nat.
Proof.
  revert sub. induction s as [|c s IH]; intros [|a sub] H; cbn in *;
    try lia; try discriminate.
  destruct (ascii_dec a c); [|discriminate].
  specialize (IH sub H). lia.
Qed.

Lemma count_from_bound (sub s : string) (skip : nat) :
  (Py.count_from sub s skip * String.length sub
   + Nat.min skip (String.length s) <= String.length s)%nat.
Proof.
  revert skip. induction s as [|c s IH]; intro skip; cbn [Py.count_from].
  - cbn. lia.
  - destruct skip as [|k].
    + destruct (String.prefix sub (String c s)) eqn:E.
      * apply prefix_length in E. cbn [String.length] in *.
        specialize (IH (String.length sub - 1)%nat).
        rewrite Nat.mul_succ_l. lia.
      * specialize (IH O). cbn [String.length]. lia.
    + specialize (IH k). cbn [String.length]. lia.
Qed.

Lemma count_from_zero (a : ascii) (sub s : string) :
  Py.count_from (String a sub) s 0 = O
  <-> Py.contains (String a sub) s = false.
Proof.
  induction s as [|c s IH]; cbn [Py.count_from Py.contains].
  - cbn. split; reflexivity.
  - destruct (String.prefix (String a sub) (String c s)); cbn [orb].
    + split; discriminate.
    + exact IH.
Qed.

Lemma count_zero_iff (content sub : string) :
  sub <> EmptyString ->
  (Py.count content sub = O <-> ~ is_substring sub content).
Proof.
  intro Hne. destruct sub as [|a sub]; [contradiction|].
  unfold Py.count. rewrite count_from_zero. apply contains_false_iff.
Qed.

Lemma count_bound (content sub : string) :
  sub <> EmptyString ->
  (Py.count content sub * String.length sub <= String.length content)%nat.
Proof.
  intro Hne. destruct sub as [|a sub]; [contradiction|].
  unfold Py.count.
  pose proof (count_from_bound (String a sub) content O). lia.
Qed.

Lemma scan_conflicts_labels (weight : Q) (patterns : list (string * string))
      (content : string) (acc : Q * list string) :
  snd (Analyzer.scan_conflicts re_findall weight patterns content acc)
  = snd acc ++ flat_map (pattern_label re_findall content) patterns.
Proof.
  revert acc. induction patterns as [|[pattern description] patterns IH];
    intro acc; cbn [Analyzer.scan_conflicts flat_map].
  - now rewrite app_nil_r.
  - rewrite IH. unfold pattern_label at 2. cbn [fst snd].
    destruct (re_findall pattern content [Analyzer.IGNORECASE]);
      cbn [snd app]; [reflexivity | now rewrite <- app_assoc].
Qed.

Lemma scan_violations_labels (patterns : list (string * string))
      (content : string) (acc : list string) :
  Analyzer.scan_violations re_findall patterns content acc
  = acc ++ flat_map (pattern_label re_findall content) patterns.
Proof.
  revert acc. induction patterns as [|[pattern violation] patterns IH];
    intro acc; cbn [Analyzer.scan_violations flat_map].
  - now rewrite app_nil_r.
  - rewrite IH. unfold pattern_label at 2. cbn [fst snd].
    destruct (re_findall pattern content [Analyzer.IGNORECASE]);
      cbn [app]; [reflexivity | now rewrite <- app_assoc].
Qed.

Lemma conflict_matches_from (patterns : list (string * string))
      (content : string) (z : Z) :
  fold_left (fun acc p =>
               (acc + Z.of_nat (List.length
                                  (re_findall (fst p) content
                                              [Analyzer.IGNORECASE])))%Z)
            patterns z
  = (z + conflict_matches re_findall patterns content)%Z.
Proof.
  unfold conflict_matches. revert z.
  induction patterns as [|p patterns IH]; intro z; cbn [fold_left]; [lia|].
  rewrite IH. rewrite (IH (0 + _)%Z). lia.
Qed.

Lemma conflict_matches_nonneg (patterns : list (string * string))
      (content : string) :
  (0 <= conflict_matches re_findall patterns content)%Z.
Proof.
  induction patterns as [|p patterns IH].
  - unfold conflict_matches. cbn. lia.
  - unfold conflict_matches in *. cbn [fold_left].
    rewrite conflict_matches_from. unfold conflict_matches. lia.
Qed.

Lemma scan_conflicts_score (weight : Q) (patterns : list (string * string))
      (content : string) (acc : Q * list string) :
  fst (Analyzer.scan_conflicts re_findall weight patterns content acc)
  == fst acc
     + inject_Z (conflict_matches re_findall patterns content) * weight.
Proof.
  revert acc. induction patterns as [|[pattern description] patterns IH];
    intro acc; cbn [Analyzer.scan_conflicts].
  - unfold conflict_matches. cbn. ring.
  - rewrite IH. unfold conflict_matches at 2. cbn [fold_left fst].
    rewrite conflict_matches_from.
    destruct (re_findall pattern content [Analyzer.IGNORECASE]) as [|m ms];
      cbn [fst List.length].
    + cbn [Z.of_nat Z.add]. ring.
    + rewrite !inject_Z_plus. ring.
Qed.

End DocumentScore.

Section DocumentScoreProperties.

Variable re_findall : string -> string -> list Analyzer.re_flag -> list string.

(** X19.  The score of a document is the weighted sum of the seven counts
    of its breakdown, plus its size in KB times the size weight, plus the
    weight of critical rules for every match of a conflict pattern; the
    last term is part of the score without being part of the breakdown. *)
Theorem score_is_weighted_sum :
  forall (self : Analyzer.MarkdownComplexityAnalyzer)
         (file_path content : string),
    let a := Analyzer.analyze_file re_findall self file_path content in
    let w := Analyzer.complexity_indicators self in
    let bd := Analyzer.Analysis.complexity_breakdown a in
    map fst bd
    = ["mermaid_diagrams"; "code_blocks"; "nested_headers";
       "conditional_logic"; "workflow_steps"; "mode_transitions";
       "visual_maps"]
    /\ Analyzer.Analysis.complexity_score a
       == inject_Z (breakdown_count "mermaid_diagrams" bd)
          * Analyzer.mermaid_diagrams w
          + inject_Z (breakdown_count "code_blocks" bd)
            * Analyzer.code_blocks w
          + inject_Z (breakdown_count "nested_headers" bd)
            * Analyzer.nested_headers w
          + inject_Z (breakdown_count "conditional_logic" bd)
            * Analyzer.conditional_logic w
          + inject_Z (breakdown_count "workflow_steps" bd)
            * Analyzer.workflow_steps w
          + inject_Z (breakdown_count "mode_transitions" bd)
            * Analyzer.mode_transitions w
          + inject_Z (breakdown_count "visual_maps" bd)
            * Analyzer.visual_maps w
          + Analyzer.Analysis.size_kb a * Analyzer.file_size_kb w
          + inject_Z (conflict_matches re_findall
                        (Analyzer.conflict_patterns self) content)
            * Analyzer.critical_rules w.
Proof.
  intros self file_path content a w bd.
  unfold bd, a, Analyzer.analyze_file.
  match goal with
  | |- context [Analyzer.scan_conflicts ?r ?wt ?ps ?c ?acc] =>
      pose proof (scan_conflicts_score r wt ps c acc) as Hscore;
      destruct (Analyzer.scan_conflicts r wt ps c acc) as [score conflicts]
  end.
  cbn [fst] in Hscore.
  cbn [Analyzer.Analysis.complexity_breakdown
       Analyzer.Analysis.complexity_score Analyzer.Analysis.size_kb map fst].
  split; [reflexivity|].
  cbn [breakdown_count String.eqb Ascii.eqb Bool.eqb]. cbn.
  rewrite Hscore. fold w. ring.
Qed.

(** X20.  With the weights of the analyzer, every document has at least
    one line and at most one more than it has characters, a size of its
    length over 1024, counts that are not negative, and a score that is
    at least a tenth of its size in KB, hence never negative. *)
Theorem score_bounds :
  forall (file_path content : string),
    let a := Analyzer.analyze_file re_findall Analyzer.init file_path
                                   content in
    (1 <= Analyzer.Analysis.line_count a
     <= Z.of_nat (String.length content) + 1)%Z
    /\ Analyzer.Analysis.size_kb a
       = inject_Z (Z.of_nat (String.length content)) / 1024
    /\ 0 <= Analyzer.Analysis.size_kb a
    /\ (forall name count,
           In (name, count) (Analyzer.Analysis.complexity_breakdown a) ->
           (0 <= count)%Z)
    /\ Analyzer.Analysis.size_kb a * (1 # 10)
       <= Analyzer.Analysis.complexity_score a
    /\ 0 <= Analyzer.Analysis.complexity_score a.
Proof.
  intros file_path content a.
  assert (Hsize : 0 <= inject_Z (Z.of_nat (String.length content)) / 1024).
  { unfold Qdiv. apply Qmult_le_0_compat; [|discriminate].
    change 0 with (inject_Z 0). rewrite <- Zle_Qle. lia. }
  assert (Hnl : (Py.count content Analyzer.newline
                 <= String.length content)%nat).
  { pose proof (count_bound content Analyzer.newline) as H.
    cbn [Analyzer.newline String.length] in H.
    assert (Hne : Analyzer.newline <> EmptyString) by discriminate.
    specialize (H Hne). lia. }
  unfold a, Analyzer.analyze_file.
  match goal with
  | |- context [Analyzer.scan_conflicts ?r ?wt ?ps ?c ?acc] =>
      pose proof (scan_conflicts_score r wt ps c acc) as Hscore;
      destruct (Analyzer.scan_conflicts r wt ps c acc) as [score conflicts]
  end.
  cbn [fst] in Hscore.
  cbn [Analyzer.Analysis.complexity_breakdown
       Analyzer.Analysis.complexity_score Analyzer.Analysis.size_kb
       Analyzer.Analysis.line_count].
  assert (Hm : 0 <= inject_Z (conflict_matches re_findall
                                (Analyzer.conflict_patterns Analyzer.init)
                                content)).
  { change 0 with (inject_Z 0). rewrite <- Zle_Qle.
    apply conflict_matches_nonneg. }
  assert (Hcount : forall s sub, 0 <= inject_Z (Analyzer.countZ s sub)).
  { intros s sub. change 0 with (inject_Z 0). rewrite <- Zle_Qle.
    unfold Analyzer.countZ. lia. }
  assert (Hlen : 0 <= inject_Z (Z.of_nat
                   (List.length (re_findall "^#{2,}" content
                                            [Analyzer.MULTILINE])))).
  { change 0 with (inject_Z 0). rewrite <- Zle_Qle. lia. }
  assert (Hbound : inject_Z (Z.of_nat (String.length content)) / 1024
                   * (1 # 10) <= score).
  { rewrite Hscore. cbn [Analyzer.init Analyzer.complexity_indicators
      Analyzer.mermaid_diagrams Analyzer.code_blocks Analyzer.nested_headers
      Analyzer.conditional_logic Analyzer.workflow_steps
      Analyzer.file_size_kb Analyzer.critical_rules Analyzer.mode_transitions
      Analyzer.visual_maps Analyzer.conflict_patterns] in *.
    rewrite !inject_Z_plus.
    pose proof (Hcount content "graph") as H1.
    pose proof (Hcount content "```mermaid") as H2.
    pose proof (Hcount content "```") as H3.
    pose proof (Hcount content "if") as H4.
    pose proof (Hcount content "else") as H5.
    pose proof (Hcount content "switch") as H6.
    pose proof (Hcount content "Step") as H7.
    pose proof (Hcount content "Phase") as H8.
    pose proof (Hcount content "MODE") as H9.
    pose proof (Hcount content "mermaid") as H10.
    lra. }
  repeat split.
  - lia.
  - lia.
  - exact Hsize.
  - intros name count Hin. cbn in Hin. unfold Analyzer.countZ in Hin.
    repeat destruct Hin as [Hin|Hin]; try (injection Hin as <- <-; lia).
    destruct Hin.
  - exact Hbound.
  - apply (Qle_trans _ (inject_Z (Z.of_nat (String.length content)) / 1024
                        * (1 # 10))); [|exact Hbound].
    apply Qmult_le_0_compat; [exact Hsize | discriminate].
Qed.

(** X21.  A conflict label is attached to a document exactly for the
    conflict patterns that match its text, one label per matching pattern
    in the order of the pattern table, each naming the pattern's
    description and its number of matches; the same holds for the
    best-practice patterns, so a document carries at most as many labels
    of a kind as there are patterns of that kind. *)
Theorem labels_follow_pattern_table :
  forall (self : Analyzer.MarkdownComplexityAnalyzer)
         (file_path content : string),
    let a := Analyzer.analyze_file re_findall self file_path content in
    Analyzer.Analysis.conflicts a
    = flat_map (pattern_label re_findall content)
               (Analyzer.conflict_patterns self)
    /\ Analyzer.Analysis.best_practice_violations a
       = flat_map (pattern_label re_findall content)
                  (Analyzer.best_practice_violations self)
    /\ (forall label,
           In label (Analyzer.Analysis.conflicts a) <->
           exists pattern description,
             In (pattern, description) (Analyzer.conflict_patterns self)
             /\ re_findall pattern content [Analyzer.IGNORECASE] <> []
             /\ label = Analyzer.instances description
                          (List.length
                             (re_findall pattern content
                                         [Analyzer.IGNORECASE])))
    /\ (List.length (Analyzer.Analysis.conflicts a)
        <= List.length (Analyzer.conflict_patterns self))%nat
    /\ (List.length (Analyzer.Analysis.best_practice_violations a)
        <= List.length (Analyzer.best_practice_violations self))%nat.
Proof.
  intros self file_path content a.
  assert (Hc : Analyzer.Analysis.conflicts a
               = flat_map (pattern_label re_findall content)
                          (Analyzer.conflict_patterns self)).
  { unfold a, Analyzer.analyze_file.
    match goal with
    | |- context [Analyzer.scan_conflicts ?r ?wt ?ps ?c ?acc] =>
        pose proof (scan_conflicts_labels r wt ps c acc) as Hl;
        destruct (Analyzer.scan_conflicts r wt ps c acc) as [score conflicts]
    end. exact Hl. }
  assert (Hv : Analyzer.Analysis.best_practice_violations a
               = flat_map (pattern_label re_findall content)
                          (Analyzer.best_practice_violations self)).
  { unfold a, Analyzer.analyze_file.
    destruct (Analyzer.scan_conflicts _ _ _ _ _).
    cbn [Analyzer.Analysis.best_practice_violations].
    apply scan_violations_labels. }
  assert (Hone : forall p, (List.length (pattern_label re_findall content p)
                            <= 1)%nat).
  { intro p. unfold pattern_label. destruct (re_findall _ _ _); cbn; lia. }
  split; [exact Hc|]. split; [exact Hv|]. rewrite Hc, Hv.
  split; [|split; apply flat_map_length_le; exact Hone].
  intro label. rewrite in_flat_map. split.
  - intros ([pattern description] & Hin & Hlabel).
    unfold pattern_label in Hlabel. cbn [fst snd] in Hlabel.
    exists pattern, description. split; [exact Hin|].
    destruct (re_findall pattern content [Analyzer.IGNORECASE]);
      [destruct Hlabel|].
    destruct Hlabel as [<-|[]]. split; [discriminate | reflexivity].
  - intros (pattern & description & Hin & Hne & ->).
    exists (pattern, description). split; [exact Hin|].
    unfold pattern_label. cbn [fst snd].
    destruct (re_findall pattern content [Analyzer.IGNORECASE]);
      [contradiction | now left].
Qed.

(** X22.  An empty document scores 0, whenever the regular expression
    engine finds no match in the empty text for the patterns the analyzer
    searches (each of them needs at least one character): its size is 0, it
    has one line, all counts of the breakdown are 0 and it carries no
    label. *)
Theorem empty_document_scores_zero :
  forall file_path : string,
    (forall pattern flags,
        In pattern (searched_patterns Analyzer.init) ->
        re_findall pattern EmptyString flags = []) ->
    let a := Analyzer.analyze_file re_findall Analyzer.init file_path
                                   EmptyString in
    Analyzer.Analysis.complexity_score a == 0
    /\ Analyzer.Analysis.size_kb a == 0
    /\ Analyzer.Analysis.line_count a = 1%Z
    /\ (forall name count,
           In (name, count) (Analyzer.Analysis.complexity_breakdown a) ->
           count = 0%Z)
    /\ Analyzer.Analysis.conflicts a = []
    /\ Analyzer.Analysis.best_practice_violations a = [].
Proof.
  intros file_path Hnone a. unfold a, Analyzer.analyze_file.
  cbn [Analyzer.init Analyzer.conflict_patterns
       Analyzer.best_practice_violations Analyzer.scan_conflicts
       Analyzer.scan_violations Analyzer.complexity_indicators].
  rewrite !Hnone by (cbn; tauto). cbn. repeat split.
  intros name count Hin.
  repeat destruct Hin as [Hin|Hin]; try (now injection Hin as <- <-).
  destruct Hin.
Qed.

(** X23.  A count of the breakdown is zero exactly when its marker is
    absent: there is no code block count without the fence marker in the
    text, no mermaid count without "graph" or the mermaid fence; and since
    occurrences are counted without overlap, three times the number of
    fences never exceeds the length of the text. *)
Theorem breakdown_counts_follow_markers :
  forall (self : Analyzer.MarkdownComplexityAnalyzer)
         (file_path content : string),
    let bd := Analyzer.Analysis.complexity_breakdown
                (Analyzer.analyze_file re_findall self file_path content) in
    (breakdown_count "code_blocks" bd = 0%Z
     <-> ~ is_substring "```" content)
    /\ (breakdown_count "mermaid_diagrams" bd = 0%Z
        <-> ~ is_substring "graph" content
            /\ ~ is_substring "```mermaid" content)
    /\ (breakdown_count "workflow_steps" bd = 0%Z
        <-> ~ is_substring "Step" content /\ ~ is_substring "Phase" content)
    /\ (3 * breakdown_count "code_blocks" bd
        <= Z.of_nat (String.length content))%Z.
Proof.
  intros self file_path content bd. unfold bd, Analyzer.analyze_file.
  destruct (Analyzer.scan_conflicts _ _ _ _ _).
  cbn [Analyzer.Analysis.complexity_breakdown]. cbn [breakdown_count].
  cbn [String.eqb Ascii.eqb Bool.eqb].
  cbn -[Py.count is_substring Z.of_nat Z.mul].
  unfold Analyzer.countZ.
  assert (Hz : forall sub, sub <> EmptyString ->
                 (Z.of_nat (Py.count content sub) = 0%Z
                  <-> ~ is_substring sub content)).
  { intros sub Hne. rewrite <- (count_zero_iff content sub Hne). lia. }
  split; [apply Hz; discriminate|]. split; [|split].
  - rewrite <- (Hz "graph"), <- (Hz "```mermaid") by discriminate. lia.
  - rewrite <- (Hz "Step"), <- (Hz "Phase") by discriminate. lia.
  - pose proof (count_bound content "```") as H.
    assert (Hne : "```" <> EmptyString) by discriminate.
    specialize (H Hne). cbn [String.length] in H. lia.
Qed.

End DocumentScoreProperties.

(** The empty document under an engine that matches the empty pattern in
    it, and none of the analyzer's. *)
Lemma empty_document_scores_zero_example :
  empty_pattern_only EmptyString EmptyString [] = [EmptyString]
  /\ Analyzer.Analysis.complexity_score
       (Analyzer.analyze_file empty_pattern_only Analyzer.init "empty.md"
                              EmptyString)
     == 0
  /\ Analyzer.Analysis.size_kb
       (Analyzer.analyze_file empty_pattern_only Analyzer.init "empty.md"
                              EmptyString)
     == 0
  /\ Analyzer.Analysis.line_count
       (Analyzer.analyze_file empty_pattern_only Analyzer.init "empty.md"
                              EmptyString)
     = 1%Z
  /\ (forall name count,
         In (name, count)
            (Analyzer.Analysis.complexity_breakdown
               (Analyzer.analyze_file empty_pattern_only Analyzer.init
                                      "empty.md" EmptyString)) ->
         count = 0%Z)
  /\ Analyzer.Analysis.conflicts
       (Analyzer.analyze_file empty_pattern_only Analyzer.init "empty.md"
                              EmptyString)
     = []
  /\ Analyzer.Analysis.best_practice_violations
       (Analyzer.analyze_file empty_pattern_only Analyzer.init "empty.md"
                              EmptyString)
     = [].
Proof.
  split; [reflexivity|].
  apply (empty_document_scores_zero empty_pattern_only "empty.md").
  intros pattern flags Hin. cbn in Hin.
  repeat (destruct Hin as [<-|Hin]; [reflexivity|]). destruct Hin.
Defined.

(** ** From the static analysis to the threshold check *)

Section AnalysisToThreshold.

Variable re_findall : string -> string -> list Analyzer.re_flag -> list string.
Variable self : Analyzer.MarkdownComplexityAnalyzer.

Lemma to_json_items (now : string) (docs : list (string * string)) :
  static_items
    (Some (Analyzer.to_json
             (Analyzer.analyze_repository re_findall self now docs)))
  = map (fun doc =>
           (fst doc,
            {| StaticResults.complexity_score :=
                 Analyzer.Analysis.complexity_score
                   (doc_analysis re_findall self doc);
               StaticResults.size_kb :=
                 Some (Analyzer.Analysis.size_kb
                         (doc_analysis re_findall self doc));
               StaticResults.line_count :=
                 Some (Analyzer.Analysis.line_count
                         (doc_analysis re_findall self doc)) |}))
        docs.
Proof.
  unfold static_items, Analyzer.to_json, Analyzer.analyze_repository.
  cbn [StaticResults.file_analysis get].
  match goal with
  | |- context [Analyzer.finish ?x] =>
      destruct (finish_fields x) as (_ & _ & _ & _ & Hf); rewrite Hf
  end.
  match goal with
  | |- context [fold_left _ docs ?r0] =>
      destruct (analyze_loop re_findall self docs r0) as (_ & _ & Hl & _)
  end.
  cbv zeta in Hl. rewrite Hl. cbn [Analyzer.Results.file_analysis app].
  rewrite map_map. reflexivity.
Qed.

Lemma fold_left_map_acc {A B : Type} (f : Q -> B -> Q) (g : A -> B)
      (xs : list A) (acc : Q) :
  fold_left f (map g xs) acc = fold_left (fun a x => f a (g x)) xs acc.
Proof.
  revert acc. induction xs as [|x xs IH]; intro acc; [reflexivity|].
  cbn. apply IH.
Qed.

(** X24.  Run on the results file the static analyzer wrote, the default
    checker counts as many files as the analyzer analysed, its
    [total_current] is the analyzer's [total_complexity], and every
    verdict belongs to an analysed document and carries that document's
    score, size and line count. *)
Theorem checker_totals_match_analyzer :
  forall (analyzed_at checked_at : string) (docs : list (string * string))
         (gpt_results : option GptResults.t),
    let results :=
      Analyzer.analyze_repository re_findall self analyzed_at docs in
    exists report,
      Checker.check_loaded Checker.init checked_at
                           (Some (Analyzer.to_json results)) gpt_results
      = Ok report
      /\ Checker.files_checked (Checker.summary report)
         = Analyzer.Results.files_analyzed results
      /\ Checker.total_current (Checker.summary report)
         = Analyzer.Results.total_complexity results
      /\ (forall info, In info (Checker.exceeded_files report) ->
            exists content,
              In (Checker.file info, content) docs
              /\ Checker.current_score info
                 = Analyzer.Analysis.complexity_score
                     (Analyzer.analyze_file re_findall self
                                            (Checker.file info) content)
              /\ Checker.size_kb info
                 = Analyzer.Analysis.size_kb
                     (Analyzer.analyze_file re_findall self
                                            (Checker.file info) content)
              /\ Checker.line_count info
                 = Analyzer.Analysis.line_count
                     (Analyzer.analyze_file re_findall self
                                            (Checker.file info) content)).
Proof.
  intros analyzed_at checked_at docs gpt_results results.
  destruct (check_loaded_run Checker.init checked_at
              (Some (Analyzer.to_json results)) gpt_results
              init_nonzero_thresholds)
    as (report & Hok & _ & Hfiles & Hchecked & _ & Hcur & _).
  unfold results in Hfiles, Hchecked, Hcur.
  rewrite to_json_items in Hfiles, Hchecked, Hcur.
  destruct (analyze_loop re_findall self docs
              {| Analyzer.Results.timestamp := analyzed_at;
                 Analyzer.Results.files_analyzed := 0;
                 Analyzer.Results.total_complexity := 0;
                 Analyzer.Results.high_complexity_files := [];
                 Analyzer.Results.conflicts_found := [];
                 Analyzer.Results.best_practice_violations := [];
                 Analyzer.Results.recommendations := [];
                 Analyzer.Results.file_analysis := [];
                 Analyzer.Results.summary := None |})
    as (Hn & Ht & _).
  cbv zeta in Hn, Ht.
  exists report. split; [exact Hok|]. split; [|split].
  - rewrite Hchecked, length_map. symmetry. exact Hn.
  - rewrite Hcur, fold_left_map_acc. symmetry. exact Ht.
  - intros info Hin.
    destruct (Hfiles info Hin) as (a & k & b & Hdoc & _ & _ & Hinfo & _).
    apply in_map_iff in Hdoc as ([file_path content] & Heq & Hdoc).
    cbn [fst] in Heq. injection Heq as Hpath Ha.
    exists content. rewrite <- Hpath. split; [exact Hdoc|].
    rewrite Hinfo, <- Ha. cbn. unfold doc_analysis. cbn [fst snd].
    rewrite Hpath. repeat split.
Qed.

End AnalysisToThreshold.

(** ** The semantic analysis *)

Section NumericAnswers.

Variable gpt : string -> string -> Gpt.analysis_type -> Gpt.Response.t.

Lemma fold_left_invariant {A S : Type} (f : S -> A -> S)
      (P : list A -> S -> Prop) (s0 : S) :
  P [] s0 ->
  (forall done x s, P done s -> P (done ++ [x]) (f s x)) ->
  forall xs, P xs (fold_left f xs s0).
Proof.
  intros H0 Hstep xs.
  assert (H : forall done s, P done s -> P (done ++ xs) (fold_left f xs s)).
  { induction xs as [|x xs IH]; intros done s HP; cbn.
    - now rewrite app_nil_r.
    - specialize (IH (done ++ [x]) (f s x) (Hstep done x s HP)).
      now rewrite <- app_assoc in IH. }
  exact (H [] s0 H0).
Qed.

Lemma existsb_eqb_In (path : string) (keys : list string) :
  existsb (String.eqb path) keys = true <-> In path keys.
Proof.
  rewrite existsb_exists. split.
  - intros (k & Hin & E). apply String.eqb_eq in E. now subst.
  - intro Hin. exists path. split; [exact Hin | apply String.eqb_refl].
Qed.

Lemma semantic_loop (now : string) (docs : list (string * string)) :
  semantic_invariant gpt docs
    (Gpt.analyze_repository_semantic gpt now docs).
Proof.
  unfold Gpt.analyze_repository_semantic.
  apply (fold_left_invariant (Gpt.analyze_one gpt) (semantic_invariant gpt)).
  - unfold semantic_invariant. cbn. repeat split; try tauto;
      try constructor; try (intros ? ? []).
  - intros done [file_path content] r
           (Hc & Hv & Hi & Hn & Hnd & Hkeys & Hfa).
    unfold Gpt.analyze_one.
    destruct (existsb _ _) eqn:E.
    + apply existsb_eqb_In in E.
      unfold semantic_invariant. repeat split; auto.
      * intro H. rewrite map_app. apply in_or_app. left. now apply Hkeys.
      * rewrite map_app. intro H. apply in_app_or in H as [H|[<-|[]]];
          [now apply Hkeys | exact E].
      * intros path fa Hin. destruct (Hfa path fa Hin) as (c & Hdoc & ->).
        exists c. split; [apply in_or_app; now left | reflexivity].
    + assert (Hnew : ~ In file_path (map fst (Gpt.Results.file_analysis r))).
      { intro H. apply existsb_eqb_In in H. congruence. }
      unfold semantic_invariant.
      cbn [Gpt.Results.rule_conflicts Gpt.Results.best_practice_violations
           Gpt.Results.cursor_compatibility_issues Gpt.Results.files_analyzed
           Gpt.Results.file_analysis].
      rewrite !map_app, !flat_map_app, length_app, Hc, Hv, Hi, Hn.
      cbn [map flat_map fst snd List.length]. rewrite !app_nil_r.
      repeat split; auto.
      * lia.
      * apply NoDup_app; [exact Hnd | repeat constructor; intros [] | ].
        intros x Hx [<-|[]]. contradiction.
      * intro H. apply in_app_or in H as [H|H]; apply in_or_app.
        -- left. now apply Hkeys.
        -- right. exact H.
      * intro H. apply in_app_or in H as [H|H]; apply in_or_app.
        -- left. now apply Hkeys.
        -- right. exact H.
      * intros path fa Hin. apply in_app_or in Hin as [Hin|[[= <- <-]|[]]].
        -- destruct (Hfa path fa Hin) as (c & Hdoc & ->).
           exists c. split; [apply in_or_app; now left | reflexivity].
        -- exists content. split; [apply in_or_app; right; now left|].
           reflexivity.
Qed.

(** X26.  ['high_complexity_files'] of the semantic results holds, in
    order, exactly the stored judgements rated above 7, each with its
    rating and its Cursor compatibility; there are never more of them than
    files analysed. *)
Theorem semantic_high_files_are_rated_above_7 :
  forall (now : string) (docs : list (string * string)),
    let r := Gpt.analyze_repository_semantic gpt now docs in
    Gpt.Results.high_complexity_files r
    = map Gpt.high_entry
          (filter rated_high (map snd (Gpt.Results.file_analysis r)))
    /\ (forall h, In h (Gpt.Results.high_complexity_files r) ->
                  7 < GptResults.complexity h)
    /\ (forall path fa, In (path, fa) (Gpt.Results.file_analysis r) ->
          7 < Gpt.FileAnalysis.complexity_rating fa ->
          In (Gpt.high_entry fa) (Gpt.Results.high_complexity_files r))
    /\ (Z.of_nat (List.length (Gpt.Results.high_complexity_files r))
        <= Gpt.Results.files_analyzed r)%Z.
Proof.
  intros now docs r.
  pose proof (high_complexity_files_filter gpt now docs) as Hhigh.
  cbv zeta in Hhigh. fold r in Hhigh.
  destruct (semantic_loop now docs) as (_ & _ & _ & Hn & _).
  fold r in Hn.
  split; [exact Hhigh|]. rewrite Hhigh. split; [|split].
  - intros h Hin. apply in_map_iff in Hin as (fa & <- & Hfa).
    apply filter_In in Hfa as [_ Hfa]. now apply gt_true_iff in Hfa.
  - intros path fa Hin Hr. apply in_map, filter_In. split.
    + apply in_map_iff. exists (path, fa). split; auto.
    + now apply gt_true_iff.
  - rewrite Hn, length_map. apply Nat2Z.inj_le.
    rewrite <- (length_map snd (Gpt.Results.file_analysis r)).
    apply filter_length_le.
Qed.

End NumericAnswers.

Section NumericAnswersRun.

Import SemanticRun.

Variable gpt : string -> string -> Gpt.analysis_type -> Gpt.Response.t.

Lemma analyze_content_of_response (results : Results.t)
      (file_path content : string) :
  analyze_content (fun c p k => of_response (gpt c p k)) results
                  file_path content
  = let fa := Gpt.judge gpt file_path content in
    let results :=
      with_labels results
        (Results.rule_conflicts results
         ++ map Json.Str (Gpt.FileAnalysis.conflicts fa))
        (Results.best_practice_violations results
         ++ map Json.Str (Gpt.FileAnalysis.violations fa))
        (Results.cursor_compatibility_issues results
         ++ map Json.Str (Gpt.FileAnalysis.cursor_issues fa)) in
    (if Py.gt (Gpt.FileAnalysis.complexity_rating fa) 7
     then append_high results (GptJson.of_high_file (Gpt.high_entry fa))
     else results,
     Ok (of_judgement fa)).
Proof.
  unfold analyze_content, Gpt.judge, of_response, strings.
  cbn -[Py.count Z.of_nat Py.gt].
  destruct results as [ts n rc bv ci high errs fas].
  cbn -[Py.count Z.of_nat Py.gt].
  destruct (Gpt.Response.conflicts (gpt content file_path Gpt.rule_conflicts))
    as [xs|];
    destruct (Gpt.Response.violations
                (gpt content file_path Gpt.best_practices)) as [ys|];
    destruct (Gpt.Response.issues
                (gpt content file_path Gpt.cursor_compatibility)) as [zs|];
    destruct (Gpt.Response.complexity_rating
                (gpt content file_path Gpt.rule_conflicts)) as [q|];
    destruct (Gpt.Response.cursor_compatibility
                (gpt content file_path Gpt.cursor_compatibility)) as [k|];
    cbn -[Py.count Z.of_nat Py.gt]; rewrite ?app_nil_r;
    destruct (Py.gt _ 7); reflexivity.
Qed.

(** On answers whose ratings are numbers and whose labels are lists the
    loop body is [Gpt.analyze_one]: no statement of the [try] block
    raises. *)
Lemma analyze_one_of_results (r : Gpt.Results.t) (doc : string * string) :
  analyze_one (fun c p k => of_response (gpt c p k))
              (of_results r, map fst (Gpt.Results.file_analysis r))
              (fst doc, Ok (snd doc))
  = (of_results (Gpt.analyze_one gpt r doc),
     map fst (Gpt.Results.file_analysis (Gpt.analyze_one gpt r doc))).
Proof.
  destruct doc as [file_path content]. cbn [fst snd].
  unfold analyze_one, Gpt.analyze_one.
  destruct (existsb _ _); [reflexivity|].
  rewrite analyze_content_of_response. cbv zeta.
  destruct r as [ts n rc bv ci high fas].
  unfold of_results. cbn -[Gpt.judge Py.gt].
  destruct (Py.gt _ 7); cbn -[Gpt.judge]; rewrite !map_app; reflexivity.
Qed.

(** [Gpt.analyze_repository_semantic] is the run on answers whose ratings
    are numbers and whose labels are lists, over files that can all be
    read. *)
Lemma analyze_repository_semantic_of_results (now : string)
      (docs : list (string * string)) :
  analyze_repository_semantic (fun c p k => of_response (gpt c p k)) now
    (map (fun doc => (fst doc, Ok (snd doc))) docs)
  = of_results (Gpt.analyze_repository_semantic gpt now docs).
Proof.
  unfold analyze_repository_semantic, Gpt.analyze_repository_semantic.
  change (empty_results now, @nil string)
    with (of_results
            {| Gpt.Results.timestamp := now;
               Gpt.Results.files_analyzed := 0;
               Gpt.Results.rule_conflicts := [];
               Gpt.Results.best_practice_violations := [];
               Gpt.Results.cursor_compatibility_issues := [];
               Gpt.Results.high_complexity_files := [];
               Gpt.Results.file_analysis := [] |},
          map fst (Gpt.Results.file_analysis
                     {| Gpt.Results.timestamp := now;
                        Gpt.Results.files_analyzed := 0;
                        Gpt.Results.rule_conflicts := [];
                        Gpt.Results.best_practice_violations := [];
                        Gpt.Results.cursor_compatibility_issues := [];
                        Gpt.Results.high_complexity_files := [];
                        Gpt.Results.file_analysis := [] |})).
  generalize ({| Gpt.Results.timestamp := now;
                 Gpt.Results.files_analyzed := 0;
                 Gpt.Results.rule_conflicts := [];
                 Gpt.Results.best_practice_violations := [];
                 Gpt.Results.cursor_compatibility_issues := [];
                 Gpt.Results.high_complexity_files := [];
                 Gpt.Results.file_analysis := [] |}).
  induction docs as [|doc docs IH]; intro r; [reflexivity|].
  cbn [map fold_left]. rewrite analyze_one_of_results. apply IH.
Qed.

End NumericAnswersRun.

(** ** The semantic run with its exception handler *)

Section SemanticRunAccounts.

Import SemanticRun.

Variable gpt : string -> string -> Gpt.analysis_type -> answer.

Lemma read_paths_app (done more : list (string * result string)) :
  read_paths (done ++ more) = read_paths done ++ read_paths more.
Proof. unfold read_paths. apply flat_map_app. Qed.

Lemma read_paths_In (docs : list (string * result string)) (path : string) :
  In path (read_paths docs) <-> exists content, In (path, Ok content) docs.
Proof.
  unfold read_paths. rewrite in_flat_map. split.
  - intros ([p [c|e]] & Hin & H); cbn in H; [|destruct H].
    destruct H as [<-|[]]. now exists c.
  - intros (c & Hin). exists (path, Ok c). split; [exact Hin | now left].
Qed.

Lemma analyze_one_accounts (done : list (string * result string))
      (doc : string * result string) (state : Results.t * list string) :
  run_invariant gpt done state ->
  run_invariant gpt (done ++ [doc]) (analyze_one gpt state doc).
Proof.
  destruct state as [results analyzed_files], doc as [file_path read_text].
  unfold run_invariant. cbn [fst snd].
  intros (Hn & Hnd & Hread & Hkd & Hka & Hacc & Hfa & Herr).
  assert (Hfa' : forall path fa,
             In (path, fa) (Results.file_analysis results) ->
             Judgement.file_path fa = path
             /\ exists content earlier,
                 In (path, Ok content) (done ++ [(file_path, read_text)])
                 /\ snd (analyze_content gpt earlier path content) = Ok fa).
  { intros path fa Hin. destruct (Hfa path fa Hin) as (Hp & c & r0 & Hd & Ho).
    split; [exact Hp|]. exists c, r0. split; [|exact Ho].
    apply in_or_app. now left. }
  unfold analyze_one.
  destruct (existsb _ _) eqn:E.
  - apply existsb_eqb_In in E. cbn [fst snd].
    repeat split; auto.
    + intro H. rewrite read_paths_app. apply in_or_app. left. now apply Hread.
    + rewrite read_paths_app. intro H. apply in_app_or in H as [H|H];
        [now apply Hread|].
      destruct read_text as [c|e]; cbn in H; [|destruct H].
      destruct H as [<-|[]]. exact E.
    + apply (Hfa' _ _ H).
    + apply (Hfa' _ _ H).
    + intros path e Hin. destruct (Herr path e Hin) as [H|H]; [|now right].
      left. apply in_or_app. now left.
  - assert (Hnew : ~ In file_path analyzed_files).
    { intro H. apply existsb_eqb_In in H. congruence. }
    destruct read_text as [content|e]; cbn [fst snd].
    + pose proof (analyze_content_run gpt (count_file results) file_path
                                      content) as Hrun.
      destruct (analyze_content gpt (count_file results) file_path content)
        as [results' [fa|e]] eqn:Eout;
        destruct Hrun as (_ & Hcount & Herrors & Hstored & Hout);
        cbn [fst snd store append_error Results.files_analyzed
             Results.file_analysis Results.analysis_errors];
        rewrite ?Hcount, ?Herrors, ?Hstored;
        cbn [count_file Results.files_analyzed Results.file_analysis
             Results.analysis_errors].
      * destruct Hout as (Hpath & _).
        rewrite map_app, length_app, read_paths_app. cbn [map fst List.length].
        repeat split.
        -- rewrite Hn. lia.
        -- apply NoDup_app; [exact Hnd | repeat constructor; intros [] |].
           intros x Hx [<-|[]]. contradiction.
        -- intro H. apply in_app_or in H as [H|H]; apply in_or_app;
             [left; now apply Hread | right; exact H].
        -- intro H. apply in_app_or in H as [H|H]; apply in_or_app;
             [left; now apply Hread | right; exact H].
        -- apply NoDup_app; [exact Hkd | repeat constructor; intros [] |].
           intros x Hx [<-|[]]. apply Hnew, Hka, Hx.
        -- intros path H. apply in_app_or in H as [H|H]; apply in_or_app;
             [left; now apply Hka | right; exact H].
        -- intros path H. apply in_app_or in H as [H|[<-|[]]].
           ++ destruct (Hacc path H) as [H'|H']; [left|now right].
              apply in_or_app. now left.
           ++ left. apply in_or_app. right. now left.
        -- apply in_app_or in H as [H|[[= <- <-]|[]]];
             [apply (Hfa' _ _ H) | exact Hpath].
        -- apply in_app_or in H as [H|[[= <- <-]|[]]];
             [apply (Hfa' _ _ H)|].
           exists content, (count_file results). split.
           ++ apply in_or_app. right. now left.
           ++ now rewrite Eout.
        -- intros path e Hin. destruct (Herr path e Hin) as [H|[H1 H2]].
           ++ left. apply in_or_app. now left.
           ++ right. split; [exact H1|]. apply in_or_app. now left.
      * destruct Hout as (-> & _).
        rewrite length_app, read_paths_app. cbn [List.length].
        repeat split.
        -- rewrite Hn. lia.
        -- apply NoDup_app; [exact Hnd | repeat constructor; intros [] |].
           intros x Hx [<-|[]]. contradiction.
        -- intro H. apply in_app_or in H as [H|H]; apply in_or_app;
             [left; now apply Hread | right; exact H].
        -- intro H. apply in_app_or in H as [H|H]; apply in_or_app;
             [left; now apply Hread | right; exact H].
        -- exact Hkd.
        -- intros path H. apply in_or_app. left. now apply Hka.
        -- intros path H. apply in_app_or in H as [H|[<-|[]]].
           ++ destruct (Hacc path H) as [H'|H']; [now left|right].
              apply in_or_app. now left.
           ++ right. apply in_or_app. right. now left.
        -- apply (Hfa' _ _ H).
        -- apply (Hfa' _ _ H).
        -- intros path e Hin. apply in_app_or in Hin as [Hin|[[= <- <-]|[]]].
           ++ destruct (Herr path e Hin) as [H|[H1 H2]].
              ** left. apply in_or_app. now left.
              ** right. split; [exact H1|]. apply in_or_app. now left.
           ++ right. split; [reflexivity|]. apply in_or_app. right. now left.
    + cbn [append_error Results.files_analyzed Results.file_analysis
           Results.analysis_errors].
      rewrite read_paths_app. cbn [read_paths flat_map snd]. rewrite app_nil_r.
      repeat split; auto.
      * now apply Hread.
      * now apply Hread.
      * intros path H. destruct (Hacc path H) as [H'|H']; [now left|right].
        apply in_or_app. now left.
      * apply (Hfa' _ _ H).
      * apply (Hfa' _ _ H).
      * intros path e' Hin. apply in_app_or in Hin as [Hin|[[= <- <-]|[]]].
        -- destruct (Herr path e' Hin) as [H|H]; [|now right].
           left. apply in_or_app. now left.
        -- left. apply in_or_app. right. now left.
Qed.

Lemma semantic_run_accounts (now : string)
      (docs : list (string * result string)) :
  run_invariant gpt docs
    (fold_left (analyze_one gpt) docs (empty_results now, [])).
Proof.
  apply (fold_left_invariant (analyze_one gpt) (run_invariant gpt)).
  - unfold run_invariant. cbn. repeat split; try tauto; try constructor;
      try (intros ? ? []); try (intros ? []).
  - intros done x s. apply analyze_one_accounts.
Qed.

End SemanticRunAccounts.

Section SemanticRunProperties.

Import SemanticRun.

Variable gpt : string -> string -> Gpt.analysis_type -> answer.

Lemma same_elements_length (xs ys : list string) :
  NoDup xs -> (forall x, In x xs <-> In x ys) ->
  List.length xs = List.length (nodup string_dec ys).
Proof.
  intros Hnd Hsame. apply Permutation_length, NoDup_Permutation.
  - exact Hnd.
  - apply NoDup_nodup.
  - intro x. rewrite nodup_In. apply Hsame.
Qed.

Lemma read_paths_length (docs : list (string * result string)) :
  (List.length (read_paths docs) <= List.length docs)%nat.
Proof.
  induction docs as [|[path [c|e]] docs IH]; [cbn; lia| |];
    change (read_paths ((path, Ok c) :: docs))
      with (path :: read_paths docs)
    || change (read_paths ((path, Raise e) :: docs)) with (read_paths docs);
    cbn [List.length]; lia.
Qed.

(** X25.  The semantic analyzer analyses each path once, however often
    the glob patterns yield it, and accounts for every file it could
    read: ['files_analyzed'] is the number of distinct paths read, whether
    their analysis ended or raised; the keys of ['file_analysis'] are
    distinct paths read, each with the judgement its analysis returned; a
    path read that is not a key has an entry in ['analysis_errors'] with
    the [TypeError] that ended its analysis; and the other entries of
    ['analysis_errors'] are the files that could not be read. *)
Theorem semantic_run_analyses_each_path_once :
  forall (now : string) (docs : list (string * result string)),
    let r := analyze_repository_semantic gpt now docs in
    let keys := map fst (Results.file_analysis r) in
    NoDup keys
    /\ (forall path, In path keys -> In path (read_paths docs))
    /\ (forall path, In path (read_paths docs) ->
                     In path keys
                     \/ In (path, TypeError) (Results.analysis_errors r))
    /\ Results.files_analyzed r
       = Z.of_nat (List.length (nodup string_dec (read_paths docs)))
    /\ (Z.of_nat (List.length (Results.file_analysis r))
        <= Results.files_analyzed r <= Z.of_nat (List.length docs))%Z
    /\ (forall path fa,
           In (path, fa) (Results.file_analysis r) ->
           Judgement.file_path fa = path
           /\ exists content earlier,
               In (path, Ok content) docs
               /\ snd (analyze_content gpt earlier path content) = Ok fa)
    /\ (forall path e,
           In (path, e) (Results.analysis_errors r) ->
           In (path, Raise e) docs
           \/ (e = TypeError /\ In path (read_paths docs))).
Proof.
  intros now docs r keys.
  pose proof (semantic_run_accounts gpt now docs) as Hinv.
  unfold run_invariant in Hinv. unfold analyze_repository_semantic in r.
  destruct (fold_left _ _ _) as [results analyzed_files].
  cbn [fst snd] in *. subst r keys.
  destruct Hinv as (Hn & Hnd & Hread & Hkd & Hka & Hacc & Hfa & Herr).
  assert (Hlen : List.length analyzed_files
                 = List.length (nodup string_dec (read_paths docs)))
    by (apply same_elements_length; assumption).
  split; [exact Hkd|]. split; [|split; [|split; [|split; [|split]]]].
  - intros path H. now apply Hread, Hka.
  - intros path H. now apply Hacc, Hread.
  - now rewrite Hn, Hlen.
  - rewrite Hn. split.
    + apply Nat2Z.inj_le.
      rewrite <- (length_map fst (Results.file_analysis results)).
      apply NoDup_incl_length; [exact Hkd | exact Hka].
    + apply Nat2Z.inj_le. rewrite Hlen.
      apply (Nat.le_trans _ (List.length (read_paths docs)));
        [|apply read_paths_length].
      apply NoDup_incl_length; [apply NoDup_nodup|].
      intros x Hx. now apply nodup_In in Hx.
  - exact Hfa.
  - intros path e Hin. destruct (Herr path e Hin) as [H|[H1 H2]];
      [now left|right]. split; [exact H1 | now apply Hread].
Qed.

End SemanticRunProperties.

(** A file whose complexity rating comes as the text "8": it is counted
    and its label collected, its judgement is not stored, and the
    exception is recorded. *)
Example rating_in_text_is_counted_not_stored :
  let r := SemanticRun.analyze_repository_semantic
             answer_rated_in_text EmptyString [("a.md", Ok "x")] in
  SemanticRun.Results.files_analyzed r = 1%Z
  /\ SemanticRun.Results.rule_conflicts r = [Json.Str "c"]
  /\ SemanticRun.Results.file_analysis r = []
  /\ SemanticRun.Results.high_complexity_files r = []
  /\ SemanticRun.Results.analysis_errors r = [("a.md", TypeError)].
Proof. repeat split. Qed.

Section FailedCollaborator.

Import SemanticRun.

Variable chat : Gpt.analysis_type -> string -> string -> result string.
Variable json_loads : string -> result answer.

Lemma analyze_with_gpt_error (self : Gpt.GPTComplexityAnalyzer) :
  Gpt.has_key self = false
  \/ (forall kind path excerpt, exists e, chat kind path excerpt = Raise e)
  \/ (forall kind path excerpt text,
         chat kind path excerpt = Ok text ->
         exists e, json_loads text = Raise e) ->
  forall content path kind,
    analyze_with_gpt chat json_loads self content path kind = error_answer.
Proof.
  intros H content path kind. unfold analyze_with_gpt.
  destruct (Gpt.has_key self) eqn:Ekey; cbn [negb]; [|reflexivity].
  destruct H as [H|[H|H]]; [discriminate| |].
  - destruct (H kind path (String.substring 0 3000 content)) as (e & ->).
    reflexivity.
  - destruct (chat _ _ _) as [text|e] eqn:E; [|reflexivity].
    destruct (H _ _ _ text E) as (e & ->). reflexivity.
Qed.

(** With error dictionaries for answers the [try] block changes nothing in
    the results and returns the default judgement. *)
Lemma analyze_content_error
      (gpt : string -> string -> Gpt.analysis_type -> answer)
      (results : Results.t) (file_path content : string) :
  (forall kind, gpt content file_path kind = error_answer) ->
  exists fa,
    analyze_content gpt results file_path content = (results, Ok fa)
    /\ Judgement.file_path fa = file_path
    /\ default_judgement fa.
Proof.
  intro Herr. unfold analyze_content. rewrite !Herr.
  destruct results. cbn -[Py.count Z.of_nat].
  eexists. split; [reflexivity|]. unfold default_judgement. cbn.
  repeat split.
Qed.

Lemma silent_loop
      (gpt : string -> string -> Gpt.analysis_type -> answer)
      (now : string) (docs : list (string * result string)) :
  (forall content path kind, gpt content path kind = error_answer) ->
  silent_invariant docs
    (fold_left (analyze_one gpt) docs (empty_results now, [])).
Proof.
  intro Herr.
  apply (fold_left_invariant (analyze_one gpt) silent_invariant).
  - unfold silent_invariant. cbn. repeat split; try tauto;
      try (intros ? ? []); try (intros ? []).
  - intros done [file_path read_text] [results analyzed_files].
    unfold silent_invariant. cbn [fst snd].
    intros (Hc & Hv & Hi & Hh & Hread & Hkeys & Hfa & He).
    unfold analyze_one.
    destruct (existsb _ _) eqn:E.
    + apply existsb_eqb_In in E. cbn [fst snd]. repeat split; auto.
      * intros path H. rewrite read_paths_app in H.
        apply in_app_or in H as [H|H]; [now apply Hread|].
        destruct read_text as [c|e]; cbn in H; [|destruct H].
        destruct H as [<-|[]]. exact E.
      * apply (Hfa _ _ H).
      * apply (Hfa _ _ H).
      * apply (Hfa _ _ H).
      * apply (Hfa _ _ H).
      * apply (Hfa _ _ H).
      * intros path e Hin. apply in_or_app. left. now apply He.
    + destruct read_text as [content|e]; cbn [fst snd].
      * destruct (analyze_content_error gpt (count_file results) file_path
                    content (Herr content file_path))
          as (fa & -> & Hpath & Hdefault).
        cbn [fst snd store count_file Results.rule_conflicts
             Results.best_practice_violations
             Results.cursor_compatibility_issues
             Results.high_complexity_files Results.file_analysis
             Results.analysis_errors].
        rewrite map_app. cbn [map fst].
        split; [exact Hc|]. split; [exact Hv|]. split; [exact Hi|].
        split; [exact Hh|]. split; [|split; [|split]].
        -- intros path H. rewrite read_paths_app in H.
           apply in_app_or in H as [H|H]; apply in_or_app;
             [left; now apply Hread | right; exact H].
        -- intros path H. apply in_app_or in H as [H|H]; apply in_or_app;
             [left; now apply Hkeys | right; exact H].
        -- intros path fa' H. apply in_app_or in H as [H|[[= <- <-]|[]]];
             [apply (Hfa _ _ H) | exact Hdefault].
        -- intros path e Hin. apply in_or_app. left. now apply He.
      * cbn [append_error Results.rule_conflicts
             Results.best_practice_violations
             Results.cursor_compatibility_issues
             Results.high_complexity_files Results.file_analysis
             Results.analysis_errors].
        split; [exact Hc|]. split; [exact Hv|]. split; [exact Hi|].
        split; [exact Hh|]. split; [|split; [|split]].
        -- intros path H. rewrite read_paths_app in H.
           cbn [read_paths flat_map snd] in H. rewrite app_nil_r in H.
           now apply Hread.
        -- exact Hkeys.
        -- exact Hfa.
        -- intros path e' Hin. apply in_app_or in Hin as [Hin|[[= <- <-]|[]]];
             apply in_or_app; [left; now apply He | right; now left].
Qed.

(** X27.  Without an API key, or when every call to the hosted model
    fails, or when no answer it gives is valid JSON, the semantic run
    still completes: every file that could be read is analysed and its
    judgement stored with ratings 0 and no labels, no file is flagged,
    ['analysis_errors'] holds only the files that could not be read, and
    the threshold checker run on these results issues no warning. *)
Theorem failed_collaborator_gives_no_signal :
  forall (self : Gpt.GPTComplexityAnalyzer) (now checked_at : string)
         (docs : list (string * result string))
         (static_results : option StaticResults.t),
    Gpt.has_key self = false
    \/ (forall kind path excerpt, exists e, chat kind path excerpt = Raise e)
    \/ (forall kind path excerpt text,
           chat kind path excerpt = Ok text ->
           exists e, json_loads text = Raise e) ->
    let r := analyze_repository_semantic
               (analyze_with_gpt chat json_loads self) now docs in
    Results.rule_conflicts r = []
    /\ Results.best_practice_violations r = []
    /\ Results.cursor_compatibility_issues r = []
    /\ Results.high_complexity_files r = []
    /\ (forall path, In path (read_paths docs)
                     -> In path (map fst (Results.file_analysis r)))
    /\ (forall path fa, In (path, fa) (Results.file_analysis r) ->
                        default_judgement fa)
    /\ (forall path e, In (path, e) (Results.analysis_errors r) ->
                       In (path, Raise e) docs)
    /\ exists report,
        CheckerJson.check_loaded Checker.init checked_at static_results
                                 (Some (to_json r)) = Ok report
        /\ Checker.warnings report = [].
Proof.
  intros self now checked_at docs static_results Hfail r.
  pose proof (silent_loop (analyze_with_gpt chat json_loads self) now docs
                (analyze_with_gpt_error self Hfail)) as Hinv.
  unfold silent_invariant in Hinv. unfold analyze_repository_semantic in r.
  destruct (fold_left _ _ _) as [results analyzed_files].
  cbn [fst snd] in *. subst r.
  destruct Hinv as (Hc & Hv & Hi & Hh & Hread & Hkeys & Hfa & He).
  repeat (split; [assumption|]).
  split; [intros path H; now apply Hkeys, Hread|].
  split; [exact Hfa|]. split; [exact He|].
  rewrite check_loaded_json. unfold numeric_results.
  cbn [semantic_entries to_json GptJson.high_complexity_files get].
  rewrite Hh. cbn [forallb].
  destruct (check_loaded_run Checker.init checked_at static_results
              (numbers_of (Some (to_json results))) init_nonzero_thresholds)
    as (report & Hok & _ & _ & _ & _ & _ & _ & Hwarn).
  exists report. split; [exact Hok|]. rewrite Hwarn.
  rewrite semantic_items_numbers_of.
  cbn [semantic_entries to_json GptJson.high_complexity_files get].
  now rewrite Hh.
Qed.

End FailedCollaborator.

(** An analyzer with a key, whose hosted model answers in prose that the
    decoder refuses, over a file read twice and a file that cannot be
    read. *)
Lemma failed_collaborator_example :
  let r := SemanticRun.analyze_repository_semantic
             (SemanticRun.analyze_with_gpt refusing_chat empty_object_decoder
                                           keyed)
             EmptyString
             [("a.md", Ok "x"); ("b.md", Raise TypeError); ("a.md", Ok "x")]
  in
  SemanticRun.Results.rule_conflicts r = []
  /\ SemanticRun.Results.best_practice_violations r = []
  /\ SemanticRun.Results.cursor_compatibility_issues r = []
  /\ SemanticRun.Results.high_complexity_files r = []
  /\ (forall path,
         In path (read_paths [("a.md", Ok "x"); ("b.md", Raise TypeError);
                              ("a.md", Ok "x")])
         -> In path (map fst (SemanticRun.Results.file_analysis r)))
  /\ (forall path fa, In (path, fa) (SemanticRun.Results.file_analysis r) ->
                      default_judgement fa)
  /\ (forall path e, In (path, e) (SemanticRun.Results.analysis_errors r) ->
                     In (path, Raise e)
                        [("a.md", Ok "x"); ("b.md", Raise TypeError);
                         ("a.md", Ok "x")])
  /\ exists report,
      CheckerJson.check_loaded Checker.init EmptyString None
                               (Some (SemanticRun.to_json r)) = Ok report
      /\ Checker.warnings report = [].
Proof.
  apply (failed_collaborator_gives_no_signal refusing_chat
           empty_object_decoder keyed EmptyString EmptyString
           [("a.md", Ok "x"); ("b.md", Raise TypeError); ("a.md", Ok "x")]
           None).
  right. right. intros kind path excerpt text [= <-].
  exists JSONDecodeError. reflexivity.
Defined.

Section AnalyzerKey.

(** X29.  The semantic analyzer takes the key passed to it unless that key
    is absent or empty, in which case it takes the key of the environment;
    it is always constructed, and it prints its two warning lines exactly
    when it ends up without a usable key. *)
Theorem analyzer_key_resolution :
  forall key env : option string,
  exists self,
    snd (Gpt.init key env) = Ok self
    /\ (forall k, key = Some k -> k <> EmptyString ->
                  Gpt.api_key self = Some k)
    /\ (key = None \/ key = Some EmptyString -> Gpt.api_key self = env)
    /\ (Gpt.has_key self = false <->
        fst (Gpt.init key env)
        = ["No OpenAI API key found. Set OPENAI_API_KEY environment variable.";
           "   Semantic analysis will be skipped."])
    /\ (Gpt.has_key self = true <-> fst (Gpt.init key env) = []).
Proof.
  intros key env. unfold Gpt.init.
  set (self := {| Gpt.api_key := match key with
                                 | Some k => if truthy_str k then Some k
                                             else env
                                 | None => env
                                 end |}).
  exists self. split.
  - destruct (Gpt.has_key self); reflexivity.
  - split; [|split; [|split]].
    + intros k -> Hk. unfold self. cbn.
      destruct k; [contradiction | reflexivity].
    + intros [->| ->]; reflexivity.
    + destruct (Gpt.has_key self); cbn; split; intro H;
        try reflexivity; discriminate.
    + destruct (Gpt.has_key self); cbn; split; intro H;
        try reflexivity; discriminate.
Qed.

End AnalyzerKey.
